(** * Vyberology 2.0: manifest loader, dual code generator, diff builder and adjudicator

    A shallow embedding of the TypeScript sources

    - [packages/shared/src/manifest-loader.ts]  (module [ManifestLoader]),
    - [packages/a4/src/codegen.ts]              (module [A4Codegen]),
    - [packages/adjudicator/src/diff.ts]        (module [DiffBuilder]),
    - [packages/adjudicator/src/compare.ts]     (module [Adjudicator]),

    together with the fragment of the JavaScript platform they run on
    (strings, regular expressions, numbers, JSON.stringify, SHA-256).

    Conventions.
    - A JavaScript string is a [string]: the sequence of its UTF-16 code
      units, each of them below 256.  Code units from 256 on are outside the
      model.
    - A JavaScript number is a binary64 [float].
    - [undefined] in an optional position is [None].
    - Wall-clock reads ([Date.now()], [new Date().toISOString()]) are
      explicit arguments of the function that performs them. *)

From Stdlib Require Import String Ascii List ZArith NArith Bool Arith Lia.
From Stdlib Require Import Permutation Sorted DecimalString.
From Stdlib Require Import PrimFloat SpecFloat FloatOps.
Import ListNotations.

Set Warnings "-inexact-float,-register-all".

Open Scope string_scope.
Open Scope list_scope.
Open Scope nat_scope.

(** String concatenation, the [+] of the sources on strings. *)
Infix "+++" := String.append (right associativity, at level 60).

(* ====================================================================== *)
(** * Platform: strings                                                    *)
(* ====================================================================== *)

Module Js.

(** The double quote, the single quote and the line feed as one-character
    strings and as characters. *)
Definition dqc : ascii := "034"%char.
Definition sqc : ascii := "039"%char.
Definition nlc : ascii := "010"%char.
Definition crc : ascii := "013"%char.
Definition tabc : ascii := "009"%char.
Definition dq : string := String dqc "".
Definition nl : string := String nlc "".

Definition code (c : ascii) : nat := nat_of_ascii c.

(** ECMAScript LineTerminator, restricted to code units below 256. *)
Definition isLineTerminator (c : ascii) : bool :=
  (code c =? 10) || (code c =? 13).

(** ECMAScript WhiteSpace, restricted to code units below 256:
    TAB, VT, FF, SP and NBSP. *)
Definition isWhiteSpace (c : ascii) : bool :=
  (code c =? 9) || (code c =? 11) || (code c =? 12) || (code c =? 32)
  || (code c =? 160).

(** The class [\s], which is also what [trim] strips. *)
Definition isSpace (c : ascii) : bool := isWhiteSpace c || isLineTerminator c.

(** The class [\d]. *)
Definition isDigit (c : ascii) : bool := (48 <=? code c) && (code c <=? 57).

(** The class [\w]. *)
Definition isWord (c : ascii) : bool :=
  isDigit c
  || ((65 <=? code c) && (code c <=? 90))
  || ((97 <=? code c) && (code c <=? 122))
  || (code c =? 95).

(** [s.split(sep)] for a one-character separator. *)
Fixpoint split (sep : ascii) (s : string) : list string :=
  match s with
  | "" => [""]
  | String c s' =>
      if Ascii.eqb c sep then "" :: split sep s'
      else match split sep s' with
           | [] => [String c ""]
           | h :: t => String c h :: t
           end
  end.

(** [l.join(sep)]. *)
Definition join (sep : string) (l : list string) : string := String.concat sep l.

Fixpoint trimStart (s : string) : string :=
  match s with
  | String c s' => if isSpace c then trimStart s' else s
  | "" => ""
  end.

Fixpoint trimEnd (s : string) : string :=
  match s with
  | "" => ""
  | String c s' =>
      let t := trimEnd s' in
      if String.eqb t "" && isSpace c then "" else String c t
  end.

(** [s.trim()]. *)
Definition trim (s : string) : string := trimEnd (trimStart s).

(** [s.startsWith(p)]. *)
Definition startsWith (s p : string) : bool := String.prefix p s.

(** [s.endsWith(p)]. *)
Definition endsWith (s p : string) : bool :=
  (String.length p <=? String.length s)
  && String.eqb (String.substring (String.length s - String.length p)
                                  (String.length p) s) p.

(** [s.indexOf(p)], with [None] for -1. *)
Definition indexOf (s p : string) : option nat := String.index 0 p s.

(** [s.includes(p)]. *)
Definition includes (s p : string) : bool :=
  match indexOf s p with Some _ => true | None => false end.

(** [s.substring(a)] and [s.substring(a, b)] for [a <= b] within range. *)
Definition substringFrom (a : nat) (s : string) : string :=
  String.substring a (String.length s - a) s.
Definition substring (a b : nat) (s : string) : string :=
  String.substring a (b - a) s.

(** [s.slice(0, n)]. *)
Definition slice0 (n : nat) (s : string) : string :=
  String.substring 0 (Nat.min n (String.length s)) s.

(** [s.slice(1, -1)]. *)
Definition slice1m1 (s : string) : string :=
  String.substring 1 (String.length s - 2) s.

(** [s.replace(p, r)] for a string pattern [p]: the first occurrence only. *)
Definition replaceFirst (p r s : string) : string :=
  match indexOf s p with
  | Some i => substring 0 i s +++ r +++ substringFrom (i + String.length p) s
  | None => s
  end.

(** [String(n)] for a non-negative integer. *)
Definition ofNat (n : nat) : string := NilZero.string_of_uint (Nat.to_uint n).

(** [array.includes(x)] on strings. *)
Definition mem (x : string) (l : list string) : bool :=
  existsb (String.eqb x) l.

(** The iteration order of [new Set(l)]: the first occurrence of each
    element, in insertion order. *)
Fixpoint setOfAux (seen : list string) (l : list string) : list string :=
  match l with
  | [] => []
  | x :: l' => if mem x seen then setOfAux seen l'
               else x :: setOfAux (x :: seen) l'
  end.
Definition setOf (l : list string) : list string := setOfAux [] l.

(** [array.sort()] with the default comparison, on strings: ascending order
    of code units.  The result of sorting does not depend on the algorithm,
    the order being total; insertion is used here. *)
Fixpoint insertSorted (x : string) (l : list string) : list string :=
  match l with
  | [] => [x]
  | y :: l' => if String.leb x y then x :: l else y :: insertSorted x l'
  end.
Definition sort (l : list string) : list string :=
  fold_right insertSorted [] l.

End Js.

(* ====================================================================== *)
(** * Platform: regular expressions                                        *)
(* ====================================================================== *)

(** A backtracking matcher for the fragment of ECMAScript regular
    expressions the sources use: characters and classes, concatenation,
    alternation, greedy and lazy repetition, capture groups, positive
    lookahead and the two anchors.  Alternatives are tried left to right and
    a repetition refuses an iteration that consumes nothing, as the
    specification's RepeatMatcher does. *)
Module Regex.

Inductive regex : Type :=
| Eps                                   (* the empty pattern *)
| Chr (c : ascii)                       (* a literal character *)
| Cls (p : ascii -> bool)               (* a character class *)
| Cat (r1 r2 : regex)                   (* r1 r2 *)
| Alt (r1 r2 : regex)                   (* r1|r2 *)
| Star (greedy : bool) (r : regex)      (* r* and r*? *)
| Grp (n : nat) (r : regex)             (* the n-th capture group (r) *)
| Look (r : regex)                      (* (?=r) *)
| Bol                                   (* ^ *)
| Eol.                                  (* $ *)

(** Derived forms. *)
Definition Plus (greedy : bool) (r : regex) : regex := Cat r (Star greedy r).
Definition Opt (r : regex) : regex := Alt r Eps.
Fixpoint Lit (s : string) : regex :=
  match s with
  | "" => Eps
  | String c "" => Chr c
  | String c s' => Cat (Chr c) (Lit s')
  end.
Fixpoint Seq (rs : list regex) : regex :=
  match rs with
  | [] => Eps
  | [r] => r
  | r :: rs' => Cat r (Seq rs')
  end.

(** Classes. *)
Definition anyChar : regex := Cls (fun _ => true).                    (* [\s\S] *)
Definition dot : regex := Cls (fun c => negb (Js.isLineTerminator c)). (* . *)
Definition ws : regex := Cls Js.isSpace.                          (* \s *)
Definition nonws : regex := Cls (fun c => negb (Js.isSpace c)).   (* \S *)
Definition digit : regex := Cls Js.isDigit.                       (* \d *)
Definition word : regex := Cls Js.isWord.                         (* \w *)
Definition oneOf (l : list ascii) : regex :=
  Cls (fun c => existsb (Ascii.eqb c) l).
Definition noneOf (l : list ascii) : regex :=
  Cls (fun c => negb (existsb (Ascii.eqb c) l)).

(** The captures made so far, most recent first. *)
Definition captures := list (nat * string).

Fixpoint capture (n : nat) (cs : captures) : option string :=
  match cs with
  | [] => None
  | (m, s) :: cs' => if Nat.eqb n m then Some s else capture n cs'
  end.

(** The state of a match: the character before the current position (for
    [^] under the m flag), and the rest of the input. *)
Record pos := mkPos { before : option ascii; rest : string }.

Definition advance (c : ascii) (s' : string) : pos := mkPos (Some c) s'.

(** The text consumed between two positions of the same input. *)
Definition consumed (p q : pos) : string :=
  String.substring 0 (String.length (rest p) - String.length (rest q)) (rest p).

Definition atBol (multiline : bool) (p : pos) : bool :=
  match before p with
  | None => true
  | Some c => multiline && Js.isLineTerminator c
  end.

Definition atEol (multiline : bool) (p : pos) : bool :=
  match rest p with
  | "" => true
  | String c _ => multiline && Js.isLineTerminator c
  end.

Definition orElse {R} (a : option R) (b : unit -> option R) : option R :=
  match a with Some x => Some x | None => b tt end.

(** [run r m p cs k]: match [r] at [p] and pass the end position and the
    captures to the continuation [k]; backtrack when [k] fails. *)
Fixpoint run {R : Type} (r : regex) (multiline : bool) (p : pos) (cs : captures)
         (k : pos -> captures -> option R) {struct r} : option R :=
  match r with
  | Eps => k p cs
  | Chr c =>
      match rest p with
      | String d s' => if Ascii.eqb c d then k (advance d s') cs else None
      | "" => None
      end
  | Cls f =>
      match rest p with
      | String d s' => if f d then k (advance d s') cs else None
      | "" => None
      end
  | Cat r1 r2 =>
      run r1 multiline p cs (fun p1 cs1 => run r2 multiline p1 cs1 k)
  | Alt r1 r2 =>
      orElse (run r1 multiline p cs k) (fun _ => run r2 multiline p cs k)
  | Star greedy r1 =>
      (fix loop (fuel : nat) (p : pos) (cs : captures) {struct fuel} : option R :=
         match fuel with
         | O => k p cs
         | S fuel' =>
             let again (_ : unit) :=
               run r1 multiline p cs
                   (fun p1 cs1 =>
                      if String.length (rest p1) <? String.length (rest p)
                      then loop fuel' p1 cs1
                      else None) in
             if greedy then orElse (again tt) (fun _ => k p cs)
             else orElse (k p cs) again
         end) (S (String.length (rest p))) p cs
  | Grp n r1 =>
      run r1 multiline p cs (fun p1 cs1 => k p1 ((n, consumed p p1) :: cs1))
  | Look r1 =>
      match run r1 multiline p cs (fun _ cs1 => Some cs1) with
      | Some cs1 => k p cs1
      | None => None
      end
  | Bol => if atBol multiline p then k p cs else None
  | Eol => if atEol multiline p then k p cs else None
  end.

(** A successful match: the text before it, the matched text, the captures
    and the position after it. *)
Record result := mkResult
  { index : nat; matched : string; groups : captures; after : pos }.

(** The match array entry [m[n]] for [n >= 1]. *)
Definition group (n : nat) (m : result) : option string := capture n (groups m).

Definition matchAt (r : regex) (multiline : bool) (i : nat) (p : pos) : option result :=
  run r multiline p [] (fun q cs => Some (mkResult i (consumed p q) cs q)).

(** The leftmost match at or after position [p], which is at index [i]. *)
Fixpoint searchFrom (r : regex) (multiline : bool) (i : nat) (p : pos)
         (fuel : nat) {struct fuel} : option result :=
  match matchAt r multiline i p with
  | Some m => Some m
  | None =>
      match fuel, rest p with
      | S fuel', String c s' => searchFrom r multiline (S i) (advance c s') fuel'
      | _, _ => None
      end
  end.

Definition start (s : string) : pos := mkPos None s.

(** [s.match(r)] for [r] without the g flag; [r.exec(s)] from index 0. *)
Definition exec (r : regex) (multiline : bool) (s : string) : option result :=
  searchFrom r multiline 0 (start s) (String.length s).

(** [r.test(s)]. *)
Definition test (r : regex) (multiline : bool) (s : string) : bool :=
  match exec r multiline s with Some _ => true | None => false end.

(** [s.search(r)], with [None] for -1. *)
Definition search (r : regex) (s : string) : option nat :=
  option_map index (exec r false s).

(** All matches of [r] under the g flag, as [s.matchAll(r)] and the loop
    [while ((m = r.exec(s)) !== null)] enumerate them: the search resumes
    where the last match ended, one character further after an empty
    match. *)
Fixpoint matchAllFrom (r : regex) (multiline : bool) (i : nat) (p : pos)
         (fuel : nat) {struct fuel} : list result :=
  match fuel with
  | O => []
  | S fuel' =>
      match searchFrom r multiline i p (String.length (rest p)) with
      | None => []
      | Some m =>
          let j := index m + String.length (matched m) in
          match matched m, rest (after m) with
          | "", String c s' =>
              m :: matchAllFrom r multiline (S j) (advance c s') fuel'
          | "", "" => [m]
          | _, _ => m :: matchAllFrom r multiline j (after m) fuel'
          end
      end
  end.

Definition matchAll (r : regex) (multiline : bool) (s : string) : list result :=
  matchAllFrom r multiline 0 (start s) (S (String.length s)).

(** [s.replace(r, by)] under the g flag, for a replacement text without
    dollar patterns. *)
Fixpoint replaceFrom (r : regex) (multiline : bool) (by_ : string) (p : pos)
         (fuel : nat) {struct fuel} : string :=
  match fuel with
  | O => rest p
  | S fuel' =>
      match searchFrom r multiline 0 p (String.length (rest p)) with
      | None => rest p
      | Some m =>
          let skipped := String.substring 0 (index m) (rest p) in
          match matched m, rest (after m) with
          | "", String c s' =>
              skipped +++ by_ +++ String c (replaceFrom r multiline by_ (advance c s') fuel')
          | "", "" => skipped +++ by_
          | _, _ => skipped +++ by_ +++ replaceFrom r multiline by_ (after m) fuel'
          end
      end
  end.

Definition replaceAll (r : regex) (multiline : bool) (by_ : string) (s : string) : string :=
  replaceFrom r multiline by_ (start s) (S (String.length s)).

End Regex.

(* ====================================================================== *)
(** * Platform: numbers                                                    *)
(* ====================================================================== *)

(** The conversions between binary64 numbers and decimal text, computed
    exactly on integers: text to number rounds to the nearest number, ties
    to even; number to text yields the shortest digit string that reads back
    as the same number, as Number::toString prescribes. *)
Module Num.

Import Regex.
Local Open Scope Z_scope.

Definition isNaN (x : float) : bool := PrimFloat.is_nan x.

(** The positive rational [n / d], rounded to the nearest binary64. *)
Definition ofRatio (n d : Z) : float :=
  if (n <=? 0) || (d <=? 0) then PrimFloat.zero else
  let quot ex := if 0 <=? ex then n / (d * 2 ^ ex) else (n * 2 ^ (- ex)) / d in
  let ex0 := Z.log2 n - Z.log2 d - 52 in
  let ex1 := if quot ex0 <? 2 ^ 52 then ex0 - 1 else ex0 in
  (* below 2^-1022 the numbers are 2^-1074 apart *)
  let ex := Z.max ex1 (-1074) in
  let num := if 0 <=? ex then n else n * 2 ^ (- ex) in
  let den := if 0 <=? ex then d * 2 ^ ex else d in
  let q := num / den in
  let r := num - q * den in
  let q := if (den <? 2 * r) || ((den =? 2 * r) && Z.odd q) then q + 1 else q in
  if q =? 0 then PrimFloat.zero
  else if 2 ^ 1024 <=? q * 2 ^ ex then PrimFloat.infinity
  else SF2Prim (S754_finite false (Z.to_pos q) ex).

(** [m * 10^e] for [m >= 0], rounded to the nearest binary64. *)
Definition ofDecimal (m e : Z) : float :=
  if 0 <=? e then ofRatio (m * 10 ^ e) 1 else ofRatio m (10 ^ (- e)).

Definition digitValue (c : ascii) : Z := Z.of_nat (Js.code c) - 48.

(** The value of a string of decimal digits. *)
Definition ofDigits (s : string) : Z :=
  fold_left (fun acc c => 10 * acc + digitValue c) (list_ascii_of_string s) 0.

Definition captured (n : nat) (m : Regex.result) : string :=
  match Regex.group n m with Some s => s | None => "" end.

(** StrDecimalLiteral without its sign: Infinity, or digits with an
    optional fraction, or a fraction alone, each with an optional exponent
    part.  Groups: 1 Infinity, 2 integer digits, 3 fraction digits,
    4 exponent sign, 5 exponent digits. *)
Definition unsignedDecimal : regex :=
  Alt (Grp 1 (Lit "Infinity"))
      (Seq [Alt (Seq [Grp 2 (Plus true digit); Opt (Chr "."); Grp 3 (Star true digit)])
                (Seq [Chr "."; Grp 3 (Plus true digit)]);
            Opt (Seq [oneOf ["e"%char; "E"%char];
                      Grp 4 (Opt (oneOf ["+"%char; "-"%char]));
                      Grp 5 (Plus true digit)])]).

(** The number a match of [unsignedDecimal] denotes. *)
Definition decimalValue (m : Regex.result) : float :=
  match Regex.group 1 m with
  | Some _ => PrimFloat.infinity
  | None =>
      let int := captured 2 m in
      let frac := captured 3 m in
      let exp := ofDigits (captured 5 m) in
      let exp := if String.eqb (captured 4 m) "-" then - exp else exp in
      ofDecimal (ofDigits (int +++ frac)) (exp - Z.of_nat (String.length frac))
  end.

Definition signed (negative : bool) (x : float) : float :=
  if negative then PrimFloat.opp x else x.

(** [parseFloat(s)]: the longest prefix of the trimmed text that is a
    decimal literal, [NaN] when there is none. *)
Definition parseFloat (s : string) : float :=
  match matchAt (Seq [Grp 6 (Opt (oneOf ["+"%char; "-"%char])); unsignedDecimal])
                false 0%nat (Regex.start (Js.trimStart s)) with
  | Some m => signed (String.eqb (captured 6 m) "-") (decimalValue m)
  | None => PrimFloat.nan
  end.

Definition hexValue (c : ascii) : Z :=
  let n := Z.of_nat (Js.code c) in
  if n <=? 57 then n - 48 else if n <=? 70 then n - 55 else n - 87.

Definition isHexDigit (c : ascii) : bool :=
  Js.isDigit c
  || ((65 <=? Js.code c)%nat && (Js.code c <=? 70)%nat)
  || ((97 <=? Js.code c)%nat && (Js.code c <=? 102)%nat).

Definition ofRadix (radix : Z) (s : string) : float :=
  ofRatio (fold_left (fun acc c => radix * acc + hexValue c)
                     (list_ascii_of_string s) 0) 1.

(** StringToNumber: the whole trimmed text must be a numeric literal; the
    empty text is 0. *)
Definition ofString (s : string) : float :=
  let t := Js.trim s in
  let whole (r : regex) := matchAt (Seq [r; Eol]) false 0%nat (Regex.start t) in
  if String.eqb t "" then PrimFloat.zero else
  match whole (Seq [Grp 6 (Opt (oneOf ["+"%char; "-"%char])); unsignedDecimal]) with
  | Some m => signed (String.eqb (captured 6 m) "-") (decimalValue m)
  | None =>
  match whole (Seq [Chr "0"; oneOf ["x"%char; "X"%char]; Grp 1 (Plus true (Cls isHexDigit))]) with
  | Some m => ofRadix 16 (captured 1 m)
  | None =>
  match whole (Seq [Chr "0"; oneOf ["o"%char; "O"%char];
                    Grp 1 (Plus true (oneOf (list_ascii_of_string "01234567")))]) with
  | Some m => ofRadix 8 (captured 1 m)
  | None =>
  match whole (Seq [Chr "0"; oneOf ["b"%char; "B"%char];
                    Grp 1 (Plus true (oneOf ["0"%char; "1"%char]))]) with
  | Some m => ofRadix 2 (captured 1 m)
  | None => PrimFloat.nan
  end end end end.

(** The decimal digits of a non-negative integer. *)
Definition digits (s : Z) : string := NilZero.string_of_uint (N.to_uint (Z.to_N s)).

(** A positive finite number as the exact ratio [n / d]. *)
Definition toRatio (x : float) : Z * Z :=
  match Prim2SF x with
  | S754_finite _ m e => if 0 <=? e then (Zpos m * 2 ^ e, 1) else (Zpos m, 2 ^ (- e))
  | _ => (0, 1)
  end.

(** [n / d < 10^p]. *)
Definition below10 (n d p : Z) : bool :=
  if 0 <=? p then n <? d * 10 ^ p else n * 10 ^ (- p) <? d.

(** The least [p] with [n / d < 10^p]: looked for next to the estimate the
    binary logarithms give, and among all the exponents of binary64
    otherwise. *)
Definition magnitude (n d : Z) : Z :=
  let least p := below10 n d p && negb (below10 n d (p - 1)) in
  let estimate := (Z.log2 n - Z.log2 d) * 30103 / 100000 in
  match find least (map (fun i => estimate + Z.of_nat i - 3) (seq 0 8)) with
  | Some p => p
  | None =>
      match find least (map (fun i => Z.of_nat i - 330) (seq 0 660)) with
      | Some p => p
      | None => 330
      end
  end.

(** The digit strings of [k] digits next to [x] below and above, at the
    scale [10^(p10 - k)]: the one that reads back as [x], the nearer of the
    two when both do. *)
Definition candidate (x : float) (n d p10 : Z) (k : Z) : option (Z * Z) :=
  let p := p10 - k in
  let num := if 0 <=? p then n else n * 10 ^ (- p) in
  let den := if 0 <=? p then d * 10 ^ p else d in
  let lo := num / den in
  let r := num - lo * den in
  let hi := lo + 1 in
  let okLo := PrimFloat.eqb (ofDecimal lo p) x in
  let okHi := PrimFloat.eqb (ofDecimal hi p) x in
  let up := if hi =? 10 ^ k then (10 ^ (k - 1), p10 + 1) else (hi, p10) in
  match okLo, okHi with
  | true, true =>
      if (2 * r <? den) || ((2 * r =? den) && Z.even lo) then Some (lo, p10) else Some up
  | true, false => Some (lo, p10)
  | false, true => Some up
  | false, false => None
  end.

(** The integers [s], [k] and [n] of Number::toString for a positive finite
    [x]: [x] is [s * 10^(n-k)] with [k] digits in [s], [k] least. *)
Definition shortest (x : float) : Z * Z * Z :=
  let '(n, d) := toRatio x in
  let p10 := magnitude n d in
  let fix try (ks : list Z) : Z * Z * Z :=
    match ks with
    | [] => (0, 1, 0)
    | k :: ks' =>
        match candidate x n d p10 k with
        | Some (s, e) => (s, k, e)
        | None => try ks'
        end
    end in
  try (map Z.of_nat (seq 1 17)).

Definition zeros (n : Z) : string :=
  string_of_list_ascii (repeat "0"%char (Z.to_nat n)).

(** Number::toString in radix 10. *)
Definition toString (x : float) : string :=
  if isNaN x then "NaN"
  else if PrimFloat.is_zero x then "0"
  else
    let sign := if PrimFloat.ltb x PrimFloat.zero then "-" else "" in
    let a := PrimFloat.abs x in
    if PrimFloat.is_infinity a then sign +++ "Infinity"
    else
      let '(s, k, n) := shortest a in
      let ds := digits s in
      sign +++
      (if (k <=? n) && (n <=? 21) then ds +++ zeros (n - k)
       else if (0 <? n) && (n <=? 21) then
         String.substring 0 (Z.to_nat n) ds +++ "." +++ Js.substringFrom (Z.to_nat n) ds
       else if (-6 <? n) && (n <=? 0) then "0." +++ zeros (- n) +++ ds
       else
         let e := n - 1 in
         let exponent := (if e <? 0 then "-" else "+") +++ digits (Z.abs e) in
         if k =? 1 then ds +++ "e" +++ exponent
         else String.substring 0 1 ds +++ "." +++ Js.substringFrom 1 ds +++ "e" +++ exponent).

(** The truth value of a number: all but [0], [-0] and [NaN]. *)
Definition truthy (x : float) : bool := negb (PrimFloat.is_zero x || isNaN x).

End Num.

(* ====================================================================== *)
(** * Platform: results of calls that may throw                            *)
(* ====================================================================== *)

(** A JavaScript exception value: the constructor name and the message. *)
Inductive JsError : Type :=
| TypeError (message : string)
| Error (message : string).

(** The completion of a call: a returned value or a thrown exception. *)
Inductive outcome (A : Type) : Type :=
| Returned (a : A)
| Thrown (e : JsError).
Arguments Returned {A} a.
Arguments Thrown {A} e.

Definition bind {A B} (m : outcome A) (k : A -> outcome B) : outcome B :=
  match m with
  | Returned a => k a
  | Thrown e => Thrown e
  end.

Notation "x <- m ;; k" := (bind m (fun x => k))
  (at level 61, m at next level, right associativity).

(** Reading the property [prop] of a value that may be [undefined]. *)
Definition readProperty {A} (prop : string) (o : option A) : outcome A :=
  match o with
  | Some x => Returned x
  | None =>
      Thrown (TypeError ("Cannot read properties of undefined (reading '"
                         +++ prop +++ "')"))
  end.

(* ====================================================================== *)
(** * Platform: values, operators and JSON.stringify                       *)
(* ====================================================================== *)

(** The values of the sources, under the name of their widest type.  An object is the
    list of its own enumerable properties in enumeration order; its keys are
    distinct. *)
Inductive any : Type :=
| VUndefined
| VNull
| VBool (b : bool)
| VNum (x : float)
| VStr (s : string)
| VArr (items : list any)
| VObj (props : list (string * any)).

Module Value.

Definition strs (l : list string) : any := VArr (map VStr l).

(** Lookup of an own property. *)
Fixpoint lookup {A} (k : string) (props : list (string * A)) : option A :=
  match props with
  | [] => None
  | (k', v) :: props' => if String.eqb k k' then Some v else lookup k props'
  end.

(** A canonical array index: the decimal text of an integer below 2^32 - 1.
    Such keys are enumerated first, in ascending order. *)
Definition isArrayIndex (k : string) : bool :=
  Regex.test (Regex.Seq [Regex.Bol;
                         Regex.Alt (Regex.Chr "0")
                                   (Regex.Seq [Regex.oneOf (list_ascii_of_string "123456789");
                                               Regex.Star true Regex.digit]);
                         Regex.Eol]) false k
  && (Num.ofDigits k <? 4294967295)%Z.

(** The place of a new key among the properties. *)
Fixpoint insert {A} (k : string) (v : A) (props : list (string * A)) : list (string * A) :=
  match props with
  | [] => [(k, v)]
  | (k', v') :: props' =>
      if isArrayIndex k
         && (negb (isArrayIndex k') || (Num.ofDigits k <? Num.ofDigits k')%Z)
      then (k, v) :: props
      else (k', v') :: insert k v props'
  end.

Fixpoint replace {A} (k : string) (v : A) (props : list (string * A)) : list (string * A) :=
  match props with
  | [] => []
  | (k', v') :: props' =>
      if String.eqb k k' then (k, v) :: props' else (k', v') :: replace k v props'
  end.

(** The properties after [o[k] = v]. *)
Definition define {A} (k : string) (v : A) (props : list (string * A)) : list (string * A) :=
  match lookup k props with
  | Some _ => replace k v props
  | None => insert k v props
  end.

(** An object literal: the properties defined in the order written. *)
Definition literal (props : list (string * any)) : any :=
  VObj (fold_left (fun acc kv => define (fst kv) (snd kv) acc) props []).

(** [o[k]] and [o.k]: reading a property throws on [undefined] and [null];
    the primitives have none of the properties the sources read.  Arrays
    are read by [items] only. *)
Definition get (o : any) (k : string) : outcome any :=
  match o with
  | VUndefined =>
      Thrown (TypeError ("Cannot read properties of undefined (reading '" +++ k +++ "')"))
  | VNull =>
      Thrown (TypeError ("Cannot read properties of null (reading '" +++ k +++ "')"))
  | VObj props => Returned (match lookup k props with Some v => v | None => VUndefined end)
  | _ => Returned VUndefined
  end.

(** [o?.k]. *)
Definition optGet (o : any) (k : string) : any :=
  match o with
  | VObj props => match lookup k props with Some v => v | None => VUndefined end
  | _ => VUndefined
  end.

(** [typeof v]. *)
Definition typeof (v : any) : string :=
  match v with
  | VUndefined => "undefined"
  | VNull | VArr _ | VObj _ => "object"
  | VBool _ => "boolean"
  | VNum _ => "number"
  | VStr _ => "string"
  end.

Definition isArray (v : any) : bool :=
  match v with VArr _ => true | _ => false end.

(** ToBoolean. *)
Definition truthy (v : any) : bool :=
  match v with
  | VUndefined | VNull => false
  | VBool b => b
  | VNum x => Num.truthy x
  | VStr s => negb (String.eqb s "")
  | VArr _ | VObj _ => true
  end.

(** [a || b] and [a ?? b]. *)
Definition or (a b : any) : any := if truthy a then a else b.
Definition coalesce (a b : any) : any :=
  match a with VUndefined | VNull => b | _ => a end.

(** ToString; an array joins the texts of its elements, with nothing for
    [undefined] and [null]. *)
Fixpoint toString (v : any) : string :=
  match v with
  | VUndefined => "undefined"
  | VNull => "null"
  | VBool true => "true"
  | VBool false => "false"
  | VNum x => Num.toString x
  | VStr s => s
  | VArr items =>
      Js.join "," (map (fun x => match x with
                                 | VUndefined | VNull => ""
                                 | _ => toString x
                                 end) items)
  | VObj _ => "[object Object]"
  end.

(** ToPrimitive: arrays and plain objects convert through [toString]. *)
Definition toPrimitive (v : any) : any :=
  match v with
  | VArr _ | VObj _ => VStr (toString v)
  | _ => v
  end.

(** ToNumber. *)
Definition toNumber (v : any) : float :=
  match toPrimitive v with
  | VUndefined => PrimFloat.nan
  | VNull => PrimFloat.zero
  | VBool true => PrimFloat.one
  | VBool false => PrimFloat.zero
  | VNum x => x
  | VStr s => Num.ofString s
  | _ => PrimFloat.nan
  end.

(** The abstract relational comparison [a < b]: [None] is its undefined
    result, when one side is [NaN]. *)
Definition lessThan (a b : any) : option bool :=
  match toPrimitive a, toPrimitive b with
  | VStr s, VStr t => Some (String.ltb s t)
  | pa, pb =>
      let x := toNumber pa in
      let y := toNumber pb in
      if Num.isNaN x || Num.isNaN y then None else Some (PrimFloat.ltb x y)
  end.

(** [a < b], [a > b], [a <= b] and [a >= b]. *)
Definition lt (a b : any) : bool :=
  match lessThan a b with Some true => true | _ => false end.
Definition gt (a b : any) : bool :=
  match lessThan b a with Some true => true | _ => false end.
Definition le (a b : any) : bool :=
  match lessThan b a with Some false => true | _ => false end.
Definition ge (a b : any) : bool :=
  match lessThan a b with Some false => true | _ => false end.

(** [a + b]. *)
Definition add (a b : any) : any :=
  match toPrimitive a, toPrimitive b with
  | VStr s, pb => VStr (s +++ toString pb)
  | pa, VStr t => VStr (toString pa +++ t)
  | pa, pb => VNum (PrimFloat.add (toNumber pa) (toNumber pb))
  end.

(** [a - b] and [Math.abs(a)]. *)
Definition sub (a b : any) : any :=
  VNum (PrimFloat.sub (toNumber a) (toNumber b)).
Definition abs (a : any) : any := VNum (PrimFloat.abs (toNumber a)).

(** [Object.keys(o)] and [Object.entries(o)]. *)
Definition keys (o : any) : list string :=
  match o with
  | VObj props => map fst props
  | VArr items => map Js.ofNat (seq 0 (length items))
  | VStr s => map Js.ofNat (seq 0 (String.length s))
  | _ => []
  end.
Definition entries (o : any) : list (string * any) :=
  match o with
  | VObj props => props
  | VArr items => combine (map Js.ofNat (seq 0 (length items))) items
  | VStr s => combine (map Js.ofNat (seq 0 (String.length s)))
                      (map (fun c => VStr (String c "")) (list_ascii_of_string s))
  | _ => []
  end.

End Value.

Module Json.

Definition hexDigit (n : nat) : ascii :=
  match String.get n "0123456789abcdef" with Some c => c | None => "0"%char end.

(** QuoteJSONString on one code unit. *)
Definition escape (c : ascii) : string :=
  let n := Js.code c in
  if n =? 8 then "\b"
  else if n =? 9 then "\t"
  else if n =? 10 then "\n"
  else if n =? 12 then "\f"
  else if n =? 13 then "\r"
  else if n =? 34 then String "\"%char Js.dq
  else if n =? 92 then "\\"
  else if n <? 32 then
    "\u00" +++ String (hexDigit (n / 16)) (String (hexDigit (n mod 16)) "")
  else String c "".

Definition quote (s : string) : string :=
  Js.dq +++ String.concat "" (map escape (list_ascii_of_string s)) +++ Js.dq.

(** SerializeJSONProperty without indentation: [None] is the result
    [undefined].  With a property list, an object gives the listed keys in
    the order of the list; without, its own keys in their order. *)
Fixpoint serialize (propertyList : option (list string)) (v : any) : option string :=
  match v with
  | VUndefined => None
  | VNull => Some "null"
  | VBool true => Some "true"
  | VBool false => Some "false"
  | VNum x => Some (if PrimFloat.is_finite x then Num.toString x else "null")
  | VStr s => Some (quote s)
  | VArr items =>
      Some ("[" +++ Js.join "," (map (fun x => match serialize propertyList x with
                                                | Some s => s
                                                | None => "null"
                                                end) items) +++ "]")
  | VObj props =>
      let serialized := map (fun kv => (fst kv, serialize propertyList (snd kv))) props in
      let K := match propertyList with
               | Some l => l
               | None => map fst props
               end in
      let partial :=
        flat_map (fun P => match Value.lookup P serialized with
                           | Some (Some s) => [quote P +++ ":" +++ s]
                           | _ => []
                           end) K in
      Some ("{" +++ Js.join "," partial +++ "}")
  end.

(** The property list of an array replacer whose elements are strings:
    each string once, in the order of its first occurrence. *)
Definition propertyListOf (replacer : list string) : list string := Js.setOf replacer.

(** [JSON.stringify(v)] and [JSON.stringify(v, replacer)]; the text
    ["undefined"] stands for the result [undefined] where a caller
    concatenates or hashes it. *)
Definition stringify (v : any) : option string := serialize None v.

(** A text handed to a hash: [update] throws on the result [undefined]. *)
Definition text (v : any) : outcome string :=
  match stringify v with
  | Some s => Returned s
  | None =>
      Thrown (TypeError
                "The data argument must be of type string or an instance of Buffer, TypedArray, or DataView. Received undefined")
  end.
Definition stringifyWith (replacer : list string) (v : any) : option string :=
  serialize (Some (propertyListOf replacer)) v.

End Json.

(* ====================================================================== *)
(** * Platform: SHA-256                                                    *)
(* ====================================================================== *)

(** [crypto.createHash('sha256').update(text).digest('hex')], after
    FIPS 180-4.  The round constants and the initial state are computed the
    way the standard defines them: the first 32 bits of the fractional parts
    of the cube roots and of the square roots of the first primes. *)
Module Sha256.

Local Open Scope N_scope.

Definition w32 : N := 2 ^ 32.
Definition add32 (x y : N) : N := (x + y) mod w32.
Definition rotr (n x : N) : N :=
  N.lor (N.shiftr x n) ((N.shiftl x (32 - n)) mod w32).
Definition shr (n x : N) : N := N.shiftr x n.
Definition not32 (x : N) : N := w32 - 1 - x.

Definition Ch (x y z : N) : N := N.lxor (N.land x y) (N.land (not32 x) z).
Definition Maj (x y z : N) : N :=
  N.lxor (N.lxor (N.land x y) (N.land x z)) (N.land y z).
Definition bigSigma0 (x : N) : N := N.lxor (N.lxor (rotr 2 x) (rotr 13 x)) (rotr 22 x).
Definition bigSigma1 (x : N) : N := N.lxor (N.lxor (rotr 6 x) (rotr 11 x)) (rotr 25 x).
Definition smallSigma0 (x : N) : N := N.lxor (N.lxor (rotr 7 x) (rotr 18 x)) (shr 3 x).
Definition smallSigma1 (x : N) : N := N.lxor (N.lxor (rotr 17 x) (rotr 19 x)) (shr 10 x).

Definition isPrime (n : nat) : bool :=
  (2 <=? n)%nat && forallb (fun d => negb (n mod d =? 0)%nat) (seq 2 (n - 2)).

(** The first 64 primes. *)
Definition primes : list N :=
  map N.of_nat (firstn 64 (filter isPrime (seq 2 310))).

(** The integer cube root, bit by bit from the top. *)
Definition cbrt (n : N) : N :=
  fold_left (fun r i => let r' := r + 2 ^ i in
                        if r' * r' * r' <=? n then r' else r)
            (map N.of_nat (rev (seq 0 40))) 0.

Definition K : list N :=
  Eval vm_compute in map (fun p => cbrt (p * 2 ^ 96) mod w32) primes.

Definition H0 : list N :=
  Eval vm_compute in map (fun p => N.sqrt (p * 2 ^ 64) mod w32) (firstn 8 primes).

(** The text as UTF-8 octets, for code units below 256. *)
Definition utf8 (s : string) : list N :=
  flat_map (fun c => let n := N.of_nat (Js.code c) in
                     if n <? 128 then [n]
                     else [N.lor 192 (N.shiftr n 6); N.lor 128 (N.land n 63)])
           (list_ascii_of_string s).

(** The big-endian octets of a number. *)
Definition bigEndian (width : nat) (x : N) : list N :=
  map (fun i => (N.shiftr x (8 * N.of_nat i)) mod 256) (rev (seq 0 width)).

(** Padding: a one bit, zeros up to 56 octets modulo 64, the bit length. *)
Definition pad (msg : list N) : list N :=
  let len := List.length msg in
  let zeros := ((119 - len mod 64) mod 64)%nat in
  msg ++ [128] ++ repeat 0 zeros ++ bigEndian 8 (8 * N.of_nat len).

Definition word (bytes : list N) : N :=
  fold_left (fun acc b => acc * 256 + b) bytes 0.

Fixpoint chunks (size : nat) (l : list N) (count : nat) : list (list N) :=
  match count with
  | O => []
  | S count' => firstn size l :: chunks size (skipn size l) count'
  end.

(** The message schedule of one block, most recent word first. *)
Definition schedule (block : list N) : list N :=
  let first := map word (chunks 4 block 16) in
  rev (fold_left (fun ws _ =>
                    match ws with
                    | w2 :: _ =>
                        let w7 := nth 6 ws 0 in
                        let w15 := nth 14 ws 0 in
                        let w16 := nth 15 ws 0 in
                        add32 (add32 (smallSigma1 (nth 1 ws 0)) w7)
                              (add32 (smallSigma0 w15) w16) :: ws
                    | [] => ws
                    end)
                 (seq 16 48) (rev first)).

Record state := mkState { a : N; b : N; c : N; d : N; e : N; f : N; g : N; h : N }.

Definition round (s : state) (kw : N * N) : state :=
  let t1 := add32 (add32 (add32 (h s) (bigSigma1 (e s))) (Ch (e s) (f s) (g s)))
                  (add32 (fst kw) (snd kw)) in
  let t2 := add32 (bigSigma0 (a s)) (Maj (a s) (b s) (c s)) in
  mkState (add32 t1 t2) (a s) (b s) (c s) (add32 (d s) t1) (e s) (f s) (g s).

Definition compress (s : state) (block : list N) : state :=
  let s' := fold_left round (combine K (schedule block)) s in
  mkState (add32 (a s) (a s')) (add32 (b s) (b s')) (add32 (c s) (c s'))
          (add32 (d s) (d s')) (add32 (e s) (e s')) (add32 (f s) (f s'))
          (add32 (g s) (g s')) (add32 (h s) (h s')).

Definition initial : state :=
  mkState (nth 0 H0 0) (nth 1 H0 0) (nth 2 H0 0) (nth 3 H0 0)
          (nth 4 H0 0) (nth 5 H0 0) (nth 6 H0 0) (nth 7 H0 0).

Definition digest (msg : list N) : list N :=
  let padded := pad msg in
  let s := fold_left compress (chunks 64 padded (List.length padded / 64)) initial in
  flat_map (bigEndian 4) [a s; b s; c s; d s; e s; f s; g s; h s].

Definition hexOctet (x : N) : string :=
  String (Json.hexDigit (N.to_nat (x / 16)))
         (String (Json.hexDigit (N.to_nat (x mod 16))) "").

(** The digest of a text in lower-case hexadecimal. *)
Definition hex (text : string) : string :=
  String.concat "" (map hexOctet (digest (utf8 text))).

End Sha256.

(* ====================================================================== *)
(** * packages/shared/src/types.ts                                         *)
(* ====================================================================== *)

Module ValidationError.
Record t := mk { path : string; message : string; code : string }.
End ValidationError.

Module ValidationWarning.
Record t := mk { path : string; message : string; code : string }.
End ValidationWarning.

Module ValidationResult.
Record t := mk
  { valid : bool;
    errors : list ValidationError.t;
    warnings : list ValidationWarning.t }.
End ValidationResult.

(** A loaded manifest is the object [normalizeManifest] builds, kept as an
    [any]: its fields hold whatever the document gave. *)
Module ManifestLoadResult.
Record t := mk
  { success : bool;
    manifest : option any;
    error : option string;
    validationResult : option ValidationResult.t }.
End ManifestLoadResult.

(* ====================================================================== *)
(** * packages/shared/src/types.ts: the manifest schema                    *)
(* ====================================================================== *)

(** The declared shape of a manifest, and the object each declaration
    stands for: the properties in the order of the declaration, an optional
    property left out when it is absent.  A [Record<string, T>] is the list
    of its entries. *)
Module Schema.

Module ProjectConfig.
Record t := mk { name : string; description : string; repository : string }.
Definition toValue (x : t) : any :=
  Value.literal [("name", VStr (name x)); ("description", VStr (description x));
                 ("repository", VStr (repository x))].
End ProjectConfig.

Module ThresholdConfig.
Record t := mk { critical : float; low : float; nominal : float; optimal : float }.
Definition toValue (x : t) : any :=
  Value.literal [("critical", VNum (critical x)); ("low", VNum (low x));
                 ("nominal", VNum (nominal x)); ("optimal", VNum (optimal x))].
End ThresholdConfig.

Module WeightConfig.
Record t := mk
  { A3_governance : float; A4_architecture : float; A5_implementation : float;
    validation : float }.
Definition toValue (x : t) : any :=
  Value.literal [("A3_governance", VNum (A3_governance x));
                 ("A4_architecture", VNum (A4_architecture x));
                 ("A5_implementation", VNum (A5_implementation x));
                 ("validation", VNum (validation x))].
End WeightConfig.

Module DiamondHandsConfig.
Record t := mk
  { threshold : float; required_validation_score : float; approval_required : bool;
    approvers : list string }.
Definition toValue (x : t) : any :=
  Value.literal [("threshold", VNum (threshold x));
                 ("required_validation_score", VNum (required_validation_score x));
                 ("approval_required", VBool (approval_required x));
                 ("approvers", Value.strs (approvers x))].
End DiamondHandsConfig.

Module ThunderStrikeConfig.
Record t := mk { validation_levels : list string; required_for_advancement : list string }.
Definition toValue (x : t) : any :=
  Value.literal [("validation_levels", Value.strs (validation_levels x));
                 ("required_for_advancement", Value.strs (required_for_advancement x))].
End ThunderStrikeConfig.

Module MetricConfig.
Record t := mk { description : string; weight : float; sources : list string }.
Definition toValue (x : t) : any :=
  Value.literal [("description", VStr (description x)); ("weight", VNum (weight x));
                 ("sources", Value.strs (sources x))].
End MetricConfig.

Module EvidenceConfig.
Record t := mk
  { output_directory : string; formats : list string; retention_days : float;
    required_artifacts : list string }.
Definition toValue (x : t) : any :=
  Value.literal [("output_directory", VStr (output_directory x));
                 ("formats", Value.strs (formats x));
                 ("retention_days", VNum (retention_days x));
                 ("required_artifacts", Value.strs (required_artifacts x))].
End EvidenceConfig.

Definition optional {A} (k : string) (f : A -> any) (x : option A) : list (string * any) :=
  match x with
  | Some a => [(k, f a)]
  | None => []
  end.

Definition record {A} (f : A -> any) (entries : list (string * A)) : any :=
  Value.literal (map (fun kv => (fst kv, f (snd kv))) entries).

Module CIJobConfig.
Record t := mk
  { runs_on : string; timeout_minutes : option float; needs : option string;
    condition : option string }.
Definition toValue (x : t) : any :=
  Value.literal ([("runs_on", VStr (runs_on x))]
                 ++ optional "timeout_minutes" VNum (timeout_minutes x)
                 ++ optional "needs" VStr (needs x)
                 ++ optional "condition" VStr (condition x)).
End CIJobConfig.

Module CIConfig.
Record t := mk
  { trigger_on : list string; schedule : string;
    jobs : option (list (string * CIJobConfig.t)) }.
Definition toValue (x : t) : any :=
  Value.literal ([("trigger_on", Value.strs (trigger_on x));
                  ("schedule", VStr (schedule x))]
                 ++ optional "jobs" (record CIJobConfig.toValue) (jobs x)).
End CIConfig.

Module NotificationChannel.
Record t := mk
  { type : string; webhook_env : option string; recipients_env : option string;
    events : list string }.
Definition toValue (x : t) : any :=
  Value.literal ([("type", VStr (type x))]
                 ++ optional "webhook_env" VStr (webhook_env x)
                 ++ optional "recipients_env" VStr (recipients_env x)
                 ++ [("events", Value.strs (events x))]).
End NotificationChannel.

Module NotificationConfig.
Record t := mk { channels : list NotificationChannel.t }.
Definition toValue (x : t) : any :=
  Value.literal [("channels", VArr (map NotificationChannel.toValue (channels x)))].
End NotificationConfig.

Module RoleConfig.
Record t := mk
  { A3_owner : string; A4_owner : string; A5_owner : string;
    A7_evidence_lead : string; ci_owner : string;
    thunder_strike_squad : list string; diamond_hands_authority : list string }.
Definition toValue (x : t) : any :=
  Value.literal [("A3_owner", VStr (A3_owner x)); ("A4_owner", VStr (A4_owner x));
                 ("A5_owner", VStr (A5_owner x));
                 ("A7_evidence_lead", VStr (A7_evidence_lead x));
                 ("ci_owner", VStr (ci_owner x));
                 ("thunder_strike_squad", Value.strs (thunder_strike_squad x));
                 ("diamond_hands_authority", Value.strs (diamond_hands_authority x))].
End RoleConfig.

Module Manifest.
Record t := mk
  { version : string;
    project : ProjectConfig.t;
    thresholds : ThresholdConfig.t;
    weights : WeightConfig.t;
    diamond_hands : DiamondHandsConfig.t;
    thunder_strike : ThunderStrikeConfig.t;
    metrics : list (string * MetricConfig.t);
    evidence : EvidenceConfig.t;
    ci : CIConfig.t;
    notifications : option NotificationConfig.t;
    roles : option RoleConfig.t }.
Definition toValue (x : t) : any :=
  Value.literal ([("version", VStr (version x));
                  ("project", ProjectConfig.toValue (project x));
                  ("thresholds", ThresholdConfig.toValue (thresholds x));
                  ("weights", WeightConfig.toValue (weights x));
                  ("diamond_hands", DiamondHandsConfig.toValue (diamond_hands x));
                  ("thunder_strike", ThunderStrikeConfig.toValue (thunder_strike x));
                  ("metrics", record MetricConfig.toValue (metrics x));
                  ("evidence", EvidenceConfig.toValue (evidence x));
                  ("ci", CIConfig.toValue (ci x))]
                 ++ optional "notifications" NotificationConfig.toValue (notifications x)
                 ++ optional "roles" RoleConfig.toValue (roles x)).
End Manifest.

End Schema.

(* ====================================================================== *)
(** * Platform: the file system                                            *)
(* ====================================================================== *)

Module Fs.

Inductive entry : Type :=
| File (content : string)
| Directory.

(** What the sources see of the file system: [path.resolve] and the entry
    at a resolved path. *)
Record t := mk { resolve : string -> string; entryAt : string -> option entry }.

(** [fs.existsSync(p)]. *)
Definition existsSync (fs : t) (p : string) : bool :=
  match entryAt fs p with Some _ => true | None => false end.

(** [fs.readFileSync(p, 'utf-8')]. *)
Definition readFileSync (fs : t) (p : string) : outcome string :=
  match entryAt fs p with
  | Some (File content) => Returned content
  | Some Directory => Thrown (Error "EISDIR: illegal operation on a directory, read")
  | None =>
      Thrown (Error ("ENOENT: no such file or directory, open '" +++ p +++ "'"))
  end.

End Fs.

(* ====================================================================== *)
(** * packages/shared/src/manifest-loader.ts                               *)
(* ====================================================================== *)

Module ManifestLoader.

Import Regex.

(** [o[k] = v] in strict mode, the mode of a module.  The key [__proto__]
    is outside the model; no source assigns a named property to an
    array. *)
Definition assign (o : any) (k : string) (v : any) : outcome any :=
  match o with
  | VObj props => Returned (VObj (Value.define k v props))
  | VUndefined | VNull =>
      Thrown (TypeError ("Cannot set properties of " +++ Value.toString o
                         +++ " (setting '" +++ k +++ "')"))
  | VArr _ => Returned o
  | _ =>
      Thrown (TypeError ("Cannot create property '" +++ k +++ "' on "
                         +++ Value.typeof o +++ " '" +++ Value.toString o +++ "'"))
  end.

(** Parse a YAML value string into appropriate type. *)
Definition parseValue (value : string) : any :=
  (* Remove inline comments (# comment at end of line) *)
  let cleanValue :=
    match Js.indexOf value "#" with
    | Some (S commentIndex) => Js.trim (Js.substring 0 (S commentIndex) value)
    | _ => value
    end in
  (* Remove quotes *)
  if (Js.startsWith cleanValue Js.dq && Js.endsWith cleanValue Js.dq)
     || (Js.startsWith cleanValue "'" && Js.endsWith cleanValue "'")
  then VStr (Js.slice1m1 cleanValue)
  (* Boolean *)
  else if String.eqb cleanValue "true" then VBool true
  else if String.eqb cleanValue "false" then VBool false
  else
    (* Number: /^-?\d*\.?\d+$/ *)
    let num := Num.parseFloat cleanValue in
    if negb (Num.isNaN num)
       && test (Seq [Bol; Opt (Chr "-"); Star true digit; Opt (Chr ".");
                     Plus true digit; Eol]) false cleanValue
    then VNum num
    else VStr cleanValue.

(** What the variable [currentList] refers to: nothing, the array at a path
    of [result], or an array that [result] no longer holds (a push to it
    changes nothing that can be seen). *)
Inductive listRef : Type :=
| NoList
| ListAt (path : list string)
| Unreachable.

(** The variables of [parseYaml]. *)
Record state := mkState
  { result : any;
    currentSection : option string;
    currentSubSection : option string;
    currentList : listRef;
    currentListKey : option string }.

(** The truth value of a variable that holds a string or [null]. *)
Definition isSet (k : option string) : bool :=
  match k with
  | Some s => negb (String.eqb s "")
  | None => false
  end.

Definition samePath (p q : list string) : bool :=
  (length p =? length q) && forallb (fun ab => String.eqb (fst ab) (snd ab)) (combine p q).

(** [currentList] after the array at [path] has been replaced. *)
Definition detach (path : list string) (r : listRef) : listRef :=
  match r with
  | ListAt p => if samePath p path then Unreachable else r
  | _ => r
  end.

(** [array.push(v)] on the array at [path] of [o]. *)
Fixpoint pushAt (path : list string) (v : any) (o : any) : any :=
  match path, o with
  | [], VArr items => VArr (items ++ [v])
  | k :: path', VObj props =>
      match Value.lookup k props with
      | Some child => VObj (Value.replace k (pushAt path' v child) props)
      | None => o
      end
  | _, _ => o
  end.

(** [key] and [value] of a line with a colon. *)
Definition keyOf (trimmed : string) : string :=
  match Js.indexOf trimmed ":" with
  | Some colonIndex => Js.trim (Js.substring 0 colonIndex trimmed)
  | None => ""
  end.
Definition valueOf (trimmed : string) : string :=
  match Js.indexOf trimmed ":" with
  | Some colonIndex => Js.trim (Js.substringFrom (colonIndex + 1) trimmed)
  | None => ""
  end.

Definition notEmpty (s : string) : bool := negb (String.eqb s "").

(** One turn of the loop of [parseYaml] over the lines. *)
Definition step (st : state) (line : string) : outcome state :=
  let trimmed := Js.trim line in
  (* Skip comments and empty lines *)
  if Js.startsWith trimmed "#" || String.eqb trimmed "" then Returned st
  (* Top-level key (no indentation) *)
  else if negb (Js.startsWith line " ") && negb (Js.startsWith line (String Js.tabc ""))
          && Js.includes trimmed ":" then
    let key := keyOf trimmed in
    let value := valueOf trimmed in
    if notEmpty value then
      result' <- assign (result st) key (parseValue value) ;;
      Returned (mkState result' (currentSection st) (currentSubSection st) NoList None)
    else
      result' <- assign (result st) key (VObj []) ;;
      Returned (mkState result' (Some key) None NoList None)
  (* Nested content *)
  else if isSet (currentSection st)
          && (Js.startsWith line "  " || Js.startsWith line (String Js.tabc "")) then
    let section := match currentSection st with Some s => s | None => "" end in
    let indent := match search nonws line with Some i => i | None => 0 end in
    (* List item *)
    if Js.startsWith trimmed "- " then
      let listValue := Js.trim (Js.substringFrom 2 trimmed) in
      if isSet (currentListKey st) then
        match currentList st with
        | ListAt path =>
            Returned (mkState (pushAt path (parseValue listValue) (result st))
                              (currentSection st) (currentSubSection st)
                              (currentList st) (currentListKey st))
        | _ => Returned st
        end
      else Returned st
    (* Key-value pair *)
    else if Js.includes trimmed ":" then
      let key := keyOf trimmed in
      let value := valueOf trimmed in
      if indent <=? 2 then
        (* Second-level key *)
        if notEmpty value then
          inner <- assign (Value.optGet (result st) section) key (parseValue value) ;;
          result' <- assign (result st) section inner ;;
          Returned (mkState result' (currentSection st) (Some key) NoList None)
        else
          (* Start of a new subsection or list *)
          inner <- assign (Value.optGet (result st) section) key (VArr []) ;;
          result' <- assign (result st) section inner ;;
          Returned (mkState result' (currentSection st) (Some key)
                            (ListAt [section; key]) (Some key))
      else if isSet (currentSubSection st) then
        (* Third-level key *)
        let subSection := match currentSubSection st with Some s => s | None => "" end in
        let outer := Value.optGet (result st) section in
        let old := Value.optGet outer subSection in
        let fresh := negb (String.eqb (Value.typeof old) "object") || Value.isArray old in
        outer1 <- (if fresh then assign outer subSection (VObj []) else Returned outer) ;;
        let list1 := if fresh then detach [section; subSection] (currentList st)
                     else currentList st in
        if notEmpty value then
          inner <- assign (Value.optGet outer1 subSection) key (parseValue value) ;;
          outer2 <- assign outer1 subSection inner ;;
          result' <- assign (result st) section outer2 ;;
          Returned (mkState result' (currentSection st) (currentSubSection st)
                            (detach [section; subSection; key] list1)
                            (currentListKey st))
        else
          inner <- assign (Value.optGet outer1 subSection) key (VArr []) ;;
          outer2 <- assign outer1 subSection inner ;;
          result' <- assign (result st) section outer2 ;;
          Returned (mkState result' (currentSection st) (currentSubSection st)
                            (ListAt [section; subSection; key]) (Some key))
      else Returned st
    else Returned st
  else Returned st.

Fixpoint run (st : state) (lines : list string) : outcome state :=
  match lines with
  | [] => Returned st
  | line :: lines' => st' <- step st line ;; run st' lines'
  end.

(** [Array.isArray(x) ? x : d]. *)
Definition arrayOr (x : any) (d : any) : any :=
  if Value.isArray x then x else d.

Definition normalizeMetrics (metrics : any) : any :=
  VObj (fold_left
          (fun normalized kv =>
             let value := snd kv in
             if String.eqb (Value.typeof value) "object"
                && negb (match value with VNull => true | _ => false end)
             then Value.define (fst kv)
                    (Value.literal
                       [("description", Value.or (Value.optGet value "description") (VStr ""));
                        ("weight", Value.or (Value.optGet value "weight") (VNum 0));
                        ("sources", arrayOr (Value.optGet value "sources") (VArr []))])
                    normalized
             else normalized)
          (Value.entries metrics) []).

(** Normalize parsed YAML into strongly-typed Manifest. *)
Definition normalizeManifest (raw : any) : any :=
  let project := Value.optGet raw "project" in
  let thresholds := Value.optGet raw "thresholds" in
  let weights := Value.optGet raw "weights" in
  let diamond_hands := Value.optGet raw "diamond_hands" in
  let thunder_strike := Value.optGet raw "thunder_strike" in
  let evidence := Value.optGet raw "evidence" in
  let ci := Value.optGet raw "ci" in
  Value.literal
    [("version", Value.or (Value.optGet raw "version") (VStr "2.0.0"));
     ("project", Value.literal
        [("name", Value.or (Value.optGet project "name") (VStr "Unknown"));
         ("description", Value.or (Value.optGet project "description") (VStr ""));
         ("repository", Value.or (Value.optGet project "repository") (VStr ""))]);
     ("thresholds", Value.literal
        [("critical", Value.or (Value.optGet thresholds "critical") (VNum 0.3));
         ("low", Value.or (Value.optGet thresholds "low") (VNum 0.5));
         ("nominal", Value.or (Value.optGet thresholds "nominal") (VNum 0.7));
         ("optimal", Value.or (Value.optGet thresholds "optimal") (VNum 0.9))]);
     ("weights", Value.literal
        [("A3_governance", Value.or (Value.optGet weights "A3_governance") (VNum 0.3));
         ("A4_architecture", Value.or (Value.optGet weights "A4_architecture") (VNum 0.25));
         ("A5_implementation", Value.or (Value.optGet weights "A5_implementation") (VNum 0.25));
         ("validation", Value.or (Value.optGet weights "validation") (VNum 0.2))]);
     ("diamond_hands", Value.literal
        [("threshold", Value.or (Value.optGet diamond_hands "threshold") (VNum 0.7));
         ("required_validation_score",
          Value.or (Value.optGet diamond_hands "required_validation_score") (VNum 0.8));
         ("approval_required",
          Value.coalesce (Value.optGet diamond_hands "approval_required") (VBool true));
         ("approvers", arrayOr (Value.optGet diamond_hands "approvers") (VArr []))]);
     ("thunder_strike", Value.literal
        [("validation_levels",
          arrayOr (Value.optGet thunder_strike "validation_levels")
                  (Value.strs ["self_assessment"; "peer_review"; "external_validation";
                               "diamond_hands_final"]));
         ("required_for_advancement",
          arrayOr (Value.optGet thunder_strike "required_for_advancement")
                  (Value.strs ["self_assessment"; "peer_review"; "external_validation"]))]);
     ("metrics", normalizeMetrics (Value.or (Value.optGet raw "metrics") (VObj [])));
     ("evidence", Value.literal
        [("output_directory",
          Value.or (Value.optGet evidence "output_directory") (VStr "evidence/A7-bundle"));
         ("formats", arrayOr (Value.optGet evidence "formats")
                             (Value.strs ["json"; "yaml"; "markdown"]));
         ("retention_days", Value.or (Value.optGet evidence "retention_days") (VNum 90));
         ("required_artifacts",
          arrayOr (Value.optGet evidence "required_artifacts")
                  (Value.strs ["frequency_report"; "validation_logs"; "component_metrics";
                               "decision_record"]))]);
     ("ci", Value.literal
        [("trigger_on", arrayOr (Value.optGet ci "trigger_on")
                                (Value.strs ["push"; "pull_request"]));
         ("schedule", Value.or (Value.optGet ci "schedule") (VStr "0 */6 * * *"));
         ("jobs", Value.or (Value.optGet ci "jobs") (VObj []))]);
     ("notifications", Value.optGet raw "notifications");
     ("roles", Value.optGet raw "roles")].

(** Parse YAML content into Manifest structure. *)
Definition parseYaml (content : string) : outcome any :=
  let lines := Js.split Js.nlc content in
  st <- run (mkState (VObj []) None None NoList None) lines ;;
  Returned (normalizeManifest (result st)).

(** Validate manifest structure. *)
Definition validateManifest (manifest : any) : outcome ValidationResult.t :=
  (* Required fields *)
  version <- Value.get manifest "version" ;;
  let errors1 :=
    if negb (Value.truthy version) then
      [ValidationError.mk "version" "Version is required" "MISSING_VERSION"]
    else [] in
  project <- Value.get manifest "project" ;;
  let errors2 :=
    if negb (Value.truthy (Value.optGet project "name")) then
      [ValidationError.mk "project.name" "Project name is required" "MISSING_PROJECT_NAME"]
    else [] in
  (* Threshold validation *)
  thresholds <- Value.get manifest "thresholds" ;;
  critical <- Value.get thresholds "critical" ;;
  low <- Value.get thresholds "low" ;;
  nominal <- Value.get thresholds "nominal" ;;
  optimal <- Value.get thresholds "optimal" ;;
  let errors3 :=
    if Value.ge critical low then
      [ValidationError.mk "thresholds" "Critical threshold must be less than low"
         "INVALID_THRESHOLDS"]
    else [] in
  let errors4 :=
    if Value.ge low nominal then
      [ValidationError.mk "thresholds" "Low threshold must be less than nominal"
         "INVALID_THRESHOLDS"]
    else [] in
  let errors5 :=
    if Value.ge nominal optimal then
      [ValidationError.mk "thresholds" "Nominal threshold must be less than optimal"
         "INVALID_THRESHOLDS"]
    else [] in
  (* Weight validation *)
  weights <- Value.get manifest "weights" ;;
  A3_governance <- Value.get weights "A3_governance" ;;
  A4_architecture <- Value.get weights "A4_architecture" ;;
  A5_implementation <- Value.get weights "A5_implementation" ;;
  validation <- Value.get weights "validation" ;;
  let weightSum :=
    Value.add (Value.add (Value.add A3_governance A4_architecture) A5_implementation)
              validation in
  let warnings :=
    if Value.gt (Value.abs (Value.sub weightSum (VNum 1.0))) (VNum 0.01) then
      [ValidationWarning.mk "weights"
         ("Weights sum to " +++ Value.toString weightSum +++ ", expected 1.0")
         "WEIGHT_SUM"]
    else [] in
  (* Diamond hands validation *)
  diamond_hands <- Value.get manifest "diamond_hands" ;;
  threshold <- Value.get diamond_hands "threshold" ;;
  let errors6 :=
    if Value.lt threshold (VNum 0) || Value.gt threshold (VNum 1) then
      [ValidationError.mk "diamond_hands.threshold" "Threshold must be between 0 and 1"
         "INVALID_THRESHOLD"]
    else [] in
  let errors := errors1 ++ errors2 ++ errors3 ++ errors4 ++ errors5 ++ errors6 in
  Returned (ValidationResult.mk (length errors =? 0) errors warnings).

Definition errorMessage (e : JsError) : string :=
  match e with
  | TypeError message => message
  | Error message => message
  end.

(** Load and parse a manifest file. *)
Definition loadManifest (fs : Fs.t) (manifestPath : string) : ManifestLoadResult.t :=
  let resolvedPath := Fs.resolve fs manifestPath in
  if negb (Fs.existsSync fs resolvedPath) then
    ManifestLoadResult.mk false None
      (Some ("Manifest file not found: " +++ resolvedPath)) None
  else
    let attempt :=
      content <- Fs.readFileSync fs resolvedPath ;;
      manifest <- parseYaml content ;;
      validationResult <- validateManifest manifest ;;
      if negb (ValidationResult.valid validationResult) then
        Returned
          (ManifestLoadResult.mk false None
             (Some ("Manifest validation failed: "
                    +++ Js.join ", " (map ValidationError.message
                                          (ValidationResult.errors validationResult))))
             (Some validationResult))
      else
        Returned (ManifestLoadResult.mk true (Some manifest) None (Some validationResult)) in
    match attempt with
    | Returned r => r
    | Thrown error =>
        ManifestLoadResult.mk false None
          (Some ("Failed to load manifest: " +++ errorMessage error)) None
    end.

(** Generate hash for any content. *)
Definition hashContent (content : string) : string :=
  Js.slice0 16 (Sha256.hex content).

(** The text [hashManifest] hashes. *)
Definition manifestText (manifest : any) : outcome string :=
  match manifest with
  | VUndefined | VNull =>
      Thrown (TypeError "Cannot convert undefined or null to object")
  | _ =>
      match Json.stringifyWith (Js.sort (Value.keys manifest)) manifest with
      | Some content => Returned content
      | None =>
          Thrown (TypeError
                    "The data argument must be of type string or an instance of Buffer, TypedArray, or DataView. Received undefined")
      end
  end.

(** Generate hash for manifest content. *)
Definition hashManifest (manifest : any) : outcome string :=
  content <- manifestText manifest ;;
  Returned (Js.slice0 16 (Sha256.hex content)).

End ManifestLoader.

(* ====================================================================== *)
(** * packages/a4/src/types.ts                                             *)
(* ====================================================================== *)

Module A4Types.

Module CodegenOptions.
Record t := mk
  { deterministic : option bool;
    sourceMaps : option bool;
    target : option string;
    verbose : option bool;
    includeValidation : option bool;
    barrelExports : option bool }.
End CodegenOptions.

Module CodegenConfig.
Record t := mk
  { manifestPath : string;
    outputDir : string;
    options : option CodegenOptions.t }.
End CodegenConfig.

Module GeneratedFile.
Record t := mk
  { path : string;
    content : string;
    hash : string;
    type : option string }.
End GeneratedFile.

Module GenerationMetadata.
Record t := mk
  { timestamp : string;
    version : string;
    manifestHash : string;
    durationMs : float;
    generator : option string;
    fileCount : option nat }.
End GenerationMetadata.

Module CodegenOutput.
Record t := mk
  { files : list GeneratedFile.t;
    metadata : GenerationMetadata.t;
    hash : string }.
End CodegenOutput.

Module PropertyNode.
Record t := mk { name : string; type : string; optional : bool; readonly : bool }.
End PropertyNode.

Module ParamNode.
Record t := mk { name : string; type : string; optional : bool }.
End ParamNode.

(** The tagged nodes of the tree, [kind] being the constructor. *)
Inductive ASTNode : Type :=
| TypeAliasNode (name value : string) (exported : bool)
| InterfaceNode (name : string) (properties : list PropertyNode.t) (exported : bool)
| ConstantNode (name type : string) (value : any) (exported asConst : bool)
| FunctionNode (name : string) (params : list ParamNode.t) (returnType body : string)
               (exported : bool)
| ExportNode (names : list string) (from : option string) (isDefault : bool).

End A4Types.

(* ====================================================================== *)
(** * Platform: the clock                                                  *)
(* ====================================================================== *)

(** The three readings of the clock one run of [generate] takes, in the
    order it takes them. *)
Module Clock.
Record t := mk
  { startTime : float;      (* Date.now() on entry *)
    timestamp : string;     (* new Date().toISOString() *)
    endTime : float }.      (* Date.now() when the metadata is built *)
End Clock.

(* ====================================================================== *)
(** * packages/a4/src/codegen.ts                                           *)
(* ====================================================================== *)

Module A4Codegen.

Import Regex A4Types.

Definition VERSION : string := "1.0.0".
Definition GENERATOR : string := "a4-dual-ast".

(** Text of several lines. *)
Definition lines (l : list string) : string := Js.join Js.nl l.

(** The elements of an array; the sources call [map] on arrays only. *)
Definition items (v : any) : list any :=
  match v with
  | VArr l => l
  | _ => []
  end.

Definition quotes : list ascii := [Js.dqc; Js.sqc].
Definition quoteOrNewline : list ascii := [Js.dqc; Js.sqc; Js.nlc].

(** The tail shared by the patterns that read one scalar:
    a colon, blanks, an optional quote, the text up to a quote or the end of
    the line as group 1, an optional quote. *)
Definition scalarAfter (key : string) : regex :=
  Seq [Lit key; Chr ":"; Star true ws; Opt (oneOf quotes);
       Grp 1 (Plus true (noneOf quoteOrNewline)); Opt (oneOf quotes)].

(** [\d.] one or more times, as group 1, after a key, a colon and blanks. *)
Definition numberAfter (key : string) : regex :=
  Seq [Lit key; Chr ":"; Star true ws;
       Grp 1 (Plus true (Cls (fun c => Js.isDigit c || Ascii.eqb c "."%char)))].

(** The lookaheads that end a section or a list. *)
Definition nextTopLevelKey : regex :=                 (* (?=\n\w+:|$) *)
  Look (Alt (Seq [Chr Js.nlc; Plus true word; Chr ":"]) Eol).
Definition nextKey : regex :=                         (* (?=\n\s*\w+:|$) *)
  Look (Alt (Seq [Chr Js.nlc; Star true ws; Plus true word; Chr ":"]) Eol).
Definition nextWordOrBlankLine : regex :=             (* (?=\n\w|\n\n|$) *)
  Look (Alt (Seq [Chr Js.nlc; word]) (Alt (Seq [Chr Js.nlc; Chr Js.nlc]) Eol)).
Definition nextNestedKey : regex :=                   (* (?=\n\s{2}\w+:|$) *)
  Look (Alt (Seq [Chr Js.nlc; ws; ws; Plus true word; Chr ":"]) Eol).

(** [new RegExp(`${section}:[\\s\\S]*?(?=\\n\\w+:|$)`)]. *)
Definition sectionPattern (section : string) : regex :=
  Seq [Lit section; Chr ":"; Star false anyChar; nextTopLevelKey].

Definition group1 (m : Regex.result) : string :=
  match group 1 m with Some s => s | None => "" end.

Definition extractSection (content section : string) (patterns : list (string * regex)) : any :=
  match exec (sectionPattern section) false content with
  | None => VObj []
  | Some sectionMatch =>
      let sectionContent := matched sectionMatch in
      Value.literal
        (map (fun kp =>
                (fst kp,
                 match exec (snd kp) false sectionContent with
                 | Some m => VStr (group1 m)
                 | None => VStr ""
                 end)) patterns)
  end.

Definition extractNumericSection (content section : string) (keys : list string) : any :=
  match exec (sectionPattern section) false content with
  | None => VObj []
  | Some sectionMatch =>
      Value.literal
        (map (fun key =>
                (key,
                 match exec (numberAfter key) false (matched sectionMatch) with
                 | Some m => VNum (Num.parseFloat (group1 m))
                 | None => VNum 0
                 end)) keys)
  end.

Definition extractNumber (content : string) (pattern : regex) : float :=
  match exec pattern false content with
  | Some m => Num.parseFloat (group1 m)
  | None => 0%float
  end.

Definition extractString (content : string) (pattern : regex) : string :=
  match exec pattern false content with
  | Some m => group1 m
  | None => ""
  end.

Definition extractList (content : string) (pattern : regex) : list string :=
  match exec pattern false content with
  | None => []
  | Some m =>
      let listContent := group1 m in
      (* a dash, blanks, and one scalar as in [scalarAfter], under the g flag *)
      let itemMatches :=
        matchAll (Seq [Chr "-"; Star true ws; Opt (oneOf quotes);
                       Grp 1 (Plus true (noneOf quoteOrNewline)); Opt (oneOf quotes)])
                 false listContent in
      map (fun item => Js.trim (group1 item)) itemMatches
  end.

Definition extractMetrics (content : string) : any :=
  (* /metrics:([\s\S]*?)(?=\nevidence:|$)/ *)
  match exec (Seq [Lit "metrics:"; Grp 1 (Star false anyChar);
                   Look (Alt (Seq [Chr Js.nlc; Lit "evidence:"]) Eol)])
             false content with
  | None => VObj []
  | Some metricsSection =>
      let metricNames := ["coherence"; "alignment"; "velocity"; "stability"; "evidence_score"] in
      Value.literal
        (flat_map
           (fun name =>
              (* new RegExp(`${name}:[\\s\\S]*?(?=\\n\\s{2}\\w+:|$)`) *)
              match exec (Seq [Lit name; Chr ":"; Star false anyChar; nextNestedKey])
                         false (group1 metricsSection) with
              | Some metricMatch =>
                  [(name,
                    Value.literal
                      [("description",
                        VStr (extractString (matched metricMatch) (scalarAfter "description")));
                       ("weight",
                        VNum (extractNumber (matched metricMatch) (numberAfter "weight")));
                       ("sources",
                        Value.strs
                          (extractList (matched metricMatch)
                             (Seq [Lit "sources:"; Grp 1 (Star false anyChar);
                                   nextNestedKey])))])]
              | None => []
              end) metricNames)
  end.

(** The pattern [section:[\s\S]*?] followed by another pattern. *)
Definition within (section : string) (r : regex) : regex :=
  Seq [Lit section; Chr ":"; Star false anyChar; r].

Definition listAfter (key : string) (stop : regex) : regex :=
  Seq [Lit key; Chr ":"; Grp 1 (Star false anyChar); stop].

Definition parseManifestRegex (fs : Fs.t) (manifestPath : string) : outcome any :=
  content <- Fs.readFileSync fs (Fs.resolve fs manifestPath) ;;
  (* A4 approach: Use regex patterns to extract sections *)
  Returned
    (Value.literal
       [(* Extract version: the scalar after version: at the start of a line *)
        ("version",
         match exec (Seq [Bol; scalarAfter "version"]) true content with
         | Some versionMatch => VStr (group1 versionMatch)
         | None => VStr "2.0.0"
         end);
        (* Extract project section *)
        ("project",
         extractSection content "project"
           [("name", scalarAfter "name");
            ("description", scalarAfter "description");
            ("repository", scalarAfter "repository")]);
        (* Extract thresholds *)
        ("thresholds",
         extractNumericSection content "thresholds" ["critical"; "low"; "nominal"; "optimal"]);
        (* Extract weights *)
        ("weights",
         extractNumericSection content "weights"
           ["A3_governance"; "A4_architecture"; "A5_implementation"; "validation"]);
        (* Extract diamond_hands *)
        ("diamond_hands",
         Value.literal
           [("threshold",
             VNum (extractNumber content (within "diamond_hands" (numberAfter "threshold"))));
            ("required_validation_score",
             VNum (extractNumber content
                     (within "diamond_hands" (numberAfter "required_validation_score"))));
            ("approval_required", VBool (Js.includes content "approval_required: true"));
            ("approvers",
             Value.strs (extractList content
                           (within "diamond_hands" (listAfter "approvers" nextWordOrBlankLine))))]);
        (* Extract thunder_strike *)
        ("thunder_strike",
         Value.literal
           [("validation_levels",
             Value.strs (extractList content (listAfter "validation_levels" nextKey)));
            ("required_for_advancement",
             Value.strs (extractList content
                           (listAfter "required_for_advancement" nextWordOrBlankLine)))]);
        (* Extract metrics *)
        ("metrics", extractMetrics content);
        (* Extract evidence *)
        ("evidence",
         Value.literal
           [("output_directory",
             VStr (extractString content (within "evidence" (scalarAfter "output_directory"))));
            ("formats",
             Value.strs (extractList content (within "evidence" (listAfter "formats" nextKey))));
            ("retention_days",
             VNum (extractNumber content
                     (Seq [Lit "retention_days:"; Star true ws; Grp 1 (Plus true digit)])));
            ("required_artifacts",
             Value.strs (extractList content
                           (listAfter "required_artifacts" nextWordOrBlankLine)))]);
        (* Extract CI *)
        ("ci",
         Value.literal
           [("trigger_on", Value.strs (extractList content (listAfter "trigger_on" nextKey)));
            ("schedule",
             Value.or (VStr (extractString content (scalarAfter "schedule")))
                      (VStr "0 */6 * * *"));
            ("jobs", VObj [])])]).

(** ** AST node creators *)

Definition createTypeAlias (name value : string) : ASTNode :=
  TypeAliasNode name value true.

Definition createInterface (name : string) (properties : list PropertyNode.t) : ASTNode :=
  InterfaceNode name properties true.

Definition createConstant (name : string) (type : option string) (value : any) : ASTNode :=
  ConstantNode name (match type with Some t => t | None => "" end) value true true.

Definition createFunction (name : string) (params : list ParamNode.t)
           (returnType body : string) : ASTNode :=
  FunctionNode name params returnType body true.

(** ** AST serializers *)

(** ['  '.repeat(indent)]. *)
Definition spacesOf (indent : nat) : string := String.concat "" (repeat "  " indent).

Fixpoint serializeValue (value : any) (indent : nat) : string :=
  let spaces := spacesOf indent in
  match value with
  | VNull | VUndefined => "null"
  | VStr s => "'" +++ s +++ "'"
  | VNum _ | VBool _ => Value.toString value
  | VArr l =>
      match l with
      | [] => "[]"
      | _ =>
          let items := map (fun v => serializeValue v (indent + 1)) l in
          "[" +++ Js.nl +++ spaces +++ "  "
          +++ Js.join ("," +++ Js.nl +++ spaces +++ "  ") items
          +++ Js.nl +++ spaces +++ "]"
      end
  | VObj entries =>
      match entries with
      | [] => "{}"
      | _ =>
          let props :=
            map (fun kv => spaces +++ "  " +++ fst kv +++ ": "
                           +++ serializeValue (snd kv) (indent + 1)) entries in
          "{" +++ Js.nl +++ Js.join ("," +++ Js.nl) props +++ Js.nl +++ spaces +++ "}"
      end
  end.

Definition serializeNode (node : ASTNode) : string :=
  match node with
  | TypeAliasNode name value _ =>
      "export type " +++ name +++ " = " +++ value +++ ";"
  | InterfaceNode name properties _ =>
      let props :=
        Js.join Js.nl
          (map (fun p => "  " +++ PropertyNode.name p
                         +++ (if PropertyNode.optional p then "?" else "")
                         +++ ": " +++ PropertyNode.type p +++ ";") properties) in
      "export interface " +++ name +++ " {" +++ Js.nl +++ props +++ Js.nl +++ "}"
  | ConstantNode name type value _ asConst =>
      let valueStr := serializeValue value 0 in
      let typeAnnotation := if negb (String.eqb type "") then ": " +++ type else "" in
      "export const " +++ name +++ typeAnnotation +++ " = " +++ valueStr
      +++ (if asConst then " as const" else "") +++ ";"
  | FunctionNode name params returnType body _ =>
      let params :=
        Js.join ", "
          (map (fun p => ParamNode.name p
                         +++ (if ParamNode.optional p then "?" else "")
                         +++ ": " +++ ParamNode.type p) params) in
      "export function " +++ name +++ "(" +++ params +++ "): " +++ returnType
      +++ " {" +++ Js.nl +++ "  " +++ body +++ Js.nl +++ "}"
  | ExportNode names from isDefault =>
      if isDefault then
        "export default " +++ match names with n :: _ => n | [] => "undefined" end +++ ";"
      else
        "export { " +++ Js.join ", " names +++ " }"
        +++ match from with
            | Some "" | None => ""
            | Some f => " from '" +++ f +++ "'"
            end +++ ";"
  end.

(** The loop [for (const node of ast) output += serializeNode(node) + '\n\n']
    after a header. *)
Definition serializeNodes (header : string) (ast : list ASTNode) : string :=
  fold_left (fun output node => output +++ serializeNode node +++ Js.nl +++ Js.nl)
            ast header.

Definition serializeAST (ast : list ASTNode) (fileType version : string) : string :=
  serializeNodes
    (lines
       ["/**";
        " * Generated Types - Vyberology 2.0";
        " * Generated by: " +++ GENERATOR;
        " * Manifest version: " +++ version;
        " *";
        " * DO NOT EDIT - This file is auto-generated";
        " */";
        "";
        ""])
    ast.

Definition serializeConstantsAST (ast : list ASTNode) (manifest : any) : string :=
  serializeNodes
    (lines
       ["/**";
        " * Generated Constants - Vyberology 2.0";
        " * Generated by: " +++ GENERATOR;
        " *";
        " * DO NOT EDIT - This file is auto-generated";
        " */";
        "";
        "import type {";
        "  FrequencyThresholds,";
        "  ComponentWeights,";
        "  ValidationLevel,";
        "  MetricDefinition,";
        "  ProjectConfig,";
        "  EvidenceFormat,";
        "  RequiredArtifact";
        "} from './types';";
        "";
        ""])
    ast.

Definition serializeValidatorsAST (ast : list ASTNode) : string :=
  serializeNodes
    (lines
       ["/**";
        " * Generated Validators - Vyberology 2.0";
        " * Generated by: " +++ GENERATOR;
        " *";
        " * DO NOT EDIT - This file is auto-generated";
        " */";
        "";
        "import type { FrequencyBand, ValidationLevel, MetricName } from './types';";
        "import { THRESHOLDS, WEIGHTS, DIAMOND_HANDS, VALIDATION_LEVELS } from './constants';";
        "";
        ""])
    ast.

(** ** Hashing *)

Definition generateHash (content : string) : string :=
  Js.slice0 16 (Sha256.hex content).

Definition generateOutputHash (output : CodegenOutput.t) : outcome string :=
  content <- Json.text
               (Value.literal
                  [("files",
                    VArr (map (fun f => Value.literal
                                          [("path", VStr (GeneratedFile.path f));
                                           ("hash", VStr (GeneratedFile.hash f))])
                              (CodegenOutput.files output)));
                   ("manifestHash",
                    VStr (GenerationMetadata.manifestHash (CodegenOutput.metadata output)))]) ;;
  Returned (generateHash content).

(** ** AST builders *)

Definition property (name type : string) : PropertyNode.t :=
  PropertyNode.mk name type false false.

Definition param (name type : string) : ParamNode.t := ParamNode.mk name type false.

(** [l.map(x => `'${x}'`).join(' | ')]. *)
Definition unionOf (l : list any) : string :=
  Js.join " | " (map (fun x => "'" +++ Value.toString x +++ "'") l).

Definition buildTypesFile (manifest : any) : GeneratedFile.t :=
  (* Validation levels type *)
  let validationLevels :=
    Value.or (Value.optGet (Value.optGet manifest "thunder_strike") "validation_levels")
             (Value.strs ["self_assessment"; "peer_review"; "external_validation";
                          "diamond_hands_final"]) in
  (* Metric names type *)
  let metricNames := Value.keys (Value.or (Value.optGet manifest "metrics") (VObj [])) in
  let metricType :=
    if 0 <? length metricNames then unionOf (map VStr metricNames)
    else "'coherence' | 'alignment' | 'velocity' | 'stability' | 'evidence_score'" in
  (* Evidence types *)
  let formats :=
    Value.or (Value.optGet (Value.optGet manifest "evidence") "formats")
             (Value.strs ["json"; "yaml"; "markdown"]) in
  let artifacts :=
    Value.or (Value.optGet (Value.optGet manifest "evidence") "required_artifacts")
             (Value.strs ["frequency_report"; "validation_logs"; "component_metrics";
                          "decision_record"]) in
  let ast :=
    [(* Build type aliases *)
     createTypeAlias "FrequencyBand" "'critical' | 'low' | 'nominal' | 'optimal' | 'peak'";
     (* Build interfaces *)
     createInterface "FrequencyThresholds"
       [property "critical" "number"; property "low" "number";
        property "nominal" "number"; property "optimal" "number"];
     createInterface "ComponentWeights"
       [property "A3_governance" "number"; property "A4_architecture" "number";
        property "A5_implementation" "number"; property "validation" "number"];
     createTypeAlias "ValidationLevel" (unionOf (items validationLevels));
     createTypeAlias "MetricName" metricType;
     createInterface "MetricDefinition"
       [property "name" "MetricName"; property "description" "string";
        property "weight" "number"; property "sources" "string[]"];
     createTypeAlias "RoleCode" "'B-01' | 'B-02' | 'B-03' | 'B-04' | 'B-05' | 'B-06' | 'B-07'";
     createInterface "RoleAssignment"
       [property "code" "RoleCode"; property "name" "string";
        property "assignee" "string";
        property "category" "'owner' | 'validator' | 'authority'"];
     createTypeAlias "EvidenceFormat" (unionOf (items formats));
     createTypeAlias "RequiredArtifact" (unionOf (items artifacts));
     createInterface "ProjectConfig"
       [property "name" "string"; property "description" "string";
        property "repository" "string"; property "version" "string"];
     createTypeAlias "NotificationEvent"
       "'band_change' | 'validation_failed' | 'diamond_hands_ready' | 'critical_frequency' | 'poc_advancement'";
     createTypeAlias "NotificationChannel" "'slack' | 'email'"] in
  let content :=
    serializeAST ast "types" (Value.toString (Value.optGet manifest "version")) in
  GeneratedFile.mk "types.ts" content (generateHash content) (Some "types").

Definition buildConstantsFile (manifest : any) : GeneratedFile.t :=
  let thresholds :=
    Value.or (Value.optGet manifest "thresholds")
             (Value.literal [("critical", VNum 0.3); ("low", VNum 0.5);
                             ("nominal", VNum 0.7); ("optimal", VNum 0.9)]) in
  let weights :=
    Value.or (Value.optGet manifest "weights")
             (Value.literal [("A3_governance", VNum 0.3); ("A4_architecture", VNum 0.25);
                             ("A5_implementation", VNum 0.25); ("validation", VNum 0.2)]) in
  let project := Value.optGet manifest "project" in
  let thunder_strike := Value.optGet manifest "thunder_strike" in
  let diamond_hands := Value.optGet manifest "diamond_hands" in
  let evidence := Value.optGet manifest "evidence" in
  let ci := Value.optGet manifest "ci" in
  (* VALIDATION_LEVELS *)
  let validationLevels :=
    Value.or (Value.optGet thunder_strike "validation_levels")
             (Value.strs ["self_assessment"; "peer_review"; "external_validation";
                          "diamond_hands_final"]) in
  let requiredLevels :=
    Value.or (Value.optGet thunder_strike "required_for_advancement")
             (Value.strs ["self_assessment"; "peer_review"; "external_validation"]) in
  (* METRICS *)
  let metricsObj :=
    VObj (fold_left
            (fun metricsObj kv =>
               let key := fst kv in
               let val := snd kv in
               Value.define key
                 (Value.literal
                    [("name", VStr key);
                     ("description", Value.or (Value.optGet val "description") (VStr ""));
                     ("weight", Value.or (Value.optGet val "weight") (VNum 0));
                     ("sources", Value.or (Value.optGet val "sources") (VArr []))])
                 metricsObj)
            (Value.entries (Value.or (Value.optGet manifest "metrics") (VObj []))) []) in
  let ast :=
    [(* PROJECT constant *)
     createConstant "PROJECT" (Some "ProjectConfig")
       (Value.literal
          [("name", Value.or (Value.optGet project "name") (VStr "LUMEN OS"));
           ("description",
            Value.or (Value.optGet project "description")
                     (VStr "Governance + Validation System"));
           ("repository", Value.or (Value.optGet project "repository") (VStr ""));
           ("version", Value.or (Value.optGet manifest "version") (VStr "2.0.0"))]);
     (* THRESHOLDS constant *)
     createConstant "THRESHOLDS" (Some "FrequencyThresholds") thresholds;
     (* WEIGHTS constant *)
     createConstant "WEIGHTS" (Some "ComponentWeights") weights;
     createConstant "VALIDATION_LEVELS" (Some "readonly ValidationLevel[]") validationLevels;
     createConstant "REQUIRED_FOR_ADVANCEMENT" (Some "readonly ValidationLevel[]")
       requiredLevels;
     (* DIAMOND_HANDS *)
     createConstant "DIAMOND_HANDS" None
       (Value.literal
          [("threshold", Value.or (Value.optGet diamond_hands "threshold") (VNum 0.7));
           ("requiredValidationScore",
            Value.or (Value.optGet diamond_hands "required_validation_score") (VNum 0.8));
           ("approvalRequired",
            Value.coalesce (Value.optGet diamond_hands "approval_required") (VBool true));
           ("approvers", Value.or (Value.optGet diamond_hands "approvers") (VArr []))]);
     createConstant "METRICS" (Some "Record<string, MetricDefinition>") metricsObj;
     (* EVIDENCE *)
     createConstant "EVIDENCE" None
       (Value.literal
          [("outputDirectory",
            Value.or (Value.optGet evidence "output_directory") (VStr "evidence/A7-bundle"));
           ("formats",
            Value.or (Value.optGet evidence "formats")
                     (Value.strs ["json"; "yaml"; "markdown"]));
           ("retentionDays", Value.or (Value.optGet evidence "retention_days") (VNum 90));
           ("requiredArtifacts",
            Value.or (Value.optGet evidence "required_artifacts") (VArr []))]);
     (* CI *)
     createConstant "CI" None
       (Value.literal
          [("triggerOn",
            Value.or (Value.optGet ci "trigger_on") (Value.strs ["push"; "pull_request"]));
           ("schedule", Value.or (Value.optGet ci "schedule") (VStr "0 */6 * * *"))])] in
  let content := serializeConstantsAST ast manifest in
  GeneratedFile.mk "constants.ts" content (generateHash content) (Some "constants").

Definition buildValidatorsFile (manifest : any) : GeneratedFile.t :=
  let thresholds :=
    Value.or (Value.optGet manifest "thresholds")
             (Value.literal [("critical", VNum 0.3); ("low", VNum 0.5);
                             ("nominal", VNum 0.7); ("optimal", VNum 0.9)]) in
  let ast :=
    [(* classifyFrequency function *)
     createFunction "classifyFrequency" [param "fTotal" "number"] "FrequencyBand"
       (lines
          ["if (fTotal < " +++ Value.toString (Value.optGet thresholds "critical") +++ ") return 'critical';";
           "  if (fTotal < " +++ Value.toString (Value.optGet thresholds "low") +++ ") return 'low';";
           "  if (fTotal < " +++ Value.toString (Value.optGet thresholds "nominal") +++ ") return 'nominal';";
           "  if (fTotal < " +++ Value.toString (Value.optGet thresholds "optimal") +++ ") return 'optimal';";
           "  return 'peak';"]);
     (* isDiamondHandsReady function *)
     createFunction "isDiamondHandsReady"
       [param "fTotal" "number"; param "validationScore" "number"] "boolean"
       (lines
          ["return fTotal >= DIAMOND_HANDS.threshold &&";
           "         validationScore >= DIAMOND_HANDS.requiredValidationScore;"]);
     (* isValidationRequired *)
     createFunction "isValidationRequired" [param "level" "ValidationLevel"] "boolean"
       (lines
          ["return (VALIDATION_LEVELS as readonly string[]).includes(level);"]);
     (* isValidMetricValue *)
     createFunction "isValidMetricValue" [param "value" "number"] "boolean"
       (lines
          ["return value >= 0 && value <= 1;"]);
     (* validateWeights *)
     createFunction "validateWeights" [] "boolean"
       (lines
          ["const sum = WEIGHTS.A3_governance +";
           "              WEIGHTS.A4_architecture +";
           "              WEIGHTS.A5_implementation +";
           "              WEIGHTS.validation;";
           "  return Math.abs(sum - 1.0) < 0.001;"]);
     (* ComponentMetrics interface *)
     createInterface "ComponentMetrics"
       [property "coherence" "number"; property "alignment" "number";
        property "velocity" "number"; property "stability" "number";
        property "evidenceScore" "number"];
     (* calculateComponentFrequency *)
     createFunction "calculateComponentFrequency" [param "metrics" "ComponentMetrics"]
       "number"
       (lines
          ["return (";
           "    metrics.coherence * 0.25 +";
           "    metrics.alignment * 0.25 +";
           "    metrics.velocity * 0.15 +";
           "    metrics.stability * 0.20 +";
           "    metrics.evidenceScore * 0.15";
           "  );"]);
     (* calculateFTotal *)
     createFunction "calculateFTotal"
       [param "components" "number[]"; param "validationPassRate" "number"] "number"
       (lines
          ["if (components.length === 0) return 0;";
           "";
           "  const rawFTotal = components.reduce((a, b) => a + b, 0) / components.length;";
           "  const validationMultiplier = 0.8 + (0.2 * validationPassRate);";
           "";
           "  return rawFTotal * validationMultiplier;"]);
     (* ActionRecommendation type *)
     createTypeAlias "ActionRecommendation"
       "'HALT' | 'CAUTION' | 'PROCEED' | 'ADVANCE' | 'EXECUTE'";
     (* getRecommendation *)
     createFunction "getRecommendation" [param "band" "FrequencyBand"]
       "ActionRecommendation"
       (lines
          ["switch (band) {";
           "    case 'critical': return 'HALT';";
           "    case 'low': return 'CAUTION';";
           "    case 'nominal': return 'PROCEED';";
           "    case 'optimal': return 'ADVANCE';";
           "    case 'peak': return 'EXECUTE';";
           "  }"]);
     (* getRecommendationMessage *)
     createFunction "getRecommendationMessage" [param "band" "FrequencyBand"] "string"
       (lines
          ["switch (band) {";
           "    case 'critical':";
           "      return 'HALT: System requires immediate attention. Do not proceed with POC.';";
           "    case 'low':";
           "      return 'CAUTION: Address deficiencies before Thunder Strike review.';";
           "    case 'nominal':";
           "      return 'PROCEED: System stable. Continue with validation pipeline.';";
           "    case 'optimal':";
           "      return 'ADVANCE: Ready for Diamond Hands review.';";
           "    case 'peak':";
           "      return 'EXECUTE: Maximum coherence achieved. Full speed ahead.';";
           "  }"])] in
  let content := serializeValidatorsAST ast in
  GeneratedFile.mk "validators.ts" content (generateHash content) (Some "validators").

Definition buildConfigFile (manifest : any) : GeneratedFile.t :=
  let content :=
    lines
      ["/**";
       " * Generated Runtime Config - Vyberology 2.0";
       " * Generated by: " +++ GENERATOR;
       " *";
       " * DO NOT EDIT - This file is auto-generated";
       " */";
       "";
       "import { PROJECT, THRESHOLDS, WEIGHTS, DIAMOND_HANDS, EVIDENCE, CI } from './constants';";
       "import type { FrequencyBand, ValidationLevel } from './types';";
       "import { classifyFrequency, isDiamondHandsReady, getRecommendation, getRecommendationMessage } from './validators';";
       "";
       "// ============================================================================";
       "// RUNTIME CONFIG OBJECT";
       "// ============================================================================";
       "";
       "export const config = {";
       "  project: PROJECT,";
       "  thresholds: THRESHOLDS,";
       "  weights: WEIGHTS,";
       "  diamondHands: DIAMOND_HANDS,";
       "  evidence: EVIDENCE,";
       "  ci: CI,";
       "";
       "  // Utility methods";
       "  classifyFrequency,";
       "  isDiamondHandsReady,";
       "  getRecommendation,";
       "  getRecommendationMessage";
       "} as const;";
       "";
       "// ============================================================================";
       "// FREQUENCY REPORT GENERATOR";
       "// ============================================================================";
       "";
       "export interface FrequencyReport {";
       "  timestamp: string;";
       "  fTotal: number;";
       "  band: FrequencyBand;";
       "  diamondHandsReady: boolean;";
       "  recommendation: string;";
       "}";
       "";
       "export function generateFrequencyReport(";
       "  fTotal: number,";
       "  validationScore: number";
       "): FrequencyReport {";
       "  const band = classifyFrequency(fTotal);";
       "";
       "  return {";
       "    timestamp: new Date().toISOString(),";
       "    fTotal,";
       "    band,";
       "    diamondHandsReady: isDiamondHandsReady(fTotal, validationScore),";
       "    recommendation: getRecommendationMessage(band)";
       "  };";
       "}";
       "";
       "// ============================================================================";
       "// EXPORT DEFAULT";
       "// ============================================================================";
       "";
       "export default config;";
       ""] in
  GeneratedFile.mk "config.ts" content (generateHash content) (Some "config").

Definition buildIndexFile (files : list GeneratedFile.t) : GeneratedFile.t :=
  let exports :=
    Js.join Js.nl
      (map (fun f => "export * from './"
                     +++ Js.replaceFirst ".ts" "" (GeneratedFile.path f) +++ "';")
           (filter (fun f => negb (String.eqb (GeneratedFile.path f) "index.ts")) files)) in
  let content :=
    lines
      ["/**";
       " * Vyberology 2.0 Generated Code";
       " * Generated by: " +++ GENERATOR;
       " *";
       " * DO NOT EDIT - This file is auto-generated";
       " */";
       "";
       exports;
       "";
       "// Default export";
       "export { default as config } from './config';";
       ""] in
  GeneratedFile.mk "index.ts" content (generateHash content) (Some "index").

(** Generate code from manifest using AST-based approach.  The promise the
    source returns is the outcome: a rejection is the thrown value. *)
Definition generate (fs : Fs.t) (clock : Clock.t) (config : CodegenConfig.t)
  : outcome CodegenOutput.t :=
  let startTime := Clock.startTime clock in
  (* Parse manifest using regex-based parser *)
  manifest <- parseManifestRegex fs (CodegenConfig.manifestPath config) ;;
  text <- Json.text manifest ;;
  let manifestHash := generateHash text in
  (* Build AST for each file, then serialize *)
  let files := [] in
  let files := files ++ [buildTypesFile manifest] in
  let files := files ++ [buildConstantsFile manifest] in
  let files := files ++ [buildValidatorsFile manifest] in
  let files := files ++ [buildConfigFile manifest] in
  let files := files ++ [buildIndexFile files] in
  let output :=
    CodegenOutput.mk files
      (GenerationMetadata.mk (Clock.timestamp clock) VERSION manifestHash
         (PrimFloat.sub (Clock.endTime clock) startTime)
         (Some GENERATOR) (Some (length files)))
      "" in
  hash <- generateOutputHash output ;;
  Returned (CodegenOutput.mk (CodegenOutput.files output) (CodegenOutput.metadata output) hash).

End A4Codegen.

(* ====================================================================== *)
(** * packages/adjudicator/src/types.ts                                    *)
(* ====================================================================== *)

Module GeneratedFile.
Record t := mk { path : string; content : string; hash : string }.
End GeneratedFile.

(** The metadata of the adjudicator's own declaration, with the two optional
    fields of the shared declaration that [compareMetadata] reads. *)
Module GenerationMetadata.
Record t := mk
  { timestamp : string;
    version : string;
    manifestHash : string;
    durationMs : float;
    generator : option string;
    fileCount : option nat }.
End GenerationMetadata.

Module CodegenOutput.
Record t := mk
  { files : list GeneratedFile.t;
    metadata : GenerationMetadata.t;
    hash : string }.
End CodegenOutput.

Inductive SemanticMode : Type := strict | relaxed.

Module ComparisonOptions.
Record t := mk
  { ignoreWhitespace : option bool;
    ignoreComments : option bool;
    semanticMode : option SemanticMode;
    maxDiffSize : option float }.
End ComparisonOptions.

(** The declaration makes both outputs mandatory; at run time either may
    still be [undefined], which is [None] here. *)
Module ComparisonInput.
Record t := mk
  { a3Output : option CodegenOutput.t;
    a4Output : option CodegenOutput.t;
    options : option ComparisonOptions.t }.
End ComparisonInput.

Inductive VerdictType : Type :=
| MATCH | MISMATCH | PARTIAL_MATCH | ERROR | INCONCLUSIVE.

Inductive DiffType : Type :=
| MISSING_FILE | EXTRA_FILE | CONTENT_DIFF | SEMANTIC_DIFF | STYLE_DIFF
| HASH_MISMATCH.

Inductive DiffSeverity : Type := critical | major | minor | info.

Scheme Equality for DiffSeverity.
Scheme Equality for DiffType.
Scheme Equality for VerdictType.

Module DiffLocation.
Record t := mk
  { startLine : nat; endLine : nat;
    startColumn : option nat; endColumn : option nat }.
End DiffLocation.

Module SemanticDiff.
Record t := mk
  { path : string;
    type : DiffType;
    severity : DiffSeverity;
    description : string;
    a3Value : option string;
    a4Value : option string;
    location : option DiffLocation.t }.
End SemanticDiff.

Module AdjudicationVerdict.
Record t := mk
  { verdict : VerdictType;
    confidence : float;
    semanticallyEquivalent : bool;
    diffs : list SemanticDiff.t;
    summary : string;
    timestamp : string }.
End AdjudicationVerdict.

(* ====================================================================== *)
(** * packages/adjudicator/src/diff.ts                                     *)
(* ====================================================================== *)

Module DiffBuilder.

Import Regex.

Module DiffMismatch.
Record t := mk
  { type : DiffType;
    severity : DiffSeverity;
    path : string;
    description : string;
    a3Value : option string;
    a4Value : option string }.
End DiffMismatch.

Module DiffSummary.
Record t := mk
  { filesMatch : bool;
    hashMatch : bool;
    criticalCount : nat;
    majorCount : nat;
    minorCount : nat;
    infoCount : nat }.
End DiffSummary.

Module DiffResult.
Record t := mk
  { timestamp : string;
    a3Hash : string;
    a4Hash : string;
    totalDiffs : nat;
    mismatches : list DiffMismatch.t;
    summary : DiffSummary.t }.
End DiffResult.

(** The four patterns of [extractExports]:
    [/export\s+const\s+(\w+)/g] and the same for function, type and
    interface. *)
Definition exportPattern (keyword : string) : regex :=
  Seq [Lit "export"; Plus true ws; Lit keyword; Plus true ws;
       Grp 1 (Plus true word)].

Definition patterns : list regex :=
  [exportPattern "const"; exportPattern "function"; exportPattern "type";
   exportPattern "interface"].

(** Extract export names from TypeScript content. *)
Definition extractExports (content : string) : list string :=
  let exports :=
    flat_map (fun pattern =>
                flat_map (fun m => match group 1 m with
                                   | Some name => [name]
                                   | None => []
                                   end)
                         (matchAll pattern false content))
             patterns in
  Js.sort exports.

(** Compare file content (basic line diff). *)
Definition compareContent (a3Content a4Content path : string) : list DiffMismatch.t :=
  let a3Lines := Js.split Js.nlc a3Content in
  let a4Lines := Js.split Js.nlc a4Content in
  let lineCount :=
    if negb (length a3Lines =? length a4Lines) then
      [DiffMismatch.mk CONTENT_DIFF minor path "Line count differs"
         (Some (Js.ofNat (length a3Lines) +++ " lines"))
         (Some (Js.ofNat (length a4Lines) +++ " lines"))]
    else [] in
  let a3Exports := extractExports a3Content in
  let a4Exports := extractExports a4Content in
  let onlyA3 :=
    flat_map (fun exp =>
                if negb (Js.mem exp a4Exports) then
                  [DiffMismatch.mk CONTENT_DIFF major path
                     ("Export " +++ Js.dq +++ exp +++ Js.dq +++ " exists in A3 but not in A4")
                     None None]
                else []) a3Exports in
  let onlyA4 :=
    flat_map (fun exp =>
                if negb (Js.mem exp a3Exports) then
                  [DiffMismatch.mk CONTENT_DIFF major path
                     ("Export " +++ Js.dq +++ exp +++ Js.dq +++ " exists in A4 but not in A3")
                     None None]
                else []) a4Exports in
  lineCount ++ onlyA3 ++ onlyA4.

(** [x || d] on an optional string: the default replaces [undefined] and
    the empty string. *)
Definition orDefault (x : option string) (d : string) : string :=
  match x with
  | Some "" | None => d
  | Some s => s
  end.

Definition optionEqb (x y : option string) : bool :=
  match x, y with
  | Some a, Some b => String.eqb a b
  | None, None => true
  | _, _ => false
  end.

(** Compare metadata objects. *)
Definition compareMetadata (a3Meta a4Meta : GenerationMetadata.t) : list DiffMismatch.t :=
  let version :=
    if negb (String.eqb (GenerationMetadata.version a3Meta)
                        (GenerationMetadata.version a4Meta)) then
      [DiffMismatch.mk CONTENT_DIFF info "metadata.version"
         "Generator versions differ"
         (Some (GenerationMetadata.version a3Meta))
         (Some (GenerationMetadata.version a4Meta))]
    else [] in
  let generator :=
    if negb (optionEqb (GenerationMetadata.generator a3Meta)
                       (GenerationMetadata.generator a4Meta)) then
      [DiffMismatch.mk CONTENT_DIFF info "metadata.generator"
         "Generators differ (expected)"
         (Some (orDefault (GenerationMetadata.generator a3Meta) "a3-primary"))
         (Some (orDefault (GenerationMetadata.generator a4Meta) "a4-dual"))]
    else [] in
  let manifestHash :=
    if negb (String.eqb (GenerationMetadata.manifestHash a3Meta)
                        (GenerationMetadata.manifestHash a4Meta)) then
      [DiffMismatch.mk HASH_MISMATCH major "metadata.manifestHash"
         "Manifest hashes differ - inputs may be different"
         (Some (GenerationMetadata.manifestHash a3Meta))
         (Some (GenerationMetadata.manifestHash a4Meta))]
    else [] in
  version ++ generator ++ manifestHash.

Definition hasSeverity (s : DiffSeverity) (m : DiffMismatch.t) : bool :=
  DiffSeverity_beq (DiffMismatch.severity m) s.

(** Build diff between A3 and A4 outputs; [now] is the reading of the
    clock for the time stamp. *)
Definition buildDiff (a3Output a4Output : CodegenOutput.t) (now : string) : DiffResult.t :=
  (* Compare file sets *)
  let a3Paths := Js.setOf (map GeneratedFile.path (CodegenOutput.files a3Output)) in
  let a4Paths := Js.setOf (map GeneratedFile.path (CodegenOutput.files a4Output)) in
  (* Check for missing files in A4 *)
  let missing :=
    flat_map (fun path =>
                if negb (Js.mem path a4Paths) then
                  [DiffMismatch.mk MISSING_FILE critical path
                     "File exists in A3 but missing in A4"
                     (Some "present") (Some "missing")]
                else []) a3Paths in
  (* Check for extra files in A4 *)
  let extra :=
    flat_map (fun path =>
                if negb (Js.mem path a3Paths) then
                  [DiffMismatch.mk EXTRA_FILE critical path
                     "File exists in A4 but missing in A3"
                     (Some "missing") (Some "present")]
                else []) a4Paths in
  (* Compare matching files *)
  let matching :=
    flat_map (fun a3File =>
                match find (fun f => String.eqb (GeneratedFile.path f)
                                                (GeneratedFile.path a3File))
                           (CodegenOutput.files a4Output) with
                | None => []
                | Some a4File =>
                    if negb (String.eqb (GeneratedFile.hash a3File)
                                        (GeneratedFile.hash a4File)) then
                      DiffMismatch.mk HASH_MISMATCH major (GeneratedFile.path a3File)
                        "File hashes differ"
                        (Some (GeneratedFile.hash a3File))
                        (Some (GeneratedFile.hash a4File))
                      :: compareContent (GeneratedFile.content a3File)
                                        (GeneratedFile.content a4File)
                                        (GeneratedFile.path a3File)
                    else []
                end) (CodegenOutput.files a3Output) in
  (* Compare metadata *)
  let metaDiffs := compareMetadata (CodegenOutput.metadata a3Output)
                                   (CodegenOutput.metadata a4Output) in
  let mismatches := missing ++ extra ++ matching ++ metaDiffs in
  (* Build summary *)
  let summary :=
    DiffSummary.mk
      (forallb (fun p => Js.mem p a4Paths) a3Paths
       && forallb (fun p => Js.mem p a3Paths) a4Paths)
      (String.eqb (CodegenOutput.hash a3Output) (CodegenOutput.hash a4Output))
      (length (filter (hasSeverity critical) mismatches))
      (length (filter (hasSeverity major) mismatches))
      (length (filter (hasSeverity minor) mismatches))
      (length (filter (hasSeverity info) mismatches)) in
  DiffResult.mk now
    (CodegenOutput.hash a3Output) (CodegenOutput.hash a4Output)
    (length mismatches) mismatches summary.

(** The object [generateDiffReport] returns: two fixed fields, the fields
    of the result, and the verdict. *)
Module DiffReport.
Record t := mk
  { version : string;
    generator : string;
    result : DiffResult.t;
    verdict : string }.
End DiffReport.

(** Generate JSON-serializable diff report. *)
Definition generateDiffReport (result : DiffResult.t) : DiffReport.t :=
  DiffReport.mk "1.0.0" "a5-adjudicator" result
    (if (DiffSummary.criticalCount (DiffResult.summary result) =? 0)
        && (DiffSummary.majorCount (DiffResult.summary result) =? 0)
     then "MATCH"
     else if 0 <? DiffSummary.criticalCount (DiffResult.summary result)
          then "MISMATCH"
          else "PARTIAL_MATCH").

End DiffBuilder.

(* ====================================================================== *)
(** * packages/adjudicator/src/compare.ts                                  *)
(* ====================================================================== *)

Module Adjudicator.

Import Regex.

(** Normalize whitespace for comparison. *)
Definition normalizeWhitespace (content : string) : string :=
  Js.trim
    (replaceAll (Seq [Chr Js.nlc; Star true ws; Chr Js.nlc]) false Js.nl  (* /\n\s*\n/g *)
       (replaceAll (Plus true (oneOf [" "%char; Js.tabc])) false " "      (* /[ \t]+/g *)
          (replaceAll (Seq [Chr Js.crc; Chr Js.nlc]) false Js.nl          (* /\r\n/g *)
             content))).

(** Remove comments for comparison. *)
Definition removeComments (content : string) : string :=
  (* Remove single-line comments: /\/\/.*$/gm *)
  let result := replaceAll (Seq [Lit "//"; Star true dot; Eol]) true "" content in
  (* Remove multi-line comments: /\/\*[\s\S]*?\*\//g *)
  replaceAll (Seq [Lit "/*"; Star false anyChar; Lit "*/"]) false "" result.

Definition truthy (b : option bool) : bool :=
  match b with Some true => true | _ => false end.

(** [options?.ignoreWhitespace] and [options?.ignoreComments]. *)
Definition optIgnoreWhitespace (options : option ComparisonOptions.t) : bool :=
  match options with
  | Some o => truthy (ComparisonOptions.ignoreWhitespace o)
  | None => false
  end.
Definition optIgnoreComments (options : option ComparisonOptions.t) : bool :=
  match options with
  | Some o => truthy (ComparisonOptions.ignoreComments o)
  | None => false
  end.

(** [c.slice(0, 100) + (c.length > 100 ? '...' : '')]. *)
Definition excerpt (c : string) : string :=
  Js.slice0 100 c +++ (if 100 <? String.length c then "..." else "").

(** Compare file content semantically. *)
Definition compareContent (a3Content a4Content path : string)
           (options : option ComparisonOptions.t) : list SemanticDiff.t :=
  let c1 := a3Content in
  let c2 := a4Content in
  (* Apply normalization based on options *)
  let c1 := if optIgnoreWhitespace options then normalizeWhitespace c1 else c1 in
  let c2 := if optIgnoreWhitespace options then normalizeWhitespace c2 else c2 in
  let c1 := if optIgnoreComments options then removeComments c1 else c1 in
  let c2 := if optIgnoreComments options then removeComments c2 else c2 in
  if negb (String.eqb c1 c2) then
    [SemanticDiff.mk path CONTENT_DIFF major
       "File content differs between A3 and A4"
       (Some (excerpt c1)) (Some (excerpt c2)) None]
  else [].

(** Compare A3 and A4 outputs for semantic equivalence.  The two outputs are
    dereferenced in the order of the source, A3 first. *)
Definition compare (input : ComparisonInput.t) : outcome (list SemanticDiff.t) :=
  let options := ComparisonInput.options input in
  a3Output <- readProperty "files" (ComparisonInput.a3Output input) ;;
  a4Output <- readProperty "files" (ComparisonInput.a4Output input) ;;
  (* Compare file counts *)
  let a3Paths := Js.setOf (map GeneratedFile.path (CodegenOutput.files a3Output)) in
  let a4Paths := Js.setOf (map GeneratedFile.path (CodegenOutput.files a4Output)) in
  (* Check for missing files in A4 *)
  let missing :=
    flat_map (fun path =>
                if negb (Js.mem path a4Paths) then
                  [SemanticDiff.mk path MISSING_FILE critical
                     "File exists in A3 but missing in A4"
                     (Some "present") (Some "missing") None]
                else []) a3Paths in
  (* Check for extra files in A4 *)
  let extra :=
    flat_map (fun path =>
                if negb (Js.mem path a3Paths) then
                  [SemanticDiff.mk path EXTRA_FILE critical
                     "File exists in A4 but missing in A3"
                     (Some "missing") (Some "present") None]
                else []) a4Paths in
  (* Compare matching files *)
  let matching :=
    flat_map (fun a3File =>
                match find (fun f => String.eqb (GeneratedFile.path f)
                                                (GeneratedFile.path a3File))
                           (CodegenOutput.files a4Output) with
                | None => []
                | Some a4File =>
                    (* Hash comparison *)
                    if negb (String.eqb (GeneratedFile.hash a3File)
                                        (GeneratedFile.hash a4File)) then
                      compareContent (GeneratedFile.content a3File)
                                     (GeneratedFile.content a4File)
                                     (GeneratedFile.path a3File) options
                    else []
                end) (CodegenOutput.files a3Output) in
  Returned (missing ++ extra ++ matching).

(** Generate human-readable summary. *)
Definition generateSummary (verdict : VerdictType) (diffs : list SemanticDiff.t) : string :=
  match verdict with
  | MATCH =>
      if length diffs =? 0 then "A3 and A4 outputs are identical."
      else "A3 and A4 outputs are semantically equivalent ("
           +++ Js.ofNat (length diffs) +++ " minor differences)."
  | MISMATCH =>
      "A3 and A4 outputs differ significantly. "
      +++ Js.ofNat (length diffs) +++ " differences found."
  | PARTIAL_MATCH =>
      "A3 and A4 outputs partially match. "
      +++ Js.ofNat (length diffs) +++ " differences require review."
  | ERROR => "Comparison could not be completed due to an error."
  | INCONCLUSIVE => "Could not determine semantic equivalence."
  end.

Definition hasSeverity (s : DiffSeverity) (d : SemanticDiff.t) : bool :=
  DiffSeverity_beq (SemanticDiff.severity d) s.

(** The body of [adjudicate] below its first line, as a function of the
    local [diffs]; [now] is the reading of the clock for the time stamp. *)
Definition verdictOf (diffs : list SemanticDiff.t) (now : string) : AdjudicationVerdict.t :=
  (* Determine verdict based on diffs *)
  let criticalDiffs := filter (hasSeverity critical) diffs in
  let majorDiffs := filter (hasSeverity major) diffs in
  let minorDiffs := filter (hasSeverity minor) diffs in
  let '(verdict, semanticallyEquivalent, confidence) :=
    if length diffs =? 0 then (MATCH, true, 1.0%float)
    else if 0 <? length criticalDiffs then (MISMATCH, false, 0.95%float)
    else if 0 <? length majorDiffs then (PARTIAL_MATCH, false, 0.8%float)
    else (* Only minor diffs *) (MATCH, true, 0.9%float) in
  (* Generate summary *)
  let summary := generateSummary verdict diffs in
  AdjudicationVerdict.mk verdict confidence semanticallyEquivalent diffs summary now.

(** Full adjudication with verdict. *)
Definition adjudicate (input : ComparisonInput.t) (now : string) : outcome AdjudicationVerdict.t :=
  diffs <- compare input ;;
  Returned (verdictOf diffs now).

End Adjudicator.


(* ====================================================================== *)
(** * Vocabulary of the statements                                         *)
(* ====================================================================== *)

(** Two values are the same up to the order of keys: equal leaves, arrays
    equal element by element, objects with distinct keys whose properties
    are a rearrangement of one another. *)
Inductive sameUpToKeyOrder : any -> any -> Prop :=
| same_undefined : sameUpToKeyOrder VUndefined VUndefined
| same_null : sameUpToKeyOrder VNull VNull
| same_bool b : sameUpToKeyOrder (VBool b) (VBool b)
| same_num x : sameUpToKeyOrder (VNum x) (VNum x)
| same_str s : sameUpToKeyOrder (VStr s) (VStr s)
| same_arr items1 items2 :
    Forall2 sameUpToKeyOrder items1 items2 ->
    sameUpToKeyOrder (VArr items1) (VArr items2)
| same_obj props1 props1' props2 :
    NoDup (map fst props1) ->
    Forall2 (fun p q => fst p = fst q /\ sameUpToKeyOrder (snd p) (snd q))
            props1 props1' ->
    Permutation props1' props2 ->
    sameUpToKeyOrder (VObj props1) (VObj props2).

(** The result of a call, seen through a projection. *)
Definition mapOutcome {A B} (f : A -> B) (m : outcome A) : outcome B :=
  match m with
  | Returned a => Returned (f a)
  | Thrown e => Thrown e
  end.

(** ** Induction on values *)

(** The induction principle of [any], with the hypotheses on the elements
    of an array and on the properties of an object. *)
Section AnyInduction.
Variable P : any -> Prop.
Hypothesis Hundefined : P VUndefined.
Hypothesis Hnull : P VNull.
Hypothesis Hbool : forall b, P (VBool b).
Hypothesis Hnum : forall x, P (VNum x).
Hypothesis Hstr : forall s, P (VStr s).
Hypothesis Harr : forall items, Forall P items -> P (VArr items).
Hypothesis Hobj : forall props, Forall (fun kv => P (snd kv)) props -> P (VObj props).

Fixpoint any_induction (v : any) : P v :=
  match v with
  | VUndefined => Hundefined
  | VNull => Hnull
  | VBool b => Hbool b
  | VNum x => Hnum x
  | VStr s => Hstr s
  | VArr items =>
      Harr items ((fix all (l : list any) : Forall P l :=
                     match l with
                     | [] => Forall_nil P
                     | x :: l' => Forall_cons x (any_induction x) (all l')
                     end) items)
  | VObj props =>
      Hobj props ((fix all (l : list (string * any)) : Forall (fun kv => P (snd kv)) l :=
                     match l with
                     | [] => Forall_nil _
                     | kv :: l' =>
                         Forall_cons kv
                           (match kv as kv0 return P (snd kv0) with
                            | (_, x) => any_induction x
                            end)
                           (all l')
                     end) props)
  end.
End AnyInduction.

(** ** The adjudicator and the diff builder *)

(** Some diff of a list has the severity [s]. *)
Definition someDiff (diffs : list SemanticDiff.t) (s : DiffSeverity) : Prop :=
  exists d, In d diffs /\ SemanticDiff.severity d = s.

(** The verdict, the equivalence flag and the confidence [adjudicate]
    derives from a list of diffs. *)
Definition verdictIs (diffs : list SemanticDiff.t) (now : string)
           (v : VerdictType) (e : bool) (c : float) : Prop :=
  AdjudicationVerdict.verdict (Adjudicator.verdictOf diffs now) = v
  /\ AdjudicationVerdict.semanticallyEquivalent (Adjudicator.verdictOf diffs now) = e
  /\ AdjudicationVerdict.confidence (Adjudicator.verdictOf diffs now) = c.

(** The paths of the files of a bundle. *)
Definition pathsOf (o : CodegenOutput.t) : list string :=
  map GeneratedFile.path (CodegenOutput.files o).

(** A comparison input with both bundles. *)
Definition bothPresent (a3 a4 : CodegenOutput.t) (options : option ComparisonOptions.t) :=
  ComparisonInput.mk (Some a3) (Some a4) options.

(** The path is in the files of exactly one of the bundles. *)
Definition oneSided (a3 a4 : CodegenOutput.t) (p : string) : Prop :=
  (In p (pathsOf a3) /\ ~ In p (pathsOf a4))
  \/ (In p (pathsOf a4) /\ ~ In p (pathsOf a3)).

(** The pairs of severity and type [compare] gives a diff. *)
Definition compareSeverity (d : SemanticDiff.t) : Prop :=
  (SemanticDiff.severity d = critical
   /\ (SemanticDiff.type d = MISSING_FILE \/ SemanticDiff.type d = EXTRA_FILE))
  \/ (SemanticDiff.severity d = major /\ SemanticDiff.type d = CONTENT_DIFF).

(** A bundle of the one file index.ts. *)
Definition fooBundle (content fileHash : string) (meta : GenerationMetadata.t)
           (bundleHash : string) : CodegenOutput.t :=
  CodegenOutput.mk [GeneratedFile.mk "index.ts" content fileHash] meta bundleHash.

(** The mismatch has the type [t]. *)
Definition hasType (t : DiffType) (m : DiffBuilder.DiffMismatch.t) : bool :=
  DiffType_beq (DiffBuilder.DiffMismatch.type m) t.

(** The fields of the metadata [compareMetadata] compares. *)
Definition sameProvenance (m1 m2 : GenerationMetadata.t) : Prop :=
  GenerationMetadata.version m1 = GenerationMetadata.version m2
  /\ GenerationMetadata.generator m1 = GenerationMetadata.generator m2
  /\ GenerationMetadata.manifestHash m1 = GenerationMetadata.manifestHash m2.

(** The two bundles of the smoke test. *)
Definition mockA3Output : CodegenOutput.t :=
  fooBundle "export const foo = 1;" "abc123"
    (GenerationMetadata.mk "2024-01-01T00:00:00Z" "0.1.0" "manifest123" 100 None None)
    "a3hash".

Definition mockA4OutputDifferent : CodegenOutput.t :=
  fooBundle "export const foo = 2;" "def456"
    (GenerationMetadata.mk "2024-01-01T00:00:01Z" "0.1.0" "manifest123" 150 None None)
    "a4hash-diff".

(** A bundle without files. *)
Definition a4Missing : CodegenOutput.t :=
  CodegenOutput.mk []
    (GenerationMetadata.mk "2024-01-01T00:00:01Z" "0.1.0" "manifest123" 150 None None)
    "a4hash".

(** ** The manifest loader *)

(** The order [Js.sort] sorts by. *)
Definition lebP (s t : string) : Prop := String.leb s t = true.

(** One object written in two orders of keys. *)
Definition orderA : any :=
  VObj [("version", VStr "2.0.0");
        ("thresholds", VObj [("critical", VNum 0.3); ("low", VNum 0.5)]);
        ("metrics", VObj [("version", VObj [("weight", VNum 1); ("description", VStr "v")])])].

Definition orderB : any :=
  VObj [("metrics", VObj [("version", VObj [("description", VStr "v"); ("weight", VNum 1)])]);
        ("version", VStr "2.0.0");
        ("thresholds", VObj [("low", VNum 0.5); ("critical", VNum 0.3)])].

(** The names of the top-level properties of a manifest. *)
Definition topLevelKeys : list string :=
  ["version"; "project"; "thresholds"; "weights"; "diamond_hands"; "thunder_strike";
   "metrics"; "evidence"; "ci"; "notifications"; "roles"].

(** No key of the list is the name of a top-level property. *)
Definition hidden (keys : list string) : Prop :=
  forall P, In P topLevelKeys -> ~ In P keys.

(** A section as the property list of the top-level keys shows it. *)
Definition hiddenMember (k : string) : string := Json.quote k +++ ":{}".

(** The text of a manifest of the declared shape under the property list
    of its own keys: every section is an empty object. *)
Definition blindText (version : string) (hasNotifications hasRoles : bool) : string :=
  "{" +++ Js.join ","
    ([hiddenMember "ci"; hiddenMember "diamond_hands"; hiddenMember "evidence";
      hiddenMember "metrics"]
     ++ (if hasNotifications then [hiddenMember "notifications"] else [])
     ++ [hiddenMember "project"]
     ++ (if hasRoles then [hiddenMember "roles"] else [])
     ++ [hiddenMember "thresholds"; hiddenMember "thunder_strike";
         Json.quote "version" +++ ":" +++ Json.quote version;
         hiddenMember "weights"]) +++ "}".

(** The optional section is present. *)
Definition isSome {A} (x : option A) : bool :=
  match x with Some _ => true | None => false end.

(** The manifest of the defaults of [normalizeManifest]. *)
Definition defaultManifest : Schema.Manifest.t :=
  Schema.Manifest.mk "2.0.0"
    (Schema.ProjectConfig.mk "Unknown" "" "")
    (Schema.ThresholdConfig.mk 0.3 0.5 0.7 0.9)
    (Schema.WeightConfig.mk 0.3 0.25 0.25 0.2)
    (Schema.DiamondHandsConfig.mk 0.7 0.8 true [])
    (Schema.ThunderStrikeConfig.mk
       ["self_assessment"; "peer_review"; "external_validation"; "diamond_hands_final"]
       ["self_assessment"; "peer_review"; "external_validation"])
    []
    (Schema.EvidenceConfig.mk "evidence/A7-bundle" ["json"; "yaml"; "markdown"] 90
       ["frequency_report"; "validation_logs"; "component_metrics"; "decision_record"])
    (Schema.CIConfig.mk ["push"; "pull_request"] "0 */6 * * *" (Some []))
    None None.

(** The manifest with its metrics replaced. *)
Definition withMetrics (entries : list (string * Schema.MetricConfig.t))
           (m : Schema.Manifest.t) : Schema.Manifest.t :=
  Schema.Manifest.mk
    (Schema.Manifest.version m) (Schema.Manifest.project m) (Schema.Manifest.thresholds m)
    (Schema.Manifest.weights m) (Schema.Manifest.diamond_hands m)
    (Schema.Manifest.thunder_strike m) entries (Schema.Manifest.evidence m)
    (Schema.Manifest.ci m) (Schema.Manifest.notifications m) (Schema.Manifest.roles m).

(** A manifest that differs from the default one in every nested field. *)
Definition otherManifest : Schema.Manifest.t :=
  Schema.Manifest.mk "2.0.0"
    (Schema.ProjectConfig.mk "LUMEN OS" "Governance" "https://example.org/lumen")
    (Schema.ThresholdConfig.mk 0.1 0.2 0.3 0.4)
    (Schema.WeightConfig.mk 0.4 0.3 0.2 0.1)
    (Schema.DiamondHandsConfig.mk 0.5 0.6 false ["alice"])
    (Schema.ThunderStrikeConfig.mk ["peer_review"] ["peer_review"])
    [("coherence", Schema.MetricConfig.mk "Coherence" 0.25 ["a"; "b"])]
    (Schema.EvidenceConfig.mk "out" ["json"] 30 ["frequency_report"])
    (Schema.CIConfig.mk ["push"] "0 0 * * *" None)
    None None.

(** A metric named like a top-level key. *)
Definition metricNamedVersion : Schema.Manifest.t :=
  withMetrics [("version", Schema.MetricConfig.mk "" 0 [])] defaultManifest.

(** [m.section.key] of a manifest. *)
Definition field (m : any) (section key : string) : any :=
  Value.optGet (Value.optGet m section) key.



(** A file system of one file, with paths already resolved. *)
Definition oneFile (name content : string) : Fs.t :=
  Fs.mk (fun p => p)
        (fun p => if String.eqb p name then Some (Fs.File content) else None).

(** ** Generator B *)

(** What [generateOutputHash] reads of an output. *)
Definition hashedPart (o : A4Types.CodegenOutput.t) : list (string * string) * string :=
  (map (fun f => (A4Types.GeneratedFile.path f, A4Types.GeneratedFile.hash f)) (A4Types.CodegenOutput.files o),
   A4Types.GenerationMetadata.manifestHash (A4Types.CodegenOutput.metadata o)).

(** A small manifest and the configuration of a run on it. *)
Definition smallManifest : string :=
  "version: '2.0.0'
project:
  name: 'LUMEN OS'
thresholds:
  critical: 0.3
  low: 0.5
  nominal: 0.7
  optimal: 0.9
".

Definition smallConfig : A4Types.CodegenConfig.t := A4Types.CodegenConfig.mk "manifest.yaml" "./dist" None.

(** ** Further vocabulary: bundles *)

(** The two bundles have the same set of paths. *)
Definition samePaths (a3 a4 : CodegenOutput.t) : Prop :=
  forall p, In p (pathsOf a3) <-> In p (pathsOf a4).

(** The file of a bundle that [find] gives for a path. *)
Definition fileAt (o : CodegenOutput.t) (p : string) : option GeneratedFile.t :=
  find (fun f => String.eqb (GeneratedFile.path f) p) (CodegenOutput.files o).

(** A file of the first bundle and the file [find] gives for its path in
    the second have the same hash. *)
Definition hashesAgree (a3 a4 : CodegenOutput.t) : Prop :=
  forall f g, In f (CodegenOutput.files a3) ->
              fileAt a4 (GeneratedFile.path f) = Some g ->
              GeneratedFile.hash f = GeneratedFile.hash g.

(** The content [compareContent] of the adjudicator compares: the content
    after the normalizations the options ask for. *)
Definition normalized (options : option ComparisonOptions.t) (c : string) : string :=
  let c := if Adjudicator.optIgnoreWhitespace options
           then Adjudicator.normalizeWhitespace c else c in
  if Adjudicator.optIgnoreComments options then Adjudicator.removeComments c else c.

(** Some file of the first bundle and the file [find] gives for its path in
    the second differ in hash and in normalized content. *)
Definition contentDiffers (a3 a4 : CodegenOutput.t)
           (options : option ComparisonOptions.t) : Prop :=
  exists f g, In f (CodegenOutput.files a3)
              /\ fileAt a4 (GeneratedFile.path f) = Some g
              /\ GeneratedFile.hash f <> GeneratedFile.hash g
              /\ normalized options (GeneratedFile.content f)
                 <> normalized options (GeneratedFile.content g).

(** The verdict of the adjudicator on two bundles, when it returns one. *)
Definition verdictOn (a3 a4 : CodegenOutput.t) (options : option ComparisonOptions.t)
           (now : string) : outcome VerdictType :=
  mapOutcome AdjudicationVerdict.verdict
             (Adjudicator.adjudicate (bothPresent a3 a4 options) now).

(** A bundle with the file of [mockA3Output] listed twice, the second time
    with another hash and content. *)
Definition twiceListed : CodegenOutput.t :=
  CodegenOutput.mk
    [GeneratedFile.mk "index.ts" "export const foo = 1;" "abc123";
     GeneratedFile.mk "index.ts" "export const foo = 2;" "def456"]
    (GenerationMetadata.mk "2024-01-01T00:00:01Z" "0.1.0" "manifest123" 150 None None)
    "a4hash".


(** ** Further vocabulary: patterns *)

(** The pattern begins with the literal character [c]. *)
Fixpoint beginsWith (c : ascii) (r : Regex.regex) : Prop :=
  match r with
  | Regex.Chr d => d = c
  | Regex.Cat r1 _ => beginsWith c r1
  | Regex.Grp _ r1 => beginsWith c r1
  | _ => False
  end.

(** ** Further vocabulary: the manifest loader *)

(** The comparisons [validateManifest] makes, on two numbers: [a >= b], and
    [x < 0 || x > 1]. *)
Definition notBelow (a b : float) : bool := Value.ge (VNum a) (VNum b).
Definition outsideUnit (x : float) : bool :=
  Value.lt (VNum x) (VNum 0) || Value.gt (VNum x) (VNum 1).

(** The errors and the warnings of [validateManifest] as functions of the
    values it reads. *)
Definition errorsOf (version name critical low nominal optimal threshold : any)
  : list ValidationError.t :=
  (if negb (Value.truthy version)
   then [ValidationError.mk "version" "Version is required" "MISSING_VERSION"] else [])
  ++ (if negb (Value.truthy name)
      then [ValidationError.mk "project.name" "Project name is required"
              "MISSING_PROJECT_NAME"] else [])
  ++ (if Value.ge critical low
      then [ValidationError.mk "thresholds" "Critical threshold must be less than low"
              "INVALID_THRESHOLDS"] else [])
  ++ (if Value.ge low nominal
      then [ValidationError.mk "thresholds" "Low threshold must be less than nominal"
              "INVALID_THRESHOLDS"] else [])
  ++ (if Value.ge nominal optimal
      then [ValidationError.mk "thresholds" "Nominal threshold must be less than optimal"
              "INVALID_THRESHOLDS"] else [])
  ++ (if Value.lt threshold (VNum 0) || Value.gt threshold (VNum 1)
      then [ValidationError.mk "diamond_hands.threshold" "Threshold must be between 0 and 1"
              "INVALID_THRESHOLD"] else []).

Definition warningsOf (w3 w4 w5 wv : any) : list ValidationWarning.t :=
  let weightSum := Value.add (Value.add (Value.add w3 w4) w5) wv in
  if Value.gt (Value.abs (Value.sub weightSum (VNum 1.0))) (VNum 0.01)
  then [ValidationWarning.mk "weights"
          ("Weights sum to " +++ Value.toString weightSum +++ ", expected 1.0")
          "WEIGHT_SUM"]
  else [].

(** A line [parseYaml] skips: a comment or a blank line. *)
Definition isSkipped (line : string) : bool :=
  Js.startsWith (Js.trim line) "#" || String.eqb (Js.trim line) "".

(** The manifest of an empty document: every default of
    [normalizeManifest]. *)
Definition manifestOfDefaults : any := ManifestLoader.normalizeManifest (VObj []).

(** A lower-case hexadecimal digit. *)
Definition isHexDigit (c : ascii) : bool :=
  existsb (Ascii.eqb c) (list_ascii_of_string "0123456789abcdef").

(** A hash as the sources cut it: sixteen lower-case hexadecimal digits. *)
Definition isShortHash (h : string) : Prop :=
  String.length h = 16 /\ forallb isHexDigit (list_ascii_of_string h) = true.

(** A document of comments and blank lines. *)
Definition commentsOnly : string :=
  "# Vyberology manifest

   # nothing configured yet
".

(** The fields of a manifest that [normalizeManifest] fills in with
    [||], and those it fills in with [Array.isArray]. *)
Definition filledFields : list (string * string) :=
  [("project", "name");
   ("thresholds", "critical"); ("thresholds", "low"); ("thresholds", "nominal");
   ("thresholds", "optimal");
   ("weights", "A3_governance"); ("weights", "A4_architecture");
   ("weights", "A5_implementation"); ("weights", "validation");
   ("diamond_hands", "threshold"); ("diamond_hands", "required_validation_score");
   ("evidence", "output_directory"); ("evidence", "retention_days");
   ("ci", "schedule"); ("ci", "jobs")].

Definition listFields : list (string * string) :=
  [("diamond_hands", "approvers");
   ("thunder_strike", "validation_levels"); ("thunder_strike", "required_for_advancement");
   ("evidence", "formats"); ("evidence", "required_artifacts");
   ("ci", "trigger_on")].

(** The sections of a manifest with the keys of each, in declaration
    order. *)
Definition sectionKeys : list (string * list string) :=
  [("project", ["name"; "description"; "repository"]);
   ("thresholds", ["critical"; "low"; "nominal"; "optimal"]);
   ("weights", ["A3_governance"; "A4_architecture"; "A5_implementation"; "validation"]);
   ("diamond_hands", ["threshold"; "required_validation_score"; "approval_required";
                      "approvers"]);
   ("thunder_strike", ["validation_levels"; "required_for_advancement"]);
   ("evidence", ["output_directory"; "formats"; "retention_days"; "required_artifacts"]);
   ("ci", ["trigger_on"; "schedule"; "jobs"])].

(** A document that sets a threshold and a weight to zero. *)
Definition zeroDocument : string :=
  "thresholds:
  critical: 0
weights:
  validation: 0
".

(** ** Further vocabulary: generator B *)

(** The five files of a bundle of generator B, in the order it builds
    them. *)
Definition generatedPaths : list string :=
  ["types.ts"; "constants.ts"; "validators.ts"; "config.ts"; "index.ts"].

(** A bundle of generator B as the adjudicator and the diff builder read
    it: the fields of their own declarations. *)
Definition asBundle (o : A4Types.CodegenOutput.t) : CodegenOutput.t :=
  CodegenOutput.mk
    (map (fun f => GeneratedFile.mk (A4Types.GeneratedFile.path f)
                                    (A4Types.GeneratedFile.content f)
                                    (A4Types.GeneratedFile.hash f))
         (A4Types.CodegenOutput.files o))
    (GenerationMetadata.mk
       (A4Types.GenerationMetadata.timestamp (A4Types.CodegenOutput.metadata o))
       (A4Types.GenerationMetadata.version (A4Types.CodegenOutput.metadata o))
       (A4Types.GenerationMetadata.manifestHash (A4Types.CodegenOutput.metadata o))
       (A4Types.GenerationMetadata.durationMs (A4Types.CodegenOutput.metadata o))
       (A4Types.GenerationMetadata.generator (A4Types.CodegenOutput.metadata o))
       (A4Types.GenerationMetadata.fileCount (A4Types.CodegenOutput.metadata o)))
    (A4Types.CodegenOutput.hash o).

(** Two clocks a second apart. *)
Definition clockAt (startTime : float) (timestamp : string) : Clock.t :=
  Clock.mk startTime timestamp (PrimFloat.add startTime 12).

(** The bundle of a run on the small manifest. *)
Definition smallRun (clock : Clock.t) : A4Types.CodegenOutput.t :=
  match A4Codegen.generate (oneFile "manifest.yaml" smallManifest) clock smallConfig with
  | Returned o => o
  | Thrown _ =>
      A4Types.CodegenOutput.mk [] (A4Types.GenerationMetadata.mk "" "" "" 0 None None) ""
  end.

(** A metric as [normalizeMetrics] leaves it: the three properties of the
    schema, the sources an array. *)
Definition isMetric (v : any) : Prop :=
  Value.keys v = ["description"; "weight"; "sources"]
  /\ Value.isArray (Value.optGet v "sources") = true
  /\ (Value.truthy (Value.optGet v "weight") = true
      \/ Value.optGet v "weight" = VNum 0)
  /\ (Value.truthy (Value.optGet v "description") = true
      \/ Value.optGet v "description" = VStr "").

(** A document with a metric given as a scalar and one given as a
    section. *)
Definition metricsDocument : string :=
  "metrics:
  coverage: 0.5
  coherence:
    weight: 0.25
".

(** The key of a line that [parseYaml] reads as a top-level key, and the
    top-level keys of a document in the order of its lines. *)
Definition topLevelKeyOf (line : string) : option string :=
  if isSkipped line then None
  else if negb (Js.startsWith line " ") && negb (Js.startsWith line (String Js.tabc ""))
          && Js.includes (Js.trim line) ":"
       then Some (ManifestLoader.keyOf (Js.trim line))
       else None.

Definition topLevelKeysOf (lines : list string) : list string :=
  flat_map (fun line => match topLevelKeyOf line with
                        | Some k => [k]
                        | None => []
                        end) lines.



(** A document that gives a key first as a section, then as a scalar, and
    then a nested line. *)
Definition repeatedKeyDocument : string :=
  "x:
x: 5
  b: 2
".

(** The top-level keys of the manifest generator B extracts, and the names
    of the metrics it looks for. *)
Definition extractedKeys : list string :=
  ["version"; "project"; "thresholds"; "weights"; "diamond_hands"; "thunder_strike";
   "metrics"; "evidence"; "ci"].

Definition knownMetrics : list string :=
  ["coherence"; "alignment"; "velocity"; "stability"; "evidence_score"].

(** A manifest with a metric generator B does not look for. *)
Definition otherMetricDocument : string :=
  "metrics:
  coherence:
    weight: 0.5
  latency:
    weight: 0.5
".
(* ====================================================================== *)
(** * Properties                                                           *)
(* ====================================================================== *)

(** ** The platform on known values *)

Example sha256_abc :
  Sha256.hex "abc" = "ba7816bf8f01cfea414140de5dae2223b00361a396177a9cb410ff61f20015ad".
Proof. vm_compute. reflexivity. Qed.

Example sha256_empty :
  Sha256.hex "" = "e3b0c44298fc1c149afbf4c8996fb92427ae41e4649b934ca495991b7852b855".
Proof. vm_compute. reflexivity. Qed.

Example toString_known :
  map Num.toString [(0.1 + 0.2)%float; 0.3%float; 1e21%float; 1e-7%float; 0.000001%float;
                    90%float; (-0.25)%float; 5e-324%float]
  = ["0.30000000000000004"; "0.3"; "1e+21"; "1e-7"; "0.000001"; "90"; "-0.25"; "5e-324"].
Proof. vm_compute. reflexivity. Qed.

Example parseFloat_known :
  map (fun s => Num.toString (Num.parseFloat s)) ["0.6"; "  -12.5e2xyz"; "1.2.3"; "."; "1e400"]
  = ["0.6"; "-1250"; "1.2"; "NaN"; "Infinity"].
Proof. vm_compute. reflexivity. Qed.

Example parseValue_known :
  map ManifestLoader.parseValue ["0.6"; "'2.0.0'"; "true"; "12 # twelve"; "1.2.3"; "-.5"; "5."]
  = [VNum 0.6; VStr "2.0.0"; VBool true; VNum 12; VStr "1.2.3"; VNum (-0.5); VStr "5."].
Proof. vm_compute. reflexivity. Qed.

Example extractExports_known :
  DiffBuilder.extractExports
    ("export const foo = 1;" +++ Js.nl +++ "export   function  bar_2() {}; export type T = number;")
  = ["T"; "bar_2"; "foo"].
Proof. vm_compute. reflexivity. Qed.

Example stringify_known :
  Json.stringify (VObj [("b", VArr [VNum 1; VUndefined; VStr "x"]); ("u", VUndefined);
                        ("a", VObj [("n", VNull); ("t", VBool true)])])
  = Some ("{" +++ Json.quote "b" +++ ":[1,null," +++ Json.quote "x" +++ "],"
          +++ Json.quote "a" +++ ":{" +++ Json.quote "n" +++ ":null,"
          +++ Json.quote "t" +++ ":true}}").
Proof. vm_compute. reflexivity. Qed.

(** ** Lists and sets of strings *)

Lemma mem_In (x : string) (l : list string) : Js.mem x l = true <-> In x l.
Proof.
  unfold Js.mem. rewrite existsb_exists. split.
  - intros [y [Hy Heq]]. apply String.eqb_eq in Heq. now subst.
  - intros H. exists x. split; [assumption | apply String.eqb_refl].
Qed.

Lemma mem_not_In (x : string) (l : list string) : Js.mem x l = false <-> ~ In x l.
Proof.
  rewrite <- mem_In. destruct (Js.mem x l); split; congruence.
Qed.

Lemma setOfAux_In (x : string) (l seen : list string) :
  In x (Js.setOfAux seen l) <-> In x l /\ ~ In x seen.
Proof.
  revert seen. induction l as [|y l IH]; intros seen; simpl.
  - tauto.
  - destruct (Js.mem y seen) eqn:Hy.
    + apply mem_In in Hy. rewrite IH. split.
      * tauto.
      * intros [[->|Hx] Hn]; [contradiction | tauto].
    + apply mem_not_In in Hy. simpl. rewrite IH. simpl. split.
      * intros [->|[Hx Hn]]; [tauto | split; [tauto | intro; apply Hn; now right]].
      * intros [[->|Hx] Hn]; [now left|].
        destruct (string_dec y x) as [->|Hne]; [now left | right].
        split; [assumption | intros [?|?]; [congruence | contradiction]].
Qed.

Lemma setOf_In (x : string) (l : list string) : In x (Js.setOf l) <-> In x l.
Proof. unfold Js.setOf. rewrite setOfAux_In. simpl. tauto. Qed.

Lemma filter_nonempty {A} (f : A -> bool) (l : list A) :
  0 < length (filter f l) <-> exists x, In x l /\ f x = true.
Proof.
  split.
  - destruct (filter f l) as [|x t] eqn:E; simpl; [lia | intros _].
    exists x. apply filter_In. rewrite E. now left.
  - intros [x Hx]. apply filter_In in Hx.
    destruct (filter f l); [contradiction | simpl; lia].
Qed.

Lemma filter_empty {A} (f : A -> bool) (l : list A) :
  length (filter f l) = 0 <-> forall x, In x l -> f x = false.
Proof.
  split.
  - intros H x Hx. destruct (f x) eqn:E; [|reflexivity].
    assert (0 < length (filter f l)) by (apply filter_nonempty; eauto). lia.
  - intros H. destruct (filter f l) as [|x t] eqn:E; [reflexivity|].
    assert (Hx : In x (filter f l)) by (rewrite E; now left).
    apply filter_In in Hx. destruct Hx as [Hx Hf]. rewrite (H x Hx) in Hf. discriminate.
Qed.

Lemma severity_beq_eq (s t : DiffSeverity) : DiffSeverity_beq s t = true <-> s = t.
Proof. destruct s, t; simpl; split; congruence. Qed.


(** ** The adjudicator's decision *)

Section Decision.
Import Adjudicator.
Variable diffs : list SemanticDiff.t.
Variable now : string.

Lemma someDiff_filter (s : DiffSeverity) :
  0 < length (filter (hasSeverity s) diffs) <-> someDiff diffs s.
Proof.
  rewrite filter_nonempty. unfold someDiff, hasSeverity.
  split; intros [d [Hd Hs]]; exists d; (split; [assumption|]);
    now apply severity_beq_eq.
Qed.

Lemma verdictOf_diffs : AdjudicationVerdict.diffs (verdictOf diffs now) = diffs.
Proof.
  unfold verdictOf.
  destruct (length diffs =? 0); [reflexivity|].
  destruct (0 <? length (filter (hasSeverity critical) diffs)); [reflexivity|].
  destruct (0 <? length (filter (hasSeverity major) diffs)); reflexivity.
Qed.

Lemma verdictOf_none : diffs = [] -> verdictIs diffs now MATCH true 1.0%float.
Proof. intros H. unfold verdictIs. rewrite H. repeat split. Qed.

Lemma verdictOf_critical : someDiff diffs critical -> verdictIs diffs now MISMATCH false 0.95%float.
Proof.
  intros H. pose proof H as Hf. apply someDiff_filter in Hf.
  destruct H as [d [Hd _]].
  unfold verdictIs, verdictOf.
  destruct diffs as [|d0 ds]; [contradiction|].
  replace (length (d0 :: ds) =? 0) with false by reflexivity.
  apply Nat.ltb_lt in Hf. rewrite Hf. repeat split.
Qed.

Lemma verdictOf_major :
  someDiff diffs major -> ~ someDiff diffs critical -> verdictIs diffs now PARTIAL_MATCH false 0.8%float.
Proof.
  intros H Hn. pose proof H as Hf. apply someDiff_filter in Hf.
  rewrite <- someDiff_filter in Hn.
  destruct H as [d [Hd _]].
  unfold verdictIs, verdictOf.
  destruct diffs as [|d0 ds]; [contradiction|].
  replace (length (d0 :: ds) =? 0) with false by reflexivity.
  apply Nat.ltb_lt in Hf. apply Nat.ltb_nlt in Hn. rewrite Hf, Hn. repeat split.
Qed.

Lemma verdictOf_minor :
  diffs <> [] ->
  (forall d, In d diffs ->
             SemanticDiff.severity d = minor \/ SemanticDiff.severity d = info) ->
  verdictIs diffs now MATCH true 0.9%float.
Proof.
  intros Hne Hall.
  assert (Hc : ~ someDiff diffs critical).
  { intros [d [Hd Hs]]. destruct (Hall d Hd); congruence. }
  assert (Hm : ~ someDiff diffs major).
  { intros [d [Hd Hs]]. destruct (Hall d Hd); congruence. }
  rewrite <- someDiff_filter in Hc, Hm.
  apply Nat.ltb_nlt in Hc, Hm.
  unfold verdictIs, verdictOf.
  destruct diffs as [|d0 ds]; [congruence|].
  replace (length (d0 :: ds) =? 0) with false by reflexivity.
  rewrite Hc, Hm. repeat split.
Qed.

End Decision.

Lemma adjudicate_unfold (input : ComparisonInput.t) (now : string) :
  Adjudicator.adjudicate input now
  = (diffs <- Adjudicator.compare input ;; Returned (Adjudicator.verdictOf diffs now)).
Proof. reflexivity. Qed.

(** Claim C2.  Whenever [compare] yields the diffs of an input, [adjudicate]
    returns the verdict its decision stage derives from them, and that
    stage follows the table, for every list of diffs: no diff gives MATCH,
    equivalent, confidence 1.0; a critical diff gives MISMATCH, not
    equivalent, 0.95; a major diff and no critical one gives PARTIAL_MATCH,
    not equivalent, 0.8; a non-empty list of minor and info diffs gives
    MATCH, equivalent, 0.9. *)
Theorem adjudicate_verdict_table :
  (forall input now diffs,
         Adjudicator.compare input = Returned diffs ->
         Adjudicator.adjudicate input now = Returned (Adjudicator.verdictOf diffs now))
  /\ (forall diffs now,
         (diffs = [] -> verdictIs diffs now MATCH true 1.0%float)
         /\ (someDiff diffs critical -> verdictIs diffs now MISMATCH false 0.95%float)
         /\ (someDiff diffs major -> ~ someDiff diffs critical ->
             verdictIs diffs now PARTIAL_MATCH false 0.8%float)
         /\ (diffs <> [] ->
             (forall d, In d diffs ->
                        SemanticDiff.severity d = minor \/ SemanticDiff.severity d = info) ->
             verdictIs diffs now MATCH true 0.9%float)).
Proof.
  split.
  - intros input now diffs H. unfold Adjudicator.adjudicate. now rewrite H.
  - intros diffs now.
    split; [apply verdictOf_none|].
    split; [apply verdictOf_critical|].
    split; [apply verdictOf_major | apply verdictOf_minor].
Qed.

Lemma generateDiffReport_cases (r : DiffBuilder.DiffResult.t) :
  let c := DiffBuilder.DiffSummary.criticalCount (DiffBuilder.DiffResult.summary r) in
  let m := DiffBuilder.DiffSummary.majorCount (DiffBuilder.DiffResult.summary r) in
  let v := DiffBuilder.DiffReport.verdict (DiffBuilder.generateDiffReport r) in
  (v = "MATCH" <-> c = 0 /\ m = 0)
  /\ (v = "MISMATCH" <-> 0 < c)
  /\ (v = "PARTIAL_MATCH" <-> c = 0 /\ 0 < m).
Proof.
  cbv zeta. unfold DiffBuilder.generateDiffReport. simpl.
  destruct (DiffBuilder.DiffSummary.criticalCount (DiffBuilder.DiffResult.summary r)) as [|c];
    destruct (DiffBuilder.DiffSummary.majorCount (DiffBuilder.DiffResult.summary r)) as [|m]; simpl;
    repeat split; intros; try discriminate; try lia;
    match goal with H : _ /\ _ |- _ => destruct H; try discriminate; lia end.
Qed.

Lemma buildDiff_counts (a3 a4 : CodegenOutput.t) (now : string) (s : DiffSeverity) :
  let r := DiffBuilder.buildDiff a3 a4 now in
  (0 < length (filter (DiffBuilder.hasSeverity s) (DiffBuilder.DiffResult.mismatches r))
   <-> exists m, In m (DiffBuilder.DiffResult.mismatches r) /\ DiffBuilder.DiffMismatch.severity m = s).
Proof.
  cbv zeta. rewrite filter_nonempty. unfold DiffBuilder.hasSeverity.
  split; intros [m [Hm Hs]]; exists m; (split; [assumption|]);
    now apply severity_beq_eq.
Qed.

(** Claim C3.  The verdict of the report [generateDiffReport] makes of
    [buildDiff a3 a4] is MATCH exactly when the summary counts no critical
    and no major mismatch, MISMATCH exactly when it counts a critical one,
    and PARTIAL_MATCH exactly in the remaining case; the counts of the
    summary are those of the mismatches of the result, so the same holds
    with the mismatches themselves. *)
Theorem generateDiffReport_verdict (a3 a4 : CodegenOutput.t) (now : string) :
  let r := DiffBuilder.buildDiff a3 a4 now in
  let s := DiffBuilder.DiffResult.summary r in
  let v := DiffBuilder.DiffReport.verdict (DiffBuilder.generateDiffReport r) in
  let some sev := exists m, In m (DiffBuilder.DiffResult.mismatches r) /\ DiffBuilder.DiffMismatch.severity m = sev in
  (v = "MATCH" <-> DiffBuilder.DiffSummary.criticalCount s = 0 /\ DiffBuilder.DiffSummary.majorCount s = 0)
  /\ (v = "MISMATCH" <-> 0 < DiffBuilder.DiffSummary.criticalCount s)
  /\ (v = "PARTIAL_MATCH" <->
      ~ (DiffBuilder.DiffSummary.criticalCount s = 0 /\ DiffBuilder.DiffSummary.majorCount s = 0)
      /\ ~ 0 < DiffBuilder.DiffSummary.criticalCount s)
  /\ (v = "MATCH" <-> ~ some critical /\ ~ some major)
  /\ (v = "MISMATCH" <-> some critical)
  /\ (v = "PARTIAL_MATCH" <-> ~ some critical /\ some major).
Proof.
  cbv zeta.
  destruct (generateDiffReport_cases (DiffBuilder.buildDiff a3 a4 now)) as [Hm [Hx Hp]].
  cbv zeta in Hm, Hx, Hp.
  pose proof (buildDiff_counts a3 a4 now critical) as Hc.
  pose proof (buildDiff_counts a3 a4 now major) as Hj.
  cbv zeta in Hc, Hj.
  change (length (filter (DiffBuilder.hasSeverity critical) (DiffBuilder.DiffResult.mismatches (DiffBuilder.buildDiff a3 a4 now))))
    with (DiffBuilder.DiffSummary.criticalCount (DiffBuilder.DiffResult.summary (DiffBuilder.buildDiff a3 a4 now))) in Hc.
  change (length (filter (DiffBuilder.hasSeverity major) (DiffBuilder.DiffResult.mismatches (DiffBuilder.buildDiff a3 a4 now))))
    with (DiffBuilder.DiffSummary.majorCount (DiffBuilder.DiffResult.summary (DiffBuilder.buildDiff a3 a4 now))) in Hj.
  rewrite Hm, Hx, Hp, <- Hc, <- Hj.
  repeat split; intros; try lia; destruct H; try lia.
Qed.

(** ** Files present on one side only *)

Lemma buildDiff_missing (a3 a4 : CodegenOutput.t) (now p : string) :
  In p (pathsOf a3) -> ~ In p (pathsOf a4) ->
  In (DiffBuilder.DiffMismatch.mk MISSING_FILE critical p
        "File exists in A3 but missing in A4" (Some "present") (Some "missing"))
     (DiffBuilder.DiffResult.mismatches (DiffBuilder.buildDiff a3 a4 now)).
Proof.
  intros H3 H4. unfold DiffBuilder.buildDiff. simpl.
  apply in_or_app. left. apply in_flat_map. exists p. split.
  - now apply setOf_In.
  - replace (Js.mem p _) with false; [now left|].
    symmetry. apply mem_not_In. now rewrite setOf_In.
Qed.

Lemma buildDiff_extra (a3 a4 : CodegenOutput.t) (now p : string) :
  In p (pathsOf a4) -> ~ In p (pathsOf a3) ->
  In (DiffBuilder.DiffMismatch.mk EXTRA_FILE critical p
        "File exists in A4 but missing in A3" (Some "missing") (Some "present"))
     (DiffBuilder.DiffResult.mismatches (DiffBuilder.buildDiff a3 a4 now)).
Proof.
  intros H4 H3. unfold DiffBuilder.buildDiff. simpl.
  apply in_or_app. right. apply in_or_app. left.
  apply in_flat_map. exists p. split.
  - now apply setOf_In.
  - replace (Js.mem p _) with false; [now left|].
    symmetry. apply mem_not_In. now rewrite setOf_In.
Qed.

Lemma compare_returns (a3 a4 : CodegenOutput.t) (options : option ComparisonOptions.t) :
  exists diffs, Adjudicator.compare (bothPresent a3 a4 options) = Returned diffs.
Proof. unfold Adjudicator.compare, bothPresent. simpl. eauto. Qed.

Lemma compare_missing (a3 a4 : CodegenOutput.t) options (p : string) diffs :
  Adjudicator.compare (bothPresent a3 a4 options) = Returned diffs ->
  In p (pathsOf a3) -> ~ In p (pathsOf a4) ->
  In (SemanticDiff.mk p MISSING_FILE critical
        "File exists in A3 but missing in A4" (Some "present") (Some "missing") None)
     diffs.
Proof.
  unfold Adjudicator.compare, bothPresent. simpl. intros E H3 H4.
  injection E as <-.
  apply in_or_app. left. apply in_flat_map. exists p. split.
  - now apply setOf_In.
  - replace (Js.mem p _) with false; [now left|].
    symmetry. apply mem_not_In. now rewrite setOf_In.
Qed.

Lemma compare_extra (a3 a4 : CodegenOutput.t) options (p : string) diffs :
  Adjudicator.compare (bothPresent a3 a4 options) = Returned diffs ->
  In p (pathsOf a4) -> ~ In p (pathsOf a3) ->
  In (SemanticDiff.mk p EXTRA_FILE critical
        "File exists in A4 but missing in A3" (Some "missing") (Some "present") None)
     diffs.
Proof.
  unfold Adjudicator.compare, bothPresent. simpl. intros E H4 H3.
  injection E as <-.
  apply in_or_app. right. apply in_or_app. left.
  apply in_flat_map. exists p. split.
  - now apply setOf_In.
  - replace (Js.mem p _) with false; [now left|].
    symmetry. apply mem_not_In. now rewrite setOf_In.
Qed.

(** Claim C5.  When a path is in the files of one bundle and not in the
    files of the other, [buildDiff] has a critical MISSING_FILE or
    EXTRA_FILE mismatch at that path and the report's verdict is MISMATCH;
    [compare] returns a critical diff of the same kind at that path and
    [adjudicate] returns the verdict MISMATCH. *)
Theorem one_sided_file_is_mismatch
        (a3 a4 : CodegenOutput.t) (options : option ComparisonOptions.t)
        (now p : string) :
  oneSided a3 a4 p ->
  (exists m, In m (DiffBuilder.DiffResult.mismatches (DiffBuilder.buildDiff a3 a4 now))
             /\ (DiffBuilder.DiffMismatch.type m = MISSING_FILE
                 \/ DiffBuilder.DiffMismatch.type m = EXTRA_FILE)
             /\ DiffBuilder.DiffMismatch.severity m = critical
             /\ DiffBuilder.DiffMismatch.path m = p)
  /\ DiffBuilder.DiffReport.verdict
       (DiffBuilder.generateDiffReport (DiffBuilder.buildDiff a3 a4 now)) = "MISMATCH"
  /\ (exists diffs,
         Adjudicator.compare (bothPresent a3 a4 options) = Returned diffs
         /\ exists d, In d diffs
                      /\ (SemanticDiff.type d = MISSING_FILE \/ SemanticDiff.type d = EXTRA_FILE)
                      /\ SemanticDiff.severity d = critical
                      /\ SemanticDiff.path d = p)
  /\ (exists v,
         Adjudicator.adjudicate (bothPresent a3 a4 options) now = Returned v
         /\ AdjudicationVerdict.verdict v = MISMATCH).
Proof.
  intros Hp.
  assert (Hm : exists m,
             In m (DiffBuilder.DiffResult.mismatches (DiffBuilder.buildDiff a3 a4 now))
             /\ (DiffBuilder.DiffMismatch.type m = MISSING_FILE
                 \/ DiffBuilder.DiffMismatch.type m = EXTRA_FILE)
             /\ DiffBuilder.DiffMismatch.severity m = critical
             /\ DiffBuilder.DiffMismatch.path m = p).
  { destruct Hp as [[H3 H4]|[H4 H3]].
    - eexists. split; [apply (buildDiff_missing a3 a4 now p H3 H4)|]. simpl. tauto.
    - eexists. split; [apply (buildDiff_extra a3 a4 now p H4 H3)|]. simpl. tauto. }
  destruct (compare_returns a3 a4 options) as [diffs Hd].
  assert (Hs : exists d, In d diffs
                         /\ (SemanticDiff.type d = MISSING_FILE \/ SemanticDiff.type d = EXTRA_FILE)
                         /\ SemanticDiff.severity d = critical
                         /\ SemanticDiff.path d = p).
  { destruct Hp as [[H3 H4]|[H4 H3]].
    - eexists. split; [apply (compare_missing a3 a4 options p diffs Hd H3 H4)|]. simpl. tauto.
    - eexists. split; [apply (compare_extra a3 a4 options p diffs Hd H4 H3)|]. simpl. tauto. }
  split; [exact Hm|]. split.
  - destruct Hm as [m [Hin [_ [Hsev _]]]].
    apply generateDiffReport_cases.
    change (DiffBuilder.DiffSummary.criticalCount
              (DiffBuilder.DiffResult.summary (DiffBuilder.buildDiff a3 a4 now)))
      with (length (filter (DiffBuilder.hasSeverity critical)
                           (DiffBuilder.DiffResult.mismatches (DiffBuilder.buildDiff a3 a4 now)))).
    apply filter_nonempty. exists m. split; [assumption|].
    unfold DiffBuilder.hasSeverity. now apply severity_beq_eq.
  - split; [exists diffs; split; [assumption | exact Hs]|].
    exists (Adjudicator.verdictOf diffs now). split.
    + unfold Adjudicator.adjudicate. now rewrite Hd.
    + destruct Hs as [d [Hin [_ [Hsev _]]]].
      apply verdictOf_critical. exists d. tauto.
Qed.

(** ** The severities [compare] produces *)

Lemma compareContent_severity (c1 c2 path : string) options (d : SemanticDiff.t) :
  In d (Adjudicator.compareContent c1 c2 path options) ->
  SemanticDiff.severity d = major /\ SemanticDiff.type d = CONTENT_DIFF.
Proof.
  unfold Adjudicator.compareContent.
  match goal with |- context [negb ?b] => destruct b end; simpl.
  - contradiction.
  - intros [<-|[]]. split; reflexivity.
Qed.

Lemma compare_severity (input : ComparisonInput.t) (diffs : list SemanticDiff.t) :
  Adjudicator.compare input = Returned diffs ->
  forall d, In d diffs -> compareSeverity d.
Proof.
  unfold Adjudicator.compare.
  destruct (ComparisonInput.a3Output input) as [a3|]; simpl; [|discriminate].
  destruct (ComparisonInput.a4Output input) as [a4|]; simpl; [|discriminate].
  intros E d Hd. injection E as <-.
  apply in_app_or in Hd. destruct Hd as [Hd|Hd].
  { apply in_flat_map in Hd. destruct Hd as [p [_ Hd]].
    destruct (negb _); [|contradiction].
    destruct Hd as [<-|[]]. left. simpl. tauto. }
  apply in_app_or in Hd. destruct Hd as [Hd|Hd].
  { apply in_flat_map in Hd. destruct Hd as [p [_ Hd]].
    destruct (negb _); [|contradiction].
    destruct Hd as [<-|[]]. left. simpl. tauto. }
  apply in_flat_map in Hd. destruct Hd as [f [_ Hd]].
  destruct (find _ _) as [a4File|]; [|contradiction].
  destruct (negb _); [|contradiction].
  right. eapply compareContent_severity. exact Hd.
Qed.

Lemma adjudicate_after_compare
      (input : ComparisonInput.t) (now : string) (v : AdjudicationVerdict.t) :
  Adjudicator.adjudicate input now = Returned v ->
  Adjudicator.compare input = Returned (AdjudicationVerdict.diffs v)
  /\ ((AdjudicationVerdict.verdict v = MATCH
       /\ AdjudicationVerdict.confidence v = 1.0%float)
      \/ (AdjudicationVerdict.verdict v = MISMATCH
          /\ AdjudicationVerdict.confidence v = 0.95%float)
      \/ (AdjudicationVerdict.verdict v = PARTIAL_MATCH
          /\ AdjudicationVerdict.confidence v = 0.8%float))
  /\ (forall d, In d (AdjudicationVerdict.diffs v) -> compareSeverity d).
Proof.
  unfold Adjudicator.adjudicate.
  destruct (Adjudicator.compare input) as [diffs|e] eqn:Hc; simpl; [|discriminate].
  intros E. injection E as <-.
  rewrite verdictOf_diffs.
  pose proof (compare_severity input diffs Hc) as Hsev.
  assert (Hcases :
            (AdjudicationVerdict.verdict (Adjudicator.verdictOf diffs now) = MATCH
             /\ AdjudicationVerdict.confidence (Adjudicator.verdictOf diffs now) = 1.0%float)
            \/ (AdjudicationVerdict.verdict (Adjudicator.verdictOf diffs now) = MISMATCH
                /\ AdjudicationVerdict.confidence (Adjudicator.verdictOf diffs now) = 0.95%float)
            \/ (AdjudicationVerdict.verdict (Adjudicator.verdictOf diffs now) = PARTIAL_MATCH
                /\ AdjudicationVerdict.confidence (Adjudicator.verdictOf diffs now) = 0.8%float)).
  { destruct diffs as [|d0 ds] eqn:Ed.
    - left. split; reflexivity.
    - rewrite <- Ed in *.
      assert (Hd0 : In d0 diffs) by (rewrite Ed; now left).
      destruct (Hsev d0 Hd0) as [[Hs _]|[Hs _]].
      + right. left.
        destruct (verdictOf_critical diffs now) as [Hv [_ Hcf]]; [exists d0; tauto | tauto].
      + destruct (Nat.ltb_spec 0 (length (filter (Adjudicator.hasSeverity critical) diffs)))
          as [Hlt|Hge].
        * right. left. apply someDiff_filter in Hlt.
          destruct (verdictOf_critical diffs now Hlt) as [Hv [_ Hcf]]. tauto.
        * right. right.
          assert (Hn : ~ someDiff diffs critical)
            by (rewrite <- someDiff_filter; lia).
          destruct (verdictOf_major diffs now) as [Hv [_ Hcf]];
            [exists d0; tauto | assumption | tauto]. }
  split; [reflexivity|]. split; [exact Hcases | exact Hsev].
Qed.

(** Claim C10.  A verdict [adjudicate] returns carries the diffs of
    [compare]; each of them is critical with type MISSING_FILE or
    EXTRA_FILE, or major with type CONTENT_DIFF, and none is minor or info.
    The verdict is MATCH at confidence 1.0, MISMATCH at 0.95 or
    PARTIAL_MATCH at 0.8, and never MATCH at confidence 0.9. *)
Theorem compare_never_minor_or_info
        (input : ComparisonInput.t) (now : string) (v : AdjudicationVerdict.t) :
  Adjudicator.adjudicate input now = Returned v ->
  Adjudicator.compare input = Returned (AdjudicationVerdict.diffs v)
  /\ (forall d, In d (AdjudicationVerdict.diffs v) ->
                compareSeverity d
                /\ SemanticDiff.severity d <> minor
                /\ SemanticDiff.severity d <> info)
  /\ ((AdjudicationVerdict.verdict v = MATCH
       /\ AdjudicationVerdict.confidence v = 1.0%float)
      \/ (AdjudicationVerdict.verdict v = MISMATCH
          /\ AdjudicationVerdict.confidence v = 0.95%float)
      \/ (AdjudicationVerdict.verdict v = PARTIAL_MATCH
          /\ AdjudicationVerdict.confidence v = 0.8%float))
  /\ ~ (AdjudicationVerdict.verdict v = MATCH
        /\ AdjudicationVerdict.confidence v = 0.9%float).
Proof.
  intros H.
  destruct (adjudicate_after_compare input now v H) as [Hc [Hcases Hsev]].
  split; [exact Hc|]. split; [|split; [exact Hcases|]].
  - intros d Hd. pose proof (Hsev d Hd) as Hs. split; [exact Hs|].
    destruct Hs as [[Hs _]|[Hs _]]; rewrite Hs; split; discriminate.
  - intros [Hv Hcf].
    destruct Hcases as [[_ Hx]|[[Hx _]|[Hx _]]];
      [rewrite Hx in Hcf; discriminate Hcf | congruence | congruence].
Qed.

(** ** The scenario of the smoke test: one file, two contents *)

Lemma compareMetadata_same (m1 m2 : GenerationMetadata.t) :
  sameProvenance m1 m2 -> DiffBuilder.compareMetadata m1 m2 = [].
Proof.
  intros [Hv [Hg Hh]]. unfold DiffBuilder.compareMetadata.
  rewrite Hv, Hg, Hh, !String.eqb_refl.
  replace (DiffBuilder.optionEqb _ _) with true; [reflexivity|].
  destruct (GenerationMetadata.generator m2); simpl;
    [now rewrite String.eqb_refl | reflexivity].
Qed.

Lemma foo_exports_1 : DiffBuilder.extractExports "export const foo = 1;" = ["foo"].
Proof. vm_compute. reflexivity. Qed.

Lemma foo_exports_2 : DiffBuilder.extractExports "export const foo = 2;" = ["foo"].
Proof. vm_compute. reflexivity. Qed.

Lemma foo_compareContent :
  DiffBuilder.compareContent "export const foo = 1;" "export const foo = 2;" "index.ts" = [].
Proof. vm_compute. reflexivity. Qed.

Lemma foo_semantic_compareContent (options : option ComparisonOptions.t) :
  exists a b,
    Adjudicator.compareContent "export const foo = 1;" "export const foo = 2;"
                               "index.ts" options
    = [SemanticDiff.mk "index.ts" CONTENT_DIFF major
         "File content differs between A3 and A4" (Some a) (Some b) None].
Proof.
  unfold Adjudicator.compareContent.
  destruct (Adjudicator.optIgnoreWhitespace options),
           (Adjudicator.optIgnoreComments options);
    eexists; eexists; vm_compute; reflexivity.
Qed.

(** Claim C4.  Two bundles of one file index.ts each, the first reading
    export const foo = 1; and the second export const foo = 2;, with
    different file hashes and metadata of the same version, generator and
    manifest hash: [buildDiff] reports the one mismatch HASH_MISMATCH at
    severity major and no CONTENT_DIFF, and [adjudicate] returns
    PARTIAL_MATCH, confidence 0.8, not semantically equivalent. *)
Theorem foo_one_or_two_scenario
        (h1 h2 : string) (m1 m2 : GenerationMetadata.t) (b1 b2 : string)
        (options : option ComparisonOptions.t) (now : string) :
  h1 <> h2 ->
  sameProvenance m1 m2 ->
  let a3 := fooBundle "export const foo = 1;" h1 m1 b1 in
  let a4 := fooBundle "export const foo = 2;" h2 m2 b2 in
  let mismatches := DiffBuilder.DiffResult.mismatches (DiffBuilder.buildDiff a3 a4 now) in
  mismatches
  = [DiffBuilder.DiffMismatch.mk HASH_MISMATCH major "index.ts" "File hashes differ"
       (Some h1) (Some h2)]
  /\ length (filter (hasType HASH_MISMATCH) mismatches) = 1
  /\ length (filter (hasType CONTENT_DIFF) mismatches) = 0
  /\ exists v,
      Adjudicator.adjudicate (bothPresent a3 a4 options) now = Returned v
      /\ AdjudicationVerdict.verdict v = PARTIAL_MATCH
      /\ AdjudicationVerdict.confidence v = 0.8%float
      /\ AdjudicationVerdict.semanticallyEquivalent v = false.
Proof.
  intros Hne Hmeta. cbv zeta.
  assert (Hh : String.eqb h1 h2 = false) by now apply String.eqb_neq.
  assert (Hm : DiffBuilder.DiffResult.mismatches
                 (DiffBuilder.buildDiff (fooBundle "export const foo = 1;" h1 m1 b1)
                                        (fooBundle "export const foo = 2;" h2 m2 b2) now)
               = [DiffBuilder.DiffMismatch.mk HASH_MISMATCH major "index.ts"
                    "File hashes differ" (Some h1) (Some h2)]).
  { unfold DiffBuilder.buildDiff, fooBundle.
    cbn [DiffBuilder.DiffResult.mismatches CodegenOutput.files CodegenOutput.metadata
         GeneratedFile.path GeneratedFile.hash GeneratedFile.content map].
    rewrite (compareMetadata_same m1 m2 Hmeta).
    change (Js.setOf ["index.ts"]) with ["index.ts"].
    cbn [flat_map find GeneratedFile.path].
    change (Js.mem "index.ts" ["index.ts"]) with true.
    change (String.eqb "index.ts" "index.ts") with true.
    cbn [negb app GeneratedFile.path GeneratedFile.hash GeneratedFile.content].
    rewrite Hh. cbn [negb]. rewrite foo_compareContent. reflexivity. }
  rewrite Hm. split; [reflexivity|]. split; [reflexivity|]. split; [reflexivity|].
  destruct (foo_semantic_compareContent options) as [a [b Hcc]].
  eexists. split.
  - unfold Adjudicator.adjudicate, Adjudicator.compare, bothPresent, fooBundle.
    cbn [ComparisonInput.a3Output ComparisonInput.a4Output ComparisonInput.options
         readProperty bind CodegenOutput.files GeneratedFile.path map].
    change (Js.setOf ["index.ts"]) with ["index.ts"].
    cbn [flat_map find GeneratedFile.path].
    change (Js.mem "index.ts" ["index.ts"]) with true.
    change (String.eqb "index.ts" "index.ts") with true.
    cbn [negb app GeneratedFile.path GeneratedFile.hash GeneratedFile.content].
    rewrite Hh. cbn [negb]. rewrite Hcc. cbn [app]. reflexivity.
  - repeat split.
Qed.

Lemma foo_one_or_two_scenario_witness :
  DiffBuilder.DiffResult.mismatches
    (DiffBuilder.buildDiff mockA3Output mockA4OutputDifferent "2024-01-01T00:00:02Z")
  = [DiffBuilder.DiffMismatch.mk HASH_MISMATCH major "index.ts" "File hashes differ"
       (Some "abc123") (Some "def456")]
  /\ exists v,
      Adjudicator.adjudicate (bothPresent mockA3Output mockA4OutputDifferent None)
                             "2024-01-01T00:00:02Z" = Returned v
      /\ AdjudicationVerdict.verdict v = PARTIAL_MATCH
      /\ AdjudicationVerdict.confidence v = 0.8%float
      /\ AdjudicationVerdict.semanticallyEquivalent v = false.
Proof.
  assert (H1 : "abc123" <> "def456") by discriminate.
  assert (H2 : sameProvenance
                 (GenerationMetadata.mk "2024-01-01T00:00:00Z" "0.1.0" "manifest123" 100 None None)
                 (GenerationMetadata.mk "2024-01-01T00:00:01Z" "0.1.0" "manifest123" 150 None None))
    by (repeat split).
  destruct (foo_one_or_two_scenario _ _ _ _ "a3hash" "a4hash-diff" None
              "2024-01-01T00:00:02Z" H1 H2)
    as [Hm [_ [_ Hv]]].
  split; [exact Hm | exact Hv].
Defined.

Lemma one_sided_file_is_mismatch_witness :
  DiffBuilder.DiffReport.verdict
    (DiffBuilder.generateDiffReport
       (DiffBuilder.buildDiff mockA3Output a4Missing "2024-01-01T00:00:02Z")) = "MISMATCH"
  /\ exists v,
      Adjudicator.adjudicate (bothPresent mockA3Output a4Missing None)
                             "2024-01-01T00:00:02Z" = Returned v
      /\ AdjudicationVerdict.verdict v = MISMATCH.
Proof.
  assert (H : oneSided mockA3Output a4Missing "index.ts").
  { left. split; [now left | intros []]. }
  destruct (one_sided_file_is_mismatch mockA3Output a4Missing None
              "2024-01-01T00:00:02Z" "index.ts" H) as [_ [Hv [_ Ha]]].
  split; [exact Hv | exact Ha].
Defined.

Lemma compare_never_minor_or_info_witness :
  exists v,
    Adjudicator.adjudicate (bothPresent mockA3Output mockA4OutputDifferent None)
                           "2024-01-01T00:00:02Z" = Returned v
    /\ AdjudicationVerdict.verdict v = PARTIAL_MATCH
    /\ ~ (AdjudicationVerdict.verdict v = MATCH
          /\ AdjudicationVerdict.confidence v = 0.9%float).
Proof.
  eexists. split; [reflexivity|]. split; [reflexivity|].
  apply (compare_never_minor_or_info
           (bothPresent mockA3Output mockA4OutputDifferent None)
           "2024-01-01T00:00:02Z" _ eq_refl).
Defined.

(** ** Missing bundles and faults *)




(** ** Sorting keys *)

Lemma ascii_compare_trans (a b c : ascii) :
  Ascii.compare a b = Lt -> Ascii.compare b c = Lt -> Ascii.compare a c = Lt.
Proof.
  unfold Ascii.compare. rewrite !N.compare_lt_iff. lia.
Qed.

Lemma compare_lt_trans (s1 s2 s3 : string) :
  String.compare s1 s2 = Lt -> String.compare s2 s3 = Lt -> String.compare s1 s3 = Lt.
Proof.
  revert s2 s3. induction s1 as [|a s1 IH]; intros [|b s2] [|c s3]; simpl;
    try discriminate; try reflexivity.
  destruct (Ascii.compare a b) eqn:Eab; try discriminate.
  - apply Ascii.compare_eq_iff in Eab. subst b.
    destruct (Ascii.compare a c) eqn:Eac; try discriminate; [|reflexivity].
    apply IH.
  - intros _. destruct (Ascii.compare b c) eqn:Ebc; try discriminate.
    + apply Ascii.compare_eq_iff in Ebc. subst c. now rewrite Eab.
    + now rewrite (ascii_compare_trans a b c Eab Ebc).
Qed.

Lemma leb_trans (s1 s2 s3 : string) :
  String.leb s1 s2 = true -> String.leb s2 s3 = true -> String.leb s1 s3 = true.
Proof.
  unfold String.leb.
  destruct (String.compare s1 s2) eqn:E12; try discriminate; intros _.
  - apply String.compare_eq_iff in E12. now subst.
  - destruct (String.compare s2 s3) eqn:E23; try discriminate; intros _.
    + apply String.compare_eq_iff in E23. subst. now rewrite E12.
    + now rewrite (compare_lt_trans s1 s2 s3 E12 E23).
Qed.

Lemma insertSorted_perm (x : string) (l : list string) :
  Permutation (Js.insertSorted x l) (x :: l).
Proof.
  induction l as [|y l IH]; simpl; [reflexivity|].
  destruct (String.leb x y); [reflexivity|].
  rewrite IH. apply perm_swap.
Qed.

Lemma sort_perm (l : list string) : Permutation (Js.sort l) l.
Proof.
  induction l as [|x l IH]; simpl; [reflexivity|].
  unfold Js.sort in *. simpl. rewrite insertSorted_perm. now constructor.
Qed.

Lemma insertSorted_sorted (x : string) (l : list string) :
  StronglySorted lebP l -> StronglySorted lebP (Js.insertSorted x l).
Proof.
  induction 1 as [|y l Hs IH Hall]; simpl.
  - repeat constructor.
  - destruct (String.leb x y) eqn:E.
    + constructor; [now constructor|]. constructor; [exact E|].
      eapply Forall_impl; [|exact Hall]. intros z Hz. exact (leb_trans x y z E Hz).
    + constructor; [exact IH|].
      assert (Hyx : lebP y x).
      { destruct (String.leb_total x y) as [H|H]; [congruence | exact H]. }
      eapply Permutation_Forall; [symmetry; apply insertSorted_perm|].
      now constructor.
Qed.

Lemma sort_sorted (l : list string) : StronglySorted lebP (Js.sort l).
Proof.
  induction l as [|x l IH]; [constructor|].
  unfold Js.sort in *. simpl. now apply insertSorted_sorted.
Qed.

Lemma sorted_perm_eq (l1 l2 : list string) :
  StronglySorted lebP l1 -> StronglySorted lebP l2 -> Permutation l1 l2 -> l1 = l2.
Proof.
  intros H1. revert l2. induction H1 as [|x l1 Hs1 IH Hall1]; intros l2 H2 Hp.
  - apply Permutation_nil in Hp. now subst.
  - destruct H2 as [|y l2 Hs2 Hall2].
    + symmetry in Hp. apply Permutation_nil in Hp. discriminate.
    + assert (x = y).
      { assert (Hx : In x (y :: l2)) by (eapply Permutation_in; [exact Hp | now left]).
        assert (Hy : In y (x :: l1))
          by (eapply Permutation_in; [symmetry; exact Hp | now left]).
        destruct Hx as [Hx|Hx]; [now subst|].
        destruct Hy as [Hy|Hy]; [now subst|].
        rewrite Forall_forall in Hall1, Hall2.
        apply String.leb_antisym; [apply Hall1, Hy | apply Hall2, Hx]. }
      subst y. f_equal. apply IH; [exact Hs2|].
      eapply Permutation_cons_inv. exact Hp.
Qed.

Lemma sort_permutation (l1 l2 : list string) :
  Permutation l1 l2 -> Js.sort l1 = Js.sort l2.
Proof.
  intros Hp. apply sorted_perm_eq; try apply sort_sorted.
  rewrite !sort_perm. exact Hp.
Qed.

(** ** Serialization under a property list *)

Lemma lookup_map {A B} (f : A -> B) (k : string) (props : list (string * A)) :
  Value.lookup k (map (fun kv => (fst kv, f (snd kv))) props)
  = option_map f (Value.lookup k props).
Proof.
  induction props as [|[k' v] props IH]; simpl; [reflexivity|].
  destruct (String.eqb k k'); [reflexivity | exact IH].
Qed.

Lemma lookup_not_In {A} (k : string) (props : list (string * A)) :
  ~ In k (map fst props) -> Value.lookup k props = None.
Proof.
  induction props as [|[k' v] props IH]; simpl; [reflexivity|].
  intros H. destruct (String.eqb_spec k k') as [->|Hne]; [tauto|].
  apply IH. tauto.
Qed.

Lemma lookup_perm {A} (k : string) (p q : list (string * A)) :
  NoDup (map fst p) -> Permutation p q -> Value.lookup k p = Value.lookup k q.
Proof.
  intros Hnd Hp. induction Hp as [|[k1 v1] p q Hp IH|[k1 v1] [k2 v2] p|p q r Hpq IH1 Hqr IH2].
  - reflexivity.
  - simpl. inversion Hnd; subst. now rewrite IH.
  - simpl. destruct (String.eqb k k2) eqn:E2, (String.eqb k k1) eqn:E1; try reflexivity.
    apply String.eqb_eq in E1, E2. subst k1 k2.
    inversion Hnd as [|? ? Hnin _]; subst. exfalso. apply Hnin. now left.
  - rewrite IH1 by exact Hnd. apply IH2.
    eapply Permutation_NoDup; [|exact Hnd]. now apply Permutation_map.
Qed.

Lemma serialize_obj (K : list string) (props : list (string * any)) :
  Json.serialize (Some K) (VObj props)
  = Some ("{" +++ Js.join ","
            (flat_map (fun P =>
                         match Value.lookup P
                                 (map (fun kv => (fst kv, Json.serialize (Some K) (snd kv)))
                                      props) with
                         | Some (Some s) => [Json.quote P +++ ":" +++ s]
                         | _ => []
                         end) K) +++ "}").
Proof. reflexivity. Qed.

Lemma serialize_same (K : list string) (v1 v2 : any) :
  sameUpToKeyOrder v1 v2 ->
  Json.serialize (Some K) v1 = Json.serialize (Some K) v2.
Proof.
  revert v2. induction v1 as [| |b|x|s|items IH|props IH] using any_induction;
    intros v2 Hs; inversion Hs; subst; try reflexivity.
  - (* arrays *)
    assert (Hmap : map (fun x => match Json.serialize (Some K) x with
                                 | Some s => s
                                 | None => "null"
                                 end) items
                   = map (fun x => match Json.serialize (Some K) x with
                                   | Some s => s
                                   | None => "null"
                                   end) items2).
    { clear Hs.
      match goal with H : Forall2 _ _ _ |- _ => induction H as [|a c l1 l2 Hac Hl IHl] end;
        [reflexivity|].
      inversion IH as [|? ? Ha Hrest]; subst. simpl. f_equal.
      - now rewrite (Ha c Hac).
      - now apply IHl. }
    simpl. now rewrite Hmap.
  - (* objects *)
    rename props1' into mid.
    match goal with
    | Hnd : NoDup _, Hf : Forall2 _ props mid, Hp : Permutation mid _ |- _ =>
        rename Hnd into Hnodup; rename Hf into Hpair; rename Hp into Hperm
    end.
    assert (Hmid : map (fun kv => (fst kv, Json.serialize (Some K) (snd kv))) props
                   = map (fun kv => (fst kv, Json.serialize (Some K) (snd kv))) mid).
    { clear Hperm Hnodup Hs. induction Hpair as [|p q l1 l2 [Hk Hv] Hl IHl]; [reflexivity|].
      inversion IH as [|? ? Hp Hrest]; subst. simpl. f_equal.
      - rewrite Hk. f_equal. now apply Hp.
      - now apply IHl. }
    assert (Hkeys : map fst props = map fst mid).
    { clear -Hpair. induction Hpair as [|p q l1 l2 [Hk _] Hl IHl]; [reflexivity|].
      simpl. now rewrite Hk, IHl. }
    assert (Hflat : forall P,
               Value.lookup P (map (fun kv => (fst kv, Json.serialize (Some K) (snd kv))) props)
               = Value.lookup P (map (fun kv => (fst kv, Json.serialize (Some K) (snd kv))) props2)).
    { intros P. rewrite Hmid. apply lookup_perm; [|now apply Permutation_map].
      replace (map fst (map (fun kv => (fst kv, Json.serialize (Some K) (snd kv))) mid))
        with (map fst mid) by (rewrite map_map; now apply map_ext).
      rewrite <- Hkeys. exact Hnodup. }
    rewrite !serialize_obj. do 4 f_equal. apply flat_map_ext. intros P. now rewrite Hflat.
Qed.

Lemma keys_same (v1 v2 : any) :
  sameUpToKeyOrder v1 v2 -> Js.sort (Value.keys v1) = Js.sort (Value.keys v2).
Proof.
  intros Hs. inversion Hs; subst; try reflexivity.
  - simpl. match goal with H : Forall2 _ _ _ |- _ => apply Forall2_length in H; now rewrite H end.
  - simpl. apply sort_permutation.
    match goal with
    | Hf : Forall2 _ props1 props1', Hp : Permutation props1' _ |- _ =>
        transitivity (map fst props1'); [|now apply Permutation_map];
        clear -Hf; induction Hf as [|p q l1 l2 [Hk _] Hl IHl]; [reflexivity|];
        simpl; rewrite Hk; now constructor
    end.
Qed.

(** Claim C6.  Two values that are the same up to the order of the keys
    of their objects, at every depth, have the same text under the sorted
    list of their own keys and therefore the same hash; for an object
    [hashManifest] does return a hash. *)
Theorem hashManifest_key_order (m1 m2 : any) :
  sameUpToKeyOrder m1 m2 ->
  ManifestLoader.manifestText m1 = ManifestLoader.manifestText m2
  /\ ManifestLoader.hashManifest m1 = ManifestLoader.hashManifest m2
  /\ (forall props, m1 = VObj props ->
                    exists h, ManifestLoader.hashManifest m2 = Returned h).
Proof.
  intros Hs.
  assert (Ht : ManifestLoader.manifestText m1 = ManifestLoader.manifestText m2).
  { unfold ManifestLoader.manifestText, Json.stringifyWith.
    rewrite (keys_same m1 m2 Hs).
    rewrite (serialize_same (Json.propertyListOf (Js.sort (Value.keys m2))) m1 m2 Hs).
    inversion Hs; reflexivity. }
  split; [exact Ht|]. split.
  - unfold ManifestLoader.hashManifest. now rewrite Ht.
  - intros props ->. inversion Hs; subst.
    unfold ManifestLoader.hashManifest, ManifestLoader.manifestText, Json.stringifyWith.
    simpl. eauto.
Qed.

Ltac distinct_keys := simpl; repeat (constructor; [simpl; intuition discriminate|]); constructor.

Lemma orderA_orderB : sameUpToKeyOrder orderA orderB.
Proof.
  unfold orderA, orderB.
  eapply same_obj with
    (props1' := [("version", VStr "2.0.0");
                 ("thresholds", VObj [("low", VNum 0.5); ("critical", VNum 0.3)]);
                 ("metrics", VObj [("version",
                                    VObj [("description", VStr "v"); ("weight", VNum 1)])])]).
  - distinct_keys.
  - repeat constructor; simpl.
    + eapply same_obj with (props1' := [("critical", VNum 0.3); ("low", VNum 0.5)]).
      * distinct_keys.
      * repeat constructor.
      * apply perm_swap.
    + eapply same_obj with
        (props1' := [("version", VObj [("description", VStr "v"); ("weight", VNum 1)])]).
      * distinct_keys.
      * repeat constructor; simpl.
        eapply same_obj with (props1' := [("weight", VNum 1); ("description", VStr "v")]).
        -- distinct_keys.
        -- repeat constructor.
        -- apply perm_swap.
      * reflexivity.
  - change (Permutation ([("version", VStr "2.0.0");
                          ("thresholds", VObj [("low", VNum 0.5); ("critical", VNum 0.3)])]
                         ++ [("metrics", VObj [("version",
                                    VObj [("description", VStr "v"); ("weight", VNum 1)])])])
                        ([("metrics", VObj [("version",
                                    VObj [("description", VStr "v"); ("weight", VNum 1)])])]
                         ++ [("version", VStr "2.0.0");
                          ("thresholds", VObj [("low", VNum 0.5); ("critical", VNum 0.3)])])).
    apply Permutation_app_comm.
Qed.

Lemma hashManifest_key_order_witness :
  ManifestLoader.hashManifest orderA = ManifestLoader.hashManifest orderB
  /\ exists h, ManifestLoader.hashManifest orderB = Returned h.
Proof.
  destruct (hashManifest_key_order orderA orderB orderA_orderB) as [_ [H1 H2]].
  split; [exact H1 | eapply H2; reflexivity].
Defined.

(** ** Object literals *)

Lemma lookup_app {A} (k : string) (p q : list (string * A)) :
  Value.lookup k (p ++ q)
  = match Value.lookup k p with Some v => Some v | None => Value.lookup k q end.
Proof.
  induction p as [|[k' v] p IH]; simpl; [reflexivity|].
  destruct (String.eqb k k'); [reflexivity | exact IH].
Qed.

Lemma lookup_insert {A} (k k' : string) (v : A) (props : list (string * A)) :
  Value.lookup k' props = None ->
  Value.lookup k (Value.insert k' v props)
  = if String.eqb k k' then Some v else Value.lookup k props.
Proof.
  induction props as [|[k0 v0] props IH]; simpl; intros Hnone.
  - destruct (String.eqb k k'); reflexivity.
  - destruct (String.eqb_spec k' k0) as [->|Hne]; [discriminate|].
    destruct (Value.isArrayIndex k' && _); simpl.
    + destruct (String.eqb k k'); reflexivity.
    + destruct (String.eqb_spec k k0) as [->|Hk0].
      * destruct (String.eqb_spec k0 k') as [E|_]; [congruence | reflexivity].
      * now apply IH.
Qed.

Lemma lookup_replace {A} (k k' : string) (v : A) (props : list (string * A)) :
  Value.lookup k' props <> None ->
  Value.lookup k (Value.replace k' v props)
  = if String.eqb k k' then Some v else Value.lookup k props.
Proof.
  induction props as [|[k0 v0] props IH]; simpl; intros Hsome; [congruence|].
  destruct (String.eqb_spec k' k0) as [->|Hne]; simpl.
  - destruct (String.eqb k k0); reflexivity.
  - destruct (String.eqb_spec k k0) as [->|Hk0].
    + destruct (String.eqb_spec k0 k') as [E|_]; [congruence | reflexivity].
    + now apply IH.
Qed.

Lemma lookup_define {A} (k k' : string) (v : A) (props : list (string * A)) :
  Value.lookup k (Value.define k' v props)
  = if String.eqb k k' then Some v else Value.lookup k props.
Proof.
  unfold Value.define. destruct (Value.lookup k' props) eqn:E.
  - apply lookup_replace. congruence.
  - now apply lookup_insert.
Qed.

Lemma lookup_fold_define (k : string) (l acc : list (string * any)) :
  ~ In k (map fst l) ->
  Value.lookup k (fold_left (fun acc kv => Value.define (fst kv) (snd kv) acc) l acc)
  = Value.lookup k acc.
Proof.
  revert acc. induction l as [|[k' v] l IH]; simpl; intros acc Hnin; [reflexivity|].
  rewrite IH by tauto. rewrite lookup_define. simpl.
  destruct (String.eqb_spec k k') as [->|_]; [tauto | reflexivity].
Qed.

Lemma insert_last {A} (k : string) (v : A) (props : list (string * A)) :
  Value.isArrayIndex k = false -> Value.insert k v props = props ++ [(k, v)].
Proof.
  intros Hk. induction props as [|[k0 v0] props IH]; simpl; [reflexivity|].
  rewrite Hk. simpl. now rewrite IH.
Qed.

Lemma fold_define_distinct (l acc : list (string * any)) :
  NoDup (map fst (acc ++ l)) ->
  forallb (fun kv => negb (Value.isArrayIndex (fst kv))) l = true ->
  fold_left (fun acc kv => Value.define (fst kv) (snd kv) acc) l acc = acc ++ l.
Proof.
  revert acc. induction l as [|[k v] l IH]; simpl; intros acc Hnd Hidx.
  - now rewrite app_nil_r.
  - apply andb_prop in Hidx. destruct Hidx as [Hk Hl].
    apply negb_true_iff in Hk.
    assert (Hnone : Value.lookup k acc = None).
    { apply lookup_not_In. rewrite map_app in Hnd. simpl in Hnd.
      apply NoDup_remove_2 in Hnd. intros Hin. apply Hnd. apply in_or_app. now left. }
    unfold Value.define at 2. rewrite Hnone, (insert_last k v acc Hk).
    rewrite IH; [now rewrite <- app_assoc | now rewrite <- app_assoc | exact Hl].
Qed.

Lemma literal_distinct (l : list (string * any)) :
  NoDup (map fst l) ->
  forallb (fun kv => negb (Value.isArrayIndex (fst kv))) l = true ->
  Value.literal l = VObj l.
Proof.
  intros Hnd Hidx. unfold Value.literal. now rewrite fold_define_distinct.
Qed.

(** ** What the property list of [hashManifest] hides *)

Lemma members_none (serialized : list (string * option string)) (L : list string) :
  (forall P, In P L -> Value.lookup P serialized = None) ->
  flat_map (fun P => match Value.lookup P serialized with
                     | Some (Some s) => [Json.quote P +++ ":" +++ s]
                     | _ => []
                     end) L = [].
Proof.
  induction L as [|P L IH]; intros H; [reflexivity|].
  simpl. rewrite (H P) by now left. simpl.
  apply IH. intros Q HQ. apply H. now right.
Qed.

Lemma serialize_blind (K : list string) (props : list (string * any)) :
  (forall P, In P K -> Value.lookup P props = None) ->
  Json.serialize (Some K) (VObj props) = Some "{}".
Proof.
  intros H. rewrite serialize_obj, members_none; [reflexivity|].
  intros P HP. now rewrite lookup_map, (H P HP).
Qed.

Lemma serialize_literal_blind (K : list string) (l : list (string * any)) :
  (forall P, In P K -> ~ In P (map fst l)) ->
  Json.serialize (Some K) (Value.literal l) = Some "{}".
Proof.
  intros H. unfold Value.literal. apply serialize_blind. intros P HP.
  rewrite lookup_fold_define; [reflexivity | now apply H].
Qed.

Ltac hidden_keys :=
  let P := fresh "P" in let HP := fresh "HP" in
  intros P HP; simpl in HP;
  repeat (destruct HP as [<-|HP]; [simpl; intuition discriminate|]);
  contradiction.

Section Hidden.
Variable K : list string.
Hypothesis HK : forall P, In P K -> In P topLevelKeys.

Lemma blind_of_hidden (l : list (string * any)) :
  hidden (map fst l) -> Json.serialize (Some K) (Value.literal l) = Some "{}".
Proof. intros H. apply serialize_literal_blind. intros P HP. apply H. now apply HK. Qed.

Lemma blind_project (x : Schema.ProjectConfig.t) :
  Json.serialize (Some K) (Schema.ProjectConfig.toValue x) = Some "{}".
Proof. apply blind_of_hidden. hidden_keys. Qed.

Lemma blind_thresholds (x : Schema.ThresholdConfig.t) :
  Json.serialize (Some K) (Schema.ThresholdConfig.toValue x) = Some "{}".
Proof. apply blind_of_hidden. hidden_keys. Qed.

Lemma blind_weights (x : Schema.WeightConfig.t) :
  Json.serialize (Some K) (Schema.WeightConfig.toValue x) = Some "{}".
Proof. apply blind_of_hidden. hidden_keys. Qed.

Lemma blind_diamond_hands (x : Schema.DiamondHandsConfig.t) :
  Json.serialize (Some K) (Schema.DiamondHandsConfig.toValue x) = Some "{}".
Proof. apply blind_of_hidden. hidden_keys. Qed.

Lemma blind_thunder_strike (x : Schema.ThunderStrikeConfig.t) :
  Json.serialize (Some K) (Schema.ThunderStrikeConfig.toValue x) = Some "{}".
Proof. apply blind_of_hidden. hidden_keys. Qed.

Lemma blind_evidence (x : Schema.EvidenceConfig.t) :
  Json.serialize (Some K) (Schema.EvidenceConfig.toValue x) = Some "{}".
Proof. apply blind_of_hidden. hidden_keys. Qed.

Lemma blind_ci (x : Schema.CIConfig.t) :
  Json.serialize (Some K) (Schema.CIConfig.toValue x) = Some "{}".
Proof.
  apply blind_of_hidden. destruct (Schema.CIConfig.jobs x); hidden_keys.
Qed.

Lemma blind_notifications (x : Schema.NotificationConfig.t) :
  Json.serialize (Some K) (Schema.NotificationConfig.toValue x) = Some "{}".
Proof. apply blind_of_hidden. hidden_keys. Qed.

Lemma blind_roles (x : Schema.RoleConfig.t) :
  Json.serialize (Some K) (Schema.RoleConfig.toValue x) = Some "{}".
Proof. apply blind_of_hidden. hidden_keys. Qed.

Lemma blind_metrics (entries : list (string * Schema.MetricConfig.t)) :
  hidden (map fst entries) ->
  Json.serialize (Some K) (Schema.record Schema.MetricConfig.toValue entries) = Some "{}".
Proof.
  intros H. apply blind_of_hidden. rewrite map_map. simpl.
  replace (map (fun x => fst x) entries) with (map fst entries) by now apply map_ext.
  exact H.
Qed.

End Hidden.

Lemma literal_plain (l : list (string * any)) :
  NoDup (map fst l) ->
  forallb (fun k => negb (Value.isArrayIndex k)) (map fst l) = true ->
  Value.literal l = VObj l.
Proof.
  intros Hnd Hidx. apply literal_distinct; [exact Hnd|].
  clear Hnd. induction l as [|kv l IH]; [reflexivity|].
  simpl in *. apply andb_prop in Hidx. destruct Hidx as [H1 H2].
  now rewrite H1, IH.
Qed.

Ltac lookup_step :=
  rewrite lookup_map;
  match goal with
  | |- context [Value.lookup ?k ?l] =>
      let r := eval cbv in (Value.lookup k l) in
      change (Value.lookup k l) with r
  end;
  cbn [option_map].

Lemma manifestText_schema (m : Schema.Manifest.t) :
  hidden (map fst (Schema.Manifest.metrics m)) ->
  ManifestLoader.manifestText (Schema.Manifest.toValue m)
  = Returned (blindText (Schema.Manifest.version m)
                        (isSome (Schema.Manifest.notifications m))
                        (isSome (Schema.Manifest.roles m))).
Proof.
  intros Hm. destruct m as [v pr th we dh ts me ev ci no ro].
  cbn [Schema.Manifest.version Schema.Manifest.notifications Schema.Manifest.roles
       Schema.Manifest.metrics] in *.
  unfold Schema.Manifest.toValue.
  cbn [Schema.Manifest.version Schema.Manifest.project Schema.Manifest.thresholds
       Schema.Manifest.weights Schema.Manifest.diamond_hands Schema.Manifest.thunder_strike
       Schema.Manifest.metrics Schema.Manifest.evidence Schema.Manifest.ci
       Schema.Manifest.notifications Schema.Manifest.roles].
  remember (Schema.ProjectConfig.toValue pr) as xpr eqn:Epr.
  remember (Schema.ThresholdConfig.toValue th) as xth eqn:Eth.
  remember (Schema.WeightConfig.toValue we) as xwe eqn:Ewe.
  remember (Schema.DiamondHandsConfig.toValue dh) as xdh eqn:Edh.
  remember (Schema.ThunderStrikeConfig.toValue ts) as xts eqn:Ets.
  remember (Schema.record Schema.MetricConfig.toValue me) as xme eqn:Eme.
  remember (Schema.EvidenceConfig.toValue ev) as xev eqn:Eev.
  remember (Schema.CIConfig.toValue ci) as xci eqn:Eci.
  destruct no as [no|], ro as [ro|]; cbn [Schema.optional app isSome].
  all: try remember (Schema.NotificationConfig.toValue no) as xno eqn:Eno.
  all: try remember (Schema.RoleConfig.toValue ro) as xro eqn:Ero.
  all: rewrite literal_plain; [| distinct_keys | cbn [map fst]; vm_compute; reflexivity].
  all: unfold ManifestLoader.manifestText, Json.stringifyWith; cbn [Value.keys map fst].
  all: match goal with
       | |- context [Json.propertyListOf ?l] =>
           let r := eval vm_compute in (Json.propertyListOf l) in
           change (Json.propertyListOf l) with r
       end.
  all: match goal with
       | |- context [Json.serialize (Some ?K) _] =>
           assert (HK : forall P, In P K -> In P topLevelKeys)
             by (intros P HP; simpl in HP; unfold topLevelKeys; simpl; tauto)
       end.
  all: rewrite serialize_obj; cbn [flat_map]; repeat lookup_step.
  all: subst.
  all: rewrite ?(blind_project _ HK), ?(blind_thresholds _ HK), ?(blind_weights _ HK),
         ?(blind_diamond_hands _ HK), ?(blind_thunder_strike _ HK), ?(blind_evidence _ HK),
         ?(blind_ci _ HK), ?(blind_notifications _ HK), ?(blind_roles _ HK),
         ?(blind_metrics _ HK _ Hm).
  all: reflexivity.
Qed.

Lemma hashManifest_default :
  ManifestLoader.hashManifest (Schema.Manifest.toValue defaultManifest)
  = Returned "bfeafbe6476dbb4b".
Proof. vm_compute. reflexivity. Qed.

Lemma manifestText_metricNamedVersion :
  ManifestLoader.manifestText (Schema.Manifest.toValue metricNamedVersion)
  = Returned ("{" +++ hiddenMember "ci" +++ "," +++ hiddenMember "diamond_hands" +++ ","
              +++ hiddenMember "evidence" +++ ","
              +++ Json.quote "metrics" +++ ":{" +++ hiddenMember "version" +++ "},"
              +++ hiddenMember "project" +++ "," +++ hiddenMember "thresholds" +++ ","
              +++ hiddenMember "thunder_strike" +++ ","
              +++ Json.quote "version" +++ ":" +++ Json.quote "2.0.0" +++ ","
              +++ hiddenMember "weights" +++ "}").
Proof. vm_compute. reflexivity. Qed.

(** Against claim C9 as stated: the default manifest and the same manifest
    with one metric named version agree on the version and on the
    sections present, and their hashes differ. *)
Lemma hashManifest_sees_metric_named_version :
  Schema.Manifest.version defaultManifest = Schema.Manifest.version metricNamedVersion
  /\ isSome (Schema.Manifest.notifications defaultManifest)
     = isSome (Schema.Manifest.notifications metricNamedVersion)
  /\ isSome (Schema.Manifest.roles defaultManifest)
     = isSome (Schema.Manifest.roles metricNamedVersion)
  /\ ManifestLoader.hashManifest (Schema.Manifest.toValue defaultManifest)
     <> ManifestLoader.hashManifest (Schema.Manifest.toValue metricNamedVersion).
Proof.
  repeat split. rewrite hashManifest_default.
  vm_compute. discriminate.
Qed.

(** Claim C9, amended.  Two manifests of the declared shape with the same
    version, that both have or both lack notifications and both have or
    both lack roles, and none of whose metrics is named like a top-level
    key, have the same hash, whatever their nested fields: the hashed text
    shows every section as an empty object. *)
Theorem hashManifest_ignores_nested_fields (m1 m2 : Schema.Manifest.t) :
  Schema.Manifest.version m1 = Schema.Manifest.version m2 ->
  isSome (Schema.Manifest.notifications m1) = isSome (Schema.Manifest.notifications m2) ->
  isSome (Schema.Manifest.roles m1) = isSome (Schema.Manifest.roles m2) ->
  hidden (map fst (Schema.Manifest.metrics m1)) ->
  hidden (map fst (Schema.Manifest.metrics m2)) ->
  ManifestLoader.manifestText (Schema.Manifest.toValue m1)
  = Returned (blindText (Schema.Manifest.version m1)
                        (isSome (Schema.Manifest.notifications m1))
                        (isSome (Schema.Manifest.roles m1)))
  /\ ManifestLoader.hashManifest (Schema.Manifest.toValue m1)
     = ManifestLoader.hashManifest (Schema.Manifest.toValue m2)
  /\ exists h, ManifestLoader.hashManifest (Schema.Manifest.toValue m1) = Returned h.
Proof.
  intros Hv Hn Hr H1 H2.
  pose proof (manifestText_schema m1 H1) as T1.
  pose proof (manifestText_schema m2 H2) as T2.
  split; [exact T1|]. unfold ManifestLoader.hashManifest. rewrite T1, T2.
  rewrite Hv, Hn, Hr. split; [reflexivity|]. eexists. reflexivity.
Qed.

Lemma hashManifest_ignores_nested_fields_witness :
  ManifestLoader.hashManifest (Schema.Manifest.toValue defaultManifest)
  = ManifestLoader.hashManifest (Schema.Manifest.toValue otherManifest).
Proof.
  assert (H1 : hidden (map fst (Schema.Manifest.metrics defaultManifest)))
    by (intros P _ []).
  assert (H2 : hidden (map fst (Schema.Manifest.metrics otherManifest))).
  { intros P HP. unfold topLevelKeys in HP. simpl in HP. simpl.
    repeat (destruct HP as [<-|HP]; [intuition discriminate|]). contradiction. }
  exact (proj1 (proj2 (hashManifest_ignores_nested_fields
                         defaultManifest otherManifest eq_refl eq_refl eq_refl H1 H2))).
Defined.

(** ** Validation of a loaded manifest *)

Lemma or_truthy (a d : any) : Value.truthy d = true -> Value.truthy (Value.or a d) = true.
Proof. intros H. unfold Value.or. destruct (Value.truthy a) eqn:E; assumption. Qed.

Ltac plain_literal :=
  rewrite literal_plain; [| distinct_keys | cbn [map fst]; vm_compute; reflexivity].

Lemma normalizeManifest_shape (raw : any) :
  exists version name description repository critical low nominal optimal
         A3_governance A4_architecture A5_implementation validation
         threshold score approval approvers thunder_strike metrics evidence ci
         notifications roles,
    ManifestLoader.normalizeManifest raw
    = VObj [("version", version);
            ("project", VObj [("name", name); ("description", description);
                              ("repository", repository)]);
            ("thresholds", VObj [("critical", critical); ("low", low);
                                 ("nominal", nominal); ("optimal", optimal)]);
            ("weights", VObj [("A3_governance", A3_governance);
                              ("A4_architecture", A4_architecture);
                              ("A5_implementation", A5_implementation);
                              ("validation", validation)]);
            ("diamond_hands", VObj [("threshold", threshold);
                                    ("required_validation_score", score);
                                    ("approval_required", approval);
                                    ("approvers", approvers)]);
            ("thunder_strike", thunder_strike);
            ("metrics", metrics);
            ("evidence", evidence);
            ("ci", ci);
            ("notifications", notifications);
            ("roles", roles)]
    /\ Value.truthy version = true
    /\ Value.truthy name = true.
Proof.
  unfold ManifestLoader.normalizeManifest.
  repeat plain_literal.
  do 22 eexists. split; [reflexivity|].
  split; apply or_truthy; reflexivity.
Qed.

Lemma parseYaml_normalized (content : string) (m : any) :
  ManifestLoader.parseYaml content = Returned m ->
  exists raw, m = ManifestLoader.normalizeManifest raw.
Proof.
  unfold ManifestLoader.parseYaml.
  destruct (ManifestLoader.run _ _) as [st|e]; simpl; [|discriminate].
  intros E. injection E as <-. eauto.
Qed.





(** ** Generator B: the aggregate hash *)

Lemma generateOutputHash_reads (o1 o2 : A4Types.CodegenOutput.t) :
  hashedPart o1 = hashedPart o2 ->
  A4Codegen.generateOutputHash o1 = A4Codegen.generateOutputHash o2.
Proof.
  unfold hashedPart. intros H. injection H as Hfiles Hhash.
  unfold A4Codegen.generateOutputHash. rewrite Hhash.
  replace (map (fun f => Value.literal [("path", VStr (A4Types.GeneratedFile.path f));
                                        ("hash", VStr (A4Types.GeneratedFile.hash f))])
               (A4Types.CodegenOutput.files o1))
    with (map (fun ph => Value.literal [("path", VStr (fst ph)); ("hash", VStr (snd ph))])
              (map (fun f => (A4Types.GeneratedFile.path f, A4Types.GeneratedFile.hash f))
                   (A4Types.CodegenOutput.files o1)))
    by (rewrite map_map; reflexivity).
  rewrite Hfiles, map_map. reflexivity.
Qed.

Lemma generateOutputHash_returns (o : A4Types.CodegenOutput.t) :
  exists h, A4Codegen.generateOutputHash o = Returned h.
Proof. unfold A4Codegen.generateOutputHash, Json.text. simpl. eauto. Qed.

Lemma parseManifestRegex_returns (fs : Fs.t) (manifestPath content : string) :
  Fs.entryAt fs (Fs.resolve fs manifestPath) = Some (Fs.File content) ->
  exists props, A4Codegen.parseManifestRegex fs manifestPath = Returned (VObj props).
Proof.
  intros H. unfold A4Codegen.parseManifestRegex, Fs.readFileSync. rewrite H.
  cbn [bind]. unfold Value.literal at 1. eauto.
Qed.

Lemma generate_by_clock (fs : Fs.t) (config : A4Types.CodegenConfig.t) (clock1 clock2 : Clock.t) :
  match A4Codegen.generate fs clock1 config, A4Codegen.generate fs clock2 config with
  | Returned o1, Returned o2 =>
      A4Types.CodegenOutput.files o1 = A4Types.CodegenOutput.files o2
      /\ A4Types.GenerationMetadata.manifestHash (A4Types.CodegenOutput.metadata o1)
         = A4Types.GenerationMetadata.manifestHash (A4Types.CodegenOutput.metadata o2)
      /\ A4Types.CodegenOutput.hash o1 = A4Types.CodegenOutput.hash o2
  | Thrown e1, Thrown e2 => e1 = e2
  | _, _ => False
  end.
Proof.
  unfold A4Codegen.generate.
  destruct (A4Codegen.parseManifestRegex fs (A4Types.CodegenConfig.manifestPath config))
    as [manifest|e]; cbn [bind]; [|reflexivity].
  destruct (Json.text manifest) as [text|e]; cbn [bind]; [|reflexivity].
  match goal with
  | |- match (hash <- A4Codegen.generateOutputHash ?a ;; _) with _ => _ end =>
      match goal with
      | |- context [match (hash <- A4Codegen.generateOutputHash ?b ;; _) with
                    | Returned _ => False | Thrown _ => _ end] =>
          rewrite (generateOutputHash_reads a b eq_refl);
          destruct (generateOutputHash_returns b) as [h Hh]; rewrite Hh
      end
  end.
  cbn [bind A4Types.CodegenOutput.files A4Types.CodegenOutput.metadata A4Types.CodegenOutput.hash
       A4Types.GenerationMetadata.manifestHash].
  repeat split.
Qed.

Lemma generate_returns (fs : Fs.t) (config : A4Types.CodegenConfig.t) (clock : Clock.t)
      (content : string) :
  Fs.entryAt fs (Fs.resolve fs (A4Types.CodegenConfig.manifestPath config)) = Some (Fs.File content) ->
  exists o, A4Codegen.generate fs clock config = Returned o.
Proof.
  intros H. unfold A4Codegen.generate.
  destruct (parseManifestRegex_returns fs _ content H) as [props ->].
  cbn [bind]. unfold Json.text at 1, Json.stringify. cbn [Json.serialize bind].
  match goal with
  | |- context [A4Codegen.generateOutputHash ?o] =>
      destruct (generateOutputHash_returns o) as [h ->]
  end.
  cbn [bind]. eauto.
Qed.

(** Claim C1.  Two runs of [generate] on the same file system and
    configuration, under any two clocks, end the same way with the same
    files and the same aggregate hash; when the manifest file exists both
    return, each with the timestamp of its own clock.  And
    [generateOutputHash] agrees on two outputs with the same paths and
    hashes of files and the same manifest hash. *)
Theorem generate_hash_ignores_clock
        (fs : Fs.t) (config : A4Types.CodegenConfig.t) (clock1 clock2 : Clock.t) :
  mapOutcome A4Types.CodegenOutput.hash (A4Codegen.generate fs clock1 config)
  = mapOutcome A4Types.CodegenOutput.hash (A4Codegen.generate fs clock2 config)
  /\ mapOutcome A4Types.CodegenOutput.files (A4Codegen.generate fs clock1 config)
     = mapOutcome A4Types.CodegenOutput.files (A4Codegen.generate fs clock2 config)
  /\ (forall content,
         Fs.entryAt fs (Fs.resolve fs (A4Types.CodegenConfig.manifestPath config))
         = Some (Fs.File content) ->
         exists o1 o2,
           A4Codegen.generate fs clock1 config = Returned o1
           /\ A4Codegen.generate fs clock2 config = Returned o2
           /\ A4Types.CodegenOutput.hash o1 = A4Types.CodegenOutput.hash o2
           /\ A4Types.GenerationMetadata.timestamp (A4Types.CodegenOutput.metadata o1) = Clock.timestamp clock1
           /\ A4Types.GenerationMetadata.timestamp (A4Types.CodegenOutput.metadata o2) = Clock.timestamp clock2)
  /\ (forall o1 o2,
         hashedPart o1 = hashedPart o2 ->
         A4Codegen.generateOutputHash o1 = A4Codegen.generateOutputHash o2).
Proof.
  pose proof (generate_by_clock fs config clock1 clock2) as H.
  split; [|split; [|split]].
  - destruct (A4Codegen.generate fs clock1 config), (A4Codegen.generate fs clock2 config);
      simpl; try contradiction; [destruct H as [_ [_ ->]] | subst]; reflexivity.
  - destruct (A4Codegen.generate fs clock1 config), (A4Codegen.generate fs clock2 config);
      simpl; try contradiction; [destruct H as [-> _] | subst]; reflexivity.
  - intros content Hfile.
    destruct (generate_returns fs config clock1 content Hfile) as [o1 H1].
    destruct (generate_returns fs config clock2 content Hfile) as [o2 H2].
    rewrite H1, H2 in H. exists o1, o2. repeat split; try tauto.
    + clear H H2. unfold A4Codegen.generate in H1.
      destruct (A4Codegen.parseManifestRegex _ _); cbn [bind] in H1; [|discriminate].
      destruct (Json.text _); cbn [bind] in H1; [|discriminate].
      destruct (A4Codegen.generateOutputHash _); cbn [bind] in H1; [|discriminate].
      injection H1 as <-. reflexivity.
    + clear H H1. unfold A4Codegen.generate in H2.
      destruct (A4Codegen.parseManifestRegex _ _); cbn [bind] in H2; [|discriminate].
      destruct (Json.text _); cbn [bind] in H2; [|discriminate].
      destruct (A4Codegen.generateOutputHash _); cbn [bind] in H2; [|discriminate].
      injection H2 as <-. reflexivity.
  - exact generateOutputHash_reads.
Qed.

Example generate_smallManifest :
  mapOutcome (fun o => (A4Types.CodegenOutput.hash o,
                        map A4Types.GeneratedFile.path (A4Types.CodegenOutput.files o),
                        A4Types.GenerationMetadata.durationMs (A4Types.CodegenOutput.metadata o)))
             (A4Codegen.generate (oneFile "manifest.yaml" smallManifest)
                                 (Clock.mk 1704067200000 "2024-01-01T00:00:00.000Z"
                                           1704067200012)
                                 smallConfig)
  = Returned ("788d9e7543252ae1", ["types.ts"; "constants.ts"; "validators.ts"; "config.ts"; "index.ts"],
              12%float).
Proof. vm_compute. reflexivity. Qed.

(* ====================================================================== *)
(** * Further properties                                                   *)
(* ====================================================================== *)

(** ** Lists *)

Lemma flat_map_nil {A B} (f : A -> list B) (l : list A) :
  flat_map f l = [] <-> forall x, In x l -> f x = [].
Proof.
  induction l as [|a l IH]; simpl.
  - split; [intros _ x [] | reflexivity].
  - split.
    + intros H. apply app_eq_nil in H. destruct H as [Ha Hl].
      intros x [<-|Hx]; [exact Ha | now apply IH].
    + intros H. rewrite (H a (or_introl eq_refl)). simpl.
      apply IH. intros x Hx. apply H. now right.
Qed.

Lemma severity_partition {A} (sev : A -> DiffSeverity) (l : list A) :
  length (filter (fun m => DiffSeverity_beq (sev m) critical) l)
  + length (filter (fun m => DiffSeverity_beq (sev m) major) l)
  + length (filter (fun m => DiffSeverity_beq (sev m) minor) l)
  + length (filter (fun m => DiffSeverity_beq (sev m) info) l)
  = length l.
Proof.
  induction l as [|a l IH]; simpl; [reflexivity|].
  destruct (sev a); simpl; lia.
Qed.

Lemma setOfAux_NoDup (l seen : list string) : NoDup (Js.setOfAux seen l).
Proof.
  revert seen. induction l as [|x l IH]; intros seen; simpl; [constructor|].
  destruct (Js.mem x seen) eqn:E; [apply IH|].
  constructor; [|apply IH].
  rewrite setOfAux_In. intros [_ H]. apply H. now left.
Qed.

Lemma setOf_NoDup (l : list string) : NoDup (Js.setOf l).
Proof. apply setOfAux_NoDup. Qed.

(** ** The diff builder: what the summary counts *)

(** Property X1.  In every result of [buildDiff], the total is the number of
    mismatches and the four counts of the summary add up to it: each
    mismatch is counted under exactly one severity. *)
Theorem buildDiff_counts_add_up (a3 a4 : CodegenOutput.t) (now : string) :
  let r := DiffBuilder.buildDiff a3 a4 now in
  let s := DiffBuilder.DiffResult.summary r in
  DiffBuilder.DiffResult.totalDiffs r = length (DiffBuilder.DiffResult.mismatches r)
  /\ DiffBuilder.DiffSummary.criticalCount s + DiffBuilder.DiffSummary.majorCount s
     + DiffBuilder.DiffSummary.minorCount s + DiffBuilder.DiffSummary.infoCount s
     = DiffBuilder.DiffResult.totalDiffs r.
Proof.
  cbv zeta. split; [reflexivity|].
  unfold DiffBuilder.buildDiff.
  cbn [DiffBuilder.DiffResult.summary DiffBuilder.DiffResult.totalDiffs
       DiffBuilder.DiffSummary.criticalCount DiffBuilder.DiffSummary.majorCount
       DiffBuilder.DiffSummary.minorCount DiffBuilder.DiffSummary.infoCount].
  apply (severity_partition DiffBuilder.DiffMismatch.severity).
Qed.

(** ** The diff builder: where each kind of mismatch comes from *)

Lemma or_iff_both (A B C D : Prop) : (A <-> C) -> (B <-> D) -> (A \/ B <-> C \/ D).
Proof. tauto. Qed.

Lemma builder_compareContent_kind (c1 c2 p : string) (m : DiffBuilder.DiffMismatch.t) :
  In m (DiffBuilder.compareContent c1 c2 p) ->
  DiffBuilder.DiffMismatch.type m = CONTENT_DIFF
  /\ DiffBuilder.DiffMismatch.path m = p
  /\ (DiffBuilder.DiffMismatch.severity m = minor
      \/ DiffBuilder.DiffMismatch.severity m = major).
Proof.
  unfold DiffBuilder.compareContent. cbv zeta. rewrite !in_app_iff.
  intros [H|[H|H]].
  - destruct (negb _); [|contradiction]. destruct H as [<-|[]]. simpl. tauto.
  - apply in_flat_map in H. destruct H as [e [_ H]].
    destruct (negb _); [|contradiction]. destruct H as [<-|[]]. simpl. tauto.
  - apply in_flat_map in H. destruct H as [e [_ H]].
    destruct (negb _); [|contradiction]. destruct H as [<-|[]]. simpl. tauto.
Qed.

Lemma compareMetadata_kind (m1 m2 : GenerationMetadata.t) (m : DiffBuilder.DiffMismatch.t) :
  In m (DiffBuilder.compareMetadata m1 m2) ->
  (DiffBuilder.DiffMismatch.type m = CONTENT_DIFF
   /\ DiffBuilder.DiffMismatch.severity m = info)
  \/ (DiffBuilder.DiffMismatch.type m = HASH_MISMATCH
      /\ DiffBuilder.DiffMismatch.severity m = major).
Proof.
  unfold DiffBuilder.compareMetadata. cbv zeta. rewrite !in_app_iff.
  intros [H|[H|H]]; destruct (negb _); try contradiction;
    destruct H as [<-|[]]; simpl; tauto.
Qed.

(** The four parts of the mismatches of [buildDiff], by origin. *)
Lemma buildDiff_origin (a3 a4 : CodegenOutput.t) (now : string)
      (m : DiffBuilder.DiffMismatch.t) :
  In m (DiffBuilder.DiffResult.mismatches (DiffBuilder.buildDiff a3 a4 now)) <->
  (m = DiffBuilder.DiffMismatch.mk MISSING_FILE critical (DiffBuilder.DiffMismatch.path m)
         "File exists in A3 but missing in A4" (Some "present") (Some "missing")
   /\ In (DiffBuilder.DiffMismatch.path m) (pathsOf a3)
   /\ ~ In (DiffBuilder.DiffMismatch.path m) (pathsOf a4))
  \/ (m = DiffBuilder.DiffMismatch.mk EXTRA_FILE critical (DiffBuilder.DiffMismatch.path m)
            "File exists in A4 but missing in A3" (Some "missing") (Some "present")
      /\ In (DiffBuilder.DiffMismatch.path m) (pathsOf a4)
      /\ ~ In (DiffBuilder.DiffMismatch.path m) (pathsOf a3))
  \/ (exists f g,
         In f (CodegenOutput.files a3)
         /\ fileAt a4 (GeneratedFile.path f) = Some g
         /\ GeneratedFile.hash f <> GeneratedFile.hash g
         /\ (m = DiffBuilder.DiffMismatch.mk HASH_MISMATCH major (GeneratedFile.path f)
                   "File hashes differ"
                   (Some (GeneratedFile.hash f)) (Some (GeneratedFile.hash g))
             \/ In m (DiffBuilder.compareContent (GeneratedFile.content f)
                        (GeneratedFile.content g) (GeneratedFile.path f))))
  \/ In m (DiffBuilder.compareMetadata (CodegenOutput.metadata a3)
                                       (CodegenOutput.metadata a4)).
Proof.
  unfold DiffBuilder.buildDiff, pathsOf. cbv zeta.
  cbn [DiffBuilder.DiffResult.mismatches]. rewrite !in_app_iff.
  apply or_iff_both; [|apply or_iff_both; [|apply or_iff_both; [|reflexivity]]].
  - rewrite in_flat_map. split.
    + intros [p [Hp H]]. rewrite setOf_In in Hp.
      destruct (Js.mem p _) eqn:E; [contradiction|].
      apply mem_not_In in E. rewrite setOf_In in E.
      destruct H as [<-|[]]. simpl. tauto.
    + intros [Hm [H3 H4]]. exists (DiffBuilder.DiffMismatch.path m).
      split; [now apply setOf_In|].
      replace (Js.mem _ _) with false; [now left|].
      symmetry. apply mem_not_In. now rewrite setOf_In.
  - rewrite in_flat_map. split.
    + intros [p [Hp H]]. rewrite setOf_In in Hp.
      destruct (Js.mem p _) eqn:E; [contradiction|].
      apply mem_not_In in E. rewrite setOf_In in E.
      destruct H as [<-|[]]. simpl. tauto.
    + intros [Hm [H3 H4]]. exists (DiffBuilder.DiffMismatch.path m).
      split; [now apply setOf_In|].
      replace (Js.mem _ _) with false; [now left|].
      symmetry. apply mem_not_In. now rewrite setOf_In.
  - rewrite in_flat_map. unfold fileAt. split.
    + intros [f [Hf H]]. exists f.
      destruct (find _ _) as [g|]; [|contradiction]. exists g.
      destruct (String.eqb_spec (GeneratedFile.hash f) (GeneratedFile.hash g)) as [E|E];
        [contradiction|].
      cbn [negb] in H. destruct H as [<-|H]; tauto.
    + intros [f [g [Hf [Hg [Hh H]]]]]. exists f. split; [exact Hf|].
      rewrite Hg. apply String.eqb_neq in Hh. rewrite Hh. cbn [negb].
      destruct H as [->|H]; [now left | now right].
Qed.

Lemma buildDiff_critical_iff (a3 a4 : CodegenOutput.t) (now : string) :
  (exists m, In m (DiffBuilder.DiffResult.mismatches (DiffBuilder.buildDiff a3 a4 now))
             /\ DiffBuilder.DiffMismatch.severity m = critical)
  <-> exists p, oneSided a3 a4 p.
Proof.
  split.
  - intros [m [Hm Hs]]. apply buildDiff_origin in Hm.
    destruct Hm as [[_ H]|[[_ H]|[[f [g [_ [_ [_ H]]]]]|H]]].
    + exists (DiffBuilder.DiffMismatch.path m). now left.
    + exists (DiffBuilder.DiffMismatch.path m). now right.
    + destruct H as [->|H]; [discriminate Hs|].
      apply builder_compareContent_kind in H. destruct H as [_ [_ [H|H]]]; congruence.
    + apply compareMetadata_kind in H. destruct H as [[_ H]|[_ H]]; congruence.
  - intros [p [[H3 H4]|[H4 H3]]].
    + eexists. split; [apply (buildDiff_missing a3 a4 now p H3 H4) | reflexivity].
    + eexists. split; [apply (buildDiff_extra a3 a4 now p H4 H3) | reflexivity].
Qed.

Lemma samePaths_oneSided (a3 a4 : CodegenOutput.t) :
  samePaths a3 a4 <-> ~ exists p, oneSided a3 a4 p.
Proof.
  unfold samePaths, oneSided. split.
  - intros H [p [[H3 H4]|[H4 H3]]]; apply H in H3 || apply H in H4; contradiction.
  - intros H p. split; intros Hp.
    + destruct (in_dec String.string_dec p (pathsOf a4)) as [Hi|Hn]; [exact Hi|].
      exfalso. apply H. exists p. now left.
    + destruct (in_dec String.string_dec p (pathsOf a3)) as [Hi|Hn]; [exact Hi|].
      exfalso. apply H. exists p. now right.
Qed.

Lemma filesMatch_samePaths (a3 a4 : CodegenOutput.t) (now : string) :
  DiffBuilder.DiffSummary.filesMatch
    (DiffBuilder.DiffResult.summary (DiffBuilder.buildDiff a3 a4 now)) = true
  <-> samePaths a3 a4.
Proof.
  unfold DiffBuilder.buildDiff. cbv zeta.
  cbn [DiffBuilder.DiffResult.summary DiffBuilder.DiffSummary.filesMatch].
  rewrite andb_true_iff, !forallb_forall. unfold samePaths. fold (pathsOf a3) (pathsOf a4).
  split.
  - intros [H3 H4] p. split; intros Hp.
    + rewrite <- setOf_In in Hp. apply H3 in Hp. rewrite mem_In, setOf_In in Hp. exact Hp.
    + rewrite <- setOf_In in Hp. apply H4 in Hp. rewrite mem_In, setOf_In in Hp. exact Hp.
  - intros H. split; intros p Hp; rewrite mem_In, setOf_In; rewrite setOf_In in Hp;
      now apply H.
Qed.

(** Property X2.  The flag filesMatch of the summary holds exactly when the two
    bundles have the same set of paths, which is exactly when no mismatch is
    critical; the report's verdict is MISMATCH exactly when the flag is
    off. *)
Theorem filesMatch_iff_no_critical (a3 a4 : CodegenOutput.t) (now : string) :
  let r := DiffBuilder.buildDiff a3 a4 now in
  let s := DiffBuilder.DiffResult.summary r in
  (DiffBuilder.DiffSummary.filesMatch s = true <-> samePaths a3 a4)
  /\ (DiffBuilder.DiffSummary.filesMatch s = true
      <-> DiffBuilder.DiffSummary.criticalCount s = 0)
  /\ (DiffBuilder.DiffSummary.filesMatch s = false
      <-> DiffBuilder.DiffReport.verdict (DiffBuilder.generateDiffReport r) = "MISMATCH").
Proof.
  cbv zeta.
  pose proof (filesMatch_samePaths a3 a4 now) as Hf.
  pose proof (buildDiff_critical_iff a3 a4 now) as Hc.
  pose proof (buildDiff_counts a3 a4 now critical) as Hn. cbv zeta in Hn.
  change (length (filter (DiffBuilder.hasSeverity critical)
                    (DiffBuilder.DiffResult.mismatches (DiffBuilder.buildDiff a3 a4 now))))
    with (DiffBuilder.DiffSummary.criticalCount
            (DiffBuilder.DiffResult.summary (DiffBuilder.buildDiff a3 a4 now))) in Hn.
  destruct (generateDiffReport_cases (DiffBuilder.buildDiff a3 a4 now)) as [_ [Hx _]].
  cbv zeta in Hx.
  assert (H0 : DiffBuilder.DiffSummary.filesMatch
                 (DiffBuilder.DiffResult.summary (DiffBuilder.buildDiff a3 a4 now)) = true
               <-> DiffBuilder.DiffSummary.criticalCount
                     (DiffBuilder.DiffResult.summary (DiffBuilder.buildDiff a3 a4 now)) = 0).
  { rewrite Hf, samePaths_oneSided, <- Hc, <- Hn. lia. }
  split; [exact Hf|]. split; [exact H0|].
  rewrite Hx. rewrite <- not_true_iff_false, H0. lia.
Qed.

(** ** The diff builder: the verdict in terms of the bundles *)

Lemma hashesAgree_cases (a3 a4 : CodegenOutput.t) :
  hashesAgree a3 a4
  \/ exists f g, In f (CodegenOutput.files a3)
                 /\ fileAt a4 (GeneratedFile.path f) = Some g
                 /\ GeneratedFile.hash f <> GeneratedFile.hash g.
Proof.
  unfold hashesAgree.
  induction (CodegenOutput.files a3) as [|f l IH].
  - left. intros f g [].
  - destruct IH as [IH|[f' [g' [Hf' H']]]].
    + destruct (fileAt a4 (GeneratedFile.path f)) as [g|] eqn:Eg.
      * destruct (String.string_dec (GeneratedFile.hash f) (GeneratedFile.hash g))
          as [Eh|Eh].
        -- left. intros f' g' [<-|Hf'] Hg'; [|now apply IH].
           rewrite Eg in Hg'. injection Hg' as <-. exact Eh.
        -- right. exists f, g. split; [now left | tauto].
      * left. intros f' g' [<-|Hf'] Hg'; [|now apply IH].
        rewrite Eg in Hg'. discriminate Hg'.
    + right. exists f', g'. split; [now right | exact H'].
Qed.

Lemma builder_major_iff (a3 a4 : CodegenOutput.t) (now : string) :
  (exists m, In m (DiffBuilder.DiffResult.mismatches (DiffBuilder.buildDiff a3 a4 now))
             /\ DiffBuilder.DiffMismatch.severity m = major)
  <-> ~ (hashesAgree a3 a4
         /\ GenerationMetadata.manifestHash (CodegenOutput.metadata a3)
            = GenerationMetadata.manifestHash (CodegenOutput.metadata a4)).
Proof.
  split.
  - intros [m [Hm Hs]] [Ha He]. apply buildDiff_origin in Hm.
    destruct Hm as [[E _]|[[E _]|[[f [g [Hf [Hg [Hh _]]]]]|H]]].
    + rewrite E in Hs. discriminate Hs.
    + rewrite E in Hs. discriminate Hs.
    + apply Hh. now apply Ha.
    + unfold DiffBuilder.compareMetadata in H. cbv zeta in H.
      rewrite !in_app_iff in H. destruct H as [H|[H|H]];
        match type of H with
        | In _ (if negb ?b then _ else _) => destruct b eqn:E
        end; try contradiction; destruct H as [<-|[]]; try discriminate Hs.
      apply String.eqb_neq in E. contradiction.
  - intros H.
    destruct (hashesAgree_cases a3 a4) as [Ha|[f [g [Hf [Hg Hh]]]]].
    + assert (He : GenerationMetadata.manifestHash (CodegenOutput.metadata a3)
                   <> GenerationMetadata.manifestHash (CodegenOutput.metadata a4))
        by tauto.
      eexists. split; [apply buildDiff_origin|].
      * right. right. right. unfold DiffBuilder.compareMetadata. cbv zeta.
        rewrite !in_app_iff. right. right.
        apply String.eqb_neq in He. rewrite He. cbn [negb]. left. reflexivity.
      * reflexivity.
    + eexists. split; [apply buildDiff_origin|].
      * right. right. left. exists f, g. repeat split; try eassumption.
        left. reflexivity.
      * reflexivity.
Qed.

Lemma builder_counts_in_terms_of_bundles (a3 a4 : CodegenOutput.t) (now : string) :
  let s := DiffBuilder.DiffResult.summary (DiffBuilder.buildDiff a3 a4 now) in
  (samePaths a3 a4 <-> DiffBuilder.DiffSummary.criticalCount s = 0)
  /\ (hashesAgree a3 a4
      /\ GenerationMetadata.manifestHash (CodegenOutput.metadata a3)
         = GenerationMetadata.manifestHash (CodegenOutput.metadata a4)
      <-> DiffBuilder.DiffSummary.majorCount s = 0).
Proof.
  cbv zeta.
  pose proof (buildDiff_counts a3 a4 now critical) as Hc.
  pose proof (buildDiff_counts a3 a4 now major) as Hj.
  cbv zeta in Hc, Hj.
  change (length (filter (DiffBuilder.hasSeverity critical)
                    (DiffBuilder.DiffResult.mismatches (DiffBuilder.buildDiff a3 a4 now))))
    with (DiffBuilder.DiffSummary.criticalCount
            (DiffBuilder.DiffResult.summary (DiffBuilder.buildDiff a3 a4 now))) in Hc.
  change (length (filter (DiffBuilder.hasSeverity major)
                    (DiffBuilder.DiffResult.mismatches (DiffBuilder.buildDiff a3 a4 now))))
    with (DiffBuilder.DiffSummary.majorCount
            (DiffBuilder.DiffResult.summary (DiffBuilder.buildDiff a3 a4 now))) in Hj.
  rewrite buildDiff_critical_iff in Hc. rewrite builder_major_iff in Hj.
  pose proof (samePaths_oneSided a3 a4) as Hs.
  split.
  - rewrite Hs, <- Hc. lia.
  - split.
    + intros H. destruct (Nat.eq_dec (DiffBuilder.DiffSummary.majorCount
                (DiffBuilder.DiffResult.summary (DiffBuilder.buildDiff a3 a4 now))) 0)
        as [E|E]; [exact E|].
      exfalso. apply Hj; [lia | exact H].
    + intros E.
      destruct (hashesAgree_cases a3 a4) as [Ha|[f [g [Hf [Hg Hh]]]]].
      * split; [exact Ha|].
        destruct (String.string_dec
                    (GenerationMetadata.manifestHash (CodegenOutput.metadata a3))
                    (GenerationMetadata.manifestHash (CodegenOutput.metadata a4)))
          as [Eh|Eh]; [exact Eh|].
        exfalso. assert (0 < DiffBuilder.DiffSummary.majorCount
                (DiffBuilder.DiffResult.summary (DiffBuilder.buildDiff a3 a4 now)))
          by (apply Hj; tauto). lia.
      * exfalso. assert (0 < DiffBuilder.DiffSummary.majorCount
                (DiffBuilder.DiffResult.summary (DiffBuilder.buildDiff a3 a4 now))).
        { apply Hj. intros [Ha _]. apply Hh. now apply Ha. }
        lia.
Qed.

(** Property X3.  The report of the diff builder says MATCH exactly when the
    bundles have the same paths, every file has the hash of the file found
    for its path in the other bundle, and the manifest hashes are equal;
    it says MISMATCH exactly when the sets of paths differ, and
    PARTIAL_MATCH otherwise.  File contents, bundle hashes, versions and
    generators have no part in it. *)
Theorem diff_report_in_terms_of_bundles (a3 a4 : CodegenOutput.t) (now : string) :
  let v := DiffBuilder.DiffReport.verdict
             (DiffBuilder.generateDiffReport (DiffBuilder.buildDiff a3 a4 now)) in
  (v = "MATCH" <->
   samePaths a3 a4
   /\ (hashesAgree a3 a4
       /\ GenerationMetadata.manifestHash (CodegenOutput.metadata a3)
          = GenerationMetadata.manifestHash (CodegenOutput.metadata a4)))
  /\ (v = "MISMATCH" <-> ~ samePaths a3 a4)
  /\ (v = "PARTIAL_MATCH" <->
      samePaths a3 a4
      /\ ~ (hashesAgree a3 a4
            /\ GenerationMetadata.manifestHash (CodegenOutput.metadata a3)
               = GenerationMetadata.manifestHash (CodegenOutput.metadata a4))).
Proof.
  cbv zeta.
  destruct (generateDiffReport_cases (DiffBuilder.buildDiff a3 a4 now)) as [Hm [Hx Hp]].
  cbv zeta in Hm, Hx, Hp.
  destruct (builder_counts_in_terms_of_bundles a3 a4 now) as [P1 P2]. cbv zeta in P1, P2.
  rewrite Hm, Hx, Hp, P1, P2. repeat split; intros; lia.
Qed.

(** ** The adjudicator: the verdict in terms of the bundles *)

Lemma compareContent_normalized (c1 c2 p : string) (options : option ComparisonOptions.t) :
  Adjudicator.compareContent c1 c2 p options
  = if negb (String.eqb (normalized options c1) (normalized options c2)) then
      [SemanticDiff.mk p CONTENT_DIFF major "File content differs between A3 and A4"
         (Some (Adjudicator.excerpt (normalized options c1)))
         (Some (Adjudicator.excerpt (normalized options c2))) None]
    else [].
Proof. reflexivity. Qed.

Lemma compare_origin (a3 a4 : CodegenOutput.t) (options : option ComparisonOptions.t)
      (diffs : list SemanticDiff.t) (d : SemanticDiff.t) :
  Adjudicator.compare (bothPresent a3 a4 options) = Returned diffs ->
  (In d diffs <->
   (d = SemanticDiff.mk (SemanticDiff.path d) MISSING_FILE critical
          "File exists in A3 but missing in A4" (Some "present") (Some "missing") None
    /\ In (SemanticDiff.path d) (pathsOf a3) /\ ~ In (SemanticDiff.path d) (pathsOf a4))
   \/ (d = SemanticDiff.mk (SemanticDiff.path d) EXTRA_FILE critical
             "File exists in A4 but missing in A3" (Some "missing") (Some "present") None
       /\ In (SemanticDiff.path d) (pathsOf a4) /\ ~ In (SemanticDiff.path d) (pathsOf a3))
   \/ (exists f g,
          In f (CodegenOutput.files a3)
          /\ fileAt a4 (GeneratedFile.path f) = Some g
          /\ GeneratedFile.hash f <> GeneratedFile.hash g
          /\ normalized options (GeneratedFile.content f)
             <> normalized options (GeneratedFile.content g)
          /\ d = SemanticDiff.mk (GeneratedFile.path f) CONTENT_DIFF major
                   "File content differs between A3 and A4"
                   (Some (Adjudicator.excerpt (normalized options (GeneratedFile.content f))))
                   (Some (Adjudicator.excerpt (normalized options (GeneratedFile.content g))))
                   None)).
Proof.
  unfold Adjudicator.compare, bothPresent, pathsOf.
  cbn [ComparisonInput.a3Output ComparisonInput.a4Output ComparisonInput.options
       readProperty bind].
  intros H. injection H as <-. rewrite !in_app_iff.
  apply or_iff_both; [|apply or_iff_both].
  - rewrite in_flat_map. split.
    + intros [p [Hp H]]. rewrite setOf_In in Hp.
      destruct (Js.mem p _) eqn:E; [contradiction|].
      apply mem_not_In in E. rewrite setOf_In in E.
      destruct H as [<-|[]]. simpl. tauto.
    + intros [Hm [H3 H4]]. exists (SemanticDiff.path d).
      split; [now apply setOf_In|].
      replace (Js.mem _ _) with false; [now left|].
      symmetry. apply mem_not_In. now rewrite setOf_In.
  - rewrite in_flat_map. split.
    + intros [p [Hp H]]. rewrite setOf_In in Hp.
      destruct (Js.mem p _) eqn:E; [contradiction|].
      apply mem_not_In in E. rewrite setOf_In in E.
      destruct H as [<-|[]]. simpl. tauto.
    + intros [Hm [H3 H4]]. exists (SemanticDiff.path d).
      split; [now apply setOf_In|].
      replace (Js.mem _ _) with false; [now left|].
      symmetry. apply mem_not_In. now rewrite setOf_In.
  - rewrite in_flat_map. unfold fileAt. split.
    + intros [f [Hf H]]. exists f.
      destruct (find _ _) as [g|]; [|contradiction]. exists g.
      destruct (String.eqb_spec (GeneratedFile.hash f) (GeneratedFile.hash g)) as [E|E];
        [contradiction|].
      cbn [negb] in H. rewrite compareContent_normalized in H.
      destruct (String.eqb_spec (normalized options (GeneratedFile.content f))
                                (normalized options (GeneratedFile.content g))) as [E'|E'];
        [contradiction|].
      destruct H as [<-|[]]. tauto.
    + intros [f [g [Hf [Hg [Hh [Hc ->]]]]]]. exists f. split; [exact Hf|].
      rewrite Hg. apply String.eqb_neq in Hh. rewrite Hh. cbn [negb].
      rewrite compareContent_normalized.
      apply String.eqb_neq in Hc. rewrite Hc. now left.
Qed.

Lemma compare_critical_iff (a3 a4 : CodegenOutput.t) (options : option ComparisonOptions.t)
      (diffs : list SemanticDiff.t) :
  Adjudicator.compare (bothPresent a3 a4 options) = Returned diffs ->
  (someDiff diffs critical <-> ~ samePaths a3 a4).
Proof.
  intros H. rewrite samePaths_oneSided. unfold someDiff. split.
  - intros [d [Hd Hs]] Hn. apply Hn. rewrite (compare_origin a3 a4 options diffs d H) in Hd.
    destruct Hd as [[_ Hp]|[[_ Hp]|[f [g [_ [_ [_ [_ E]]]]]]]].
    + exists (SemanticDiff.path d). now left.
    + exists (SemanticDiff.path d). now right.
    + rewrite E in Hs. discriminate Hs.
  - intros Hn.
    assert (Hex : exists p, oneSided a3 a4 p).
    { clear H. unfold oneSided.
      assert (Hl : forall l, (forall p, In p l -> In p (pathsOf a4))
                             \/ exists p, In p l /\ ~ In p (pathsOf a4)).
      { induction l as [|p l IH]; [left; intros p []|].
        destruct (in_dec String.string_dec p (pathsOf a4)) as [Hi|Hi].
        - destruct IH as [IH|[q [Hq Hq']]].
          + left. intros q [<-|Hq]; [exact Hi | now apply IH].
          + right. exists q. split; [now right | exact Hq'].
        - right. exists p. split; [now left | exact Hi]. }
      assert (Hr : forall l, (forall p, In p l -> In p (pathsOf a3))
                             \/ exists p, In p l /\ ~ In p (pathsOf a3)).
      { induction l as [|p l IH]; [left; intros p []|].
        destruct (in_dec String.string_dec p (pathsOf a3)) as [Hi|Hi].
        - destruct IH as [IH|[q [Hq Hq']]].
          + left. intros q [<-|Hq]; [exact Hi | now apply IH].
          + right. exists q. split; [now right | exact Hq'].
        - right. exists p. split; [now left | exact Hi]. }
      destruct (Hl (pathsOf a3)) as [H3|[p Hp]]; [|exists p; now left].
      destruct (Hr (pathsOf a4)) as [H4|[p Hp]]; [|exists p; now right].
      exfalso. apply Hn. intros [p [[Ha Hb]|[Ha Hb]]]; [apply Hb, H3, Ha | apply Hb, H4, Ha]. }
    destruct Hex as [p [[H3 H4]|[H4 H3]]].
    + eexists. split; [apply (compare_missing a3 a4 options p diffs H H3 H4) | reflexivity].
    + eexists. split; [apply (compare_extra a3 a4 options p diffs H H4 H3) | reflexivity].
Qed.

Lemma compare_major_iff (a3 a4 : CodegenOutput.t) (options : option ComparisonOptions.t)
      (diffs : list SemanticDiff.t) :
  Adjudicator.compare (bothPresent a3 a4 options) = Returned diffs ->
  (someDiff diffs major <-> contentDiffers a3 a4 options).
Proof.
  intros H. unfold someDiff, contentDiffers. split.
  - intros [d [Hd Hs]]. rewrite (compare_origin a3 a4 options diffs d H) in Hd.
    destruct Hd as [[E _]|[[E _]|[f [g Hfg]]]].
    + rewrite E in Hs. discriminate Hs.
    + rewrite E in Hs. discriminate Hs.
    + exists f, g. tauto.
  - intros [f [g [Hf [Hg [Hh Hc]]]]].
    eexists. split.
    + apply (compare_origin a3 a4 options diffs _ H). right. right.
      exists f, g. repeat split; try eassumption.
    + reflexivity.
Qed.

Lemma contentDiffers_cases (a3 a4 : CodegenOutput.t) (options : option ComparisonOptions.t) :
  contentDiffers a3 a4 options \/ ~ contentDiffers a3 a4 options.
Proof.
  unfold contentDiffers.
  induction (CodegenOutput.files a3) as [|f l IH].
  - right. intros [f [g [[] _]]].
  - destruct IH as [[f' [g' [Hf' H']]]|IH].
    + left. exists f', g'. split; [now right | exact H'].
    + destruct (fileAt a4 (GeneratedFile.path f)) as [g|] eqn:Eg.
      * destruct (String.string_dec (GeneratedFile.hash f) (GeneratedFile.hash g))
          as [Eh|Eh].
        -- right. intros [f' [g' [[<-|Hf'] [Hg' [Hh' Hc']]]]].
           ++ rewrite Eg in Hg'. injection Hg' as <-. contradiction.
           ++ apply IH. exists f', g'. tauto.
        -- destruct (String.string_dec (normalized options (GeneratedFile.content f))
                                       (normalized options (GeneratedFile.content g)))
             as [Ec|Ec].
           ++ right. intros [f' [g' [[<-|Hf'] [Hg' [Hh' Hc']]]]].
              ** rewrite Eg in Hg'. injection Hg' as <-. contradiction.
              ** apply IH. exists f', g'. tauto.
           ++ left. exists f, g. split; [now left | tauto].
      * right. intros [f' [g' [[<-|Hf'] [Hg' [Hh' Hc']]]]].
        -- rewrite Eg in Hg'. discriminate Hg'.
        -- apply IH. exists f', g'. tauto.
Qed.

Lemma verdictOf_cases (diffs : list SemanticDiff.t) (now : string) :
  (forall d, In d diffs -> compareSeverity d) ->
  let v := AdjudicationVerdict.verdict (Adjudicator.verdictOf diffs now) in
  (v = MISMATCH <-> someDiff diffs critical)
  /\ (v = PARTIAL_MATCH <-> ~ someDiff diffs critical /\ someDiff diffs major)
  /\ (v = MATCH <-> ~ someDiff diffs critical /\ ~ someDiff diffs major)
  /\ (v = MATCH <-> diffs = []).
Proof.
  intros Hsev. cbv zeta.
  rewrite <- !someDiff_filter.
  assert (Hnil : diffs = [] <->
                 ~ 0 < length (filter (Adjudicator.hasSeverity critical) diffs)
                 /\ ~ 0 < length (filter (Adjudicator.hasSeverity major) diffs)).
  { split; [intros ->; simpl; lia|].
    intros [Hc Hm]. destruct diffs as [|d l]; [reflexivity|]. exfalso.
    destruct (Hsev d (or_introl eq_refl)) as [[Hs _]|[Hs _]].
    - apply Hc. apply someDiff_filter. exists d. split; [now left | exact Hs].
    - apply Hm. apply someDiff_filter. exists d. split; [now left | exact Hs]. }
  unfold Adjudicator.verdictOf. cbv zeta.
  destruct (length diffs =? 0) eqn:E0.
  - apply Nat.eqb_eq in E0. apply length_zero_iff_nil in E0. subst diffs. simpl.
    repeat split; intros; try discriminate; try lia; try tauto.
  - apply Nat.eqb_neq in E0.
    assert (Hne : diffs <> []) by (intros ->; apply E0; reflexivity).
    destruct (0 <? length (filter (Adjudicator.hasSeverity critical) diffs)) eqn:Ec.
    + apply Nat.ltb_lt in Ec. cbn [AdjudicationVerdict.verdict].
      repeat split; intros; try discriminate; try lia; try tauto.
    + apply Nat.ltb_ge in Ec.
      destruct (0 <? length (filter (Adjudicator.hasSeverity major) diffs)) eqn:Em.
      * apply Nat.ltb_lt in Em. cbn [AdjudicationVerdict.verdict].
        repeat split; intros; try discriminate; try lia; try tauto.
      * apply Nat.ltb_ge in Em. exfalso. apply Hne, Hnil. lia.
Qed.

Lemma adjudicate_decided
      (a3 a4 : CodegenOutput.t) (options : option ComparisonOptions.t) (now : string) :
  exists diffs,
    Adjudicator.compare (bothPresent a3 a4 options) = Returned diffs
    /\ Adjudicator.adjudicate (bothPresent a3 a4 options) now
       = Returned (Adjudicator.verdictOf diffs now)
    /\ (AdjudicationVerdict.verdict (Adjudicator.verdictOf diffs now) = MISMATCH
        <-> ~ samePaths a3 a4)
    /\ (AdjudicationVerdict.verdict (Adjudicator.verdictOf diffs now) = PARTIAL_MATCH
        <-> samePaths a3 a4 /\ contentDiffers a3 a4 options)
    /\ (AdjudicationVerdict.verdict (Adjudicator.verdictOf diffs now) = MATCH
        <-> samePaths a3 a4 /\ ~ contentDiffers a3 a4 options)
    /\ (AdjudicationVerdict.verdict (Adjudicator.verdictOf diffs now) = MATCH
        <-> diffs = []).
Proof.
  destruct (compare_returns a3 a4 options) as [diffs Hc].
  exists diffs. split; [exact Hc|].
  split; [unfold Adjudicator.adjudicate; now rewrite Hc|].
  destruct (verdictOf_cases diffs now (compare_severity _ diffs Hc)) as [Hx [Hp [Hm Hn]]].
  cbv zeta in Hx, Hp, Hm, Hn.
  pose proof (compare_critical_iff a3 a4 options diffs Hc) as Kc.
  pose proof (compare_major_iff a3 a4 options diffs Hc) as Km.
  assert (Ks : ~ someDiff diffs critical <-> samePaths a3 a4).
  { rewrite Kc. split; [|tauto]. intros H.
    rewrite samePaths_oneSided. intros Ho. apply H. rewrite samePaths_oneSided. tauto. }
  split; [now rewrite Hx|]. split; [now rewrite Hp, Ks, Km|].
  split; [now rewrite Hm, Ks, Km | exact Hn].
Qed.

(** Property X4.  On two bundles the adjudicator always returns a verdict, and
    the bundles decide it: MISMATCH exactly when the sets of paths differ;
    PARTIAL_MATCH exactly when the paths agree and some file differs from
    the file found for its path both in hash and in content as normalized
    under the options; MATCH, at confidence 1.0 and with no diffs, in the
    remaining case.  Files whose hashes are equal are never compared by
    content. *)
Theorem adjudicate_in_terms_of_bundles
        (a3 a4 : CodegenOutput.t) (options : option ComparisonOptions.t) (now : string) :
  exists v,
    Adjudicator.adjudicate (bothPresent a3 a4 options) now = Returned v
    /\ (AdjudicationVerdict.verdict v = MISMATCH <-> ~ samePaths a3 a4)
    /\ (AdjudicationVerdict.verdict v = PARTIAL_MATCH
        <-> samePaths a3 a4 /\ contentDiffers a3 a4 options)
    /\ (AdjudicationVerdict.verdict v = MATCH
        <-> samePaths a3 a4 /\ ~ contentDiffers a3 a4 options)
    /\ (AdjudicationVerdict.verdict v = MATCH ->
        AdjudicationVerdict.diffs v = []
        /\ AdjudicationVerdict.confidence v = 1.0%float
        /\ AdjudicationVerdict.summary v = "A3 and A4 outputs are identical.").
Proof.
  destruct (adjudicate_decided a3 a4 options now) as [diffs [_ [Ha [Hx [Hp [Hm Hn]]]]]].
  exists (Adjudicator.verdictOf diffs now).
  split; [exact Ha|]. split; [exact Hx|]. split; [exact Hp|]. split; [exact Hm|].
  intros Hv. apply Hn in Hv. subst diffs. repeat split.
Qed.

(** ** Which bundle comes first *)

Lemma fileAt_iff (o : CodegenOutput.t) (p : string) (g : GeneratedFile.t) :
  NoDup (pathsOf o) ->
  (fileAt o p = Some g <-> In g (CodegenOutput.files o) /\ GeneratedFile.path g = p).
Proof.
  unfold fileAt, pathsOf. induction (CodegenOutput.files o) as [|f l IH]; simpl.
  - intros _. split; [discriminate | intros [[] _]].
  - intros Hnd. inversion Hnd as [|x xs Hx Hl]; subst.
    destruct (String.eqb_spec (GeneratedFile.path f) p) as [E|E].
    + split.
      * intros H. injection H as <-. tauto.
      * intros [[<-|Hg] Hp]; [reflexivity|].
        exfalso. apply Hx. rewrite E, <- Hp. now apply in_map.
    + rewrite (IH Hl). split; [tauto|].
      intros [[<-|Hg] Hp]; [contradiction | tauto].
Qed.

Lemma samePaths_sym (a3 a4 : CodegenOutput.t) : samePaths a3 a4 <-> samePaths a4 a3.
Proof. unfold samePaths. split; intros H p; specialize (H p); tauto. Qed.

Lemma contentDiffers_sym (a3 a4 : CodegenOutput.t) (options : option ComparisonOptions.t) :
  NoDup (pathsOf a3) -> NoDup (pathsOf a4) ->
  contentDiffers a3 a4 options -> contentDiffers a4 a3 options.
Proof.
  intros N3 N4 [f [g [Hf [Hg [Hh Hc]]]]].
  apply (fileAt_iff a4 _ g N4) in Hg. destruct Hg as [Hg Hp].
  exists g, f. split; [exact Hg|]. split; [|split; congruence].
  apply (fileAt_iff a3 _ f N3). split; [exact Hf | congruence].
Qed.

Lemma hashesAgree_sym (a3 a4 : CodegenOutput.t) :
  NoDup (pathsOf a3) -> NoDup (pathsOf a4) -> hashesAgree a3 a4 -> hashesAgree a4 a3.
Proof.
  intros N3 N4 H g f Hg Hf.
  apply (fileAt_iff a3 _ f N3) in Hf. destruct Hf as [Hf Hp].
  symmetry. apply (H f g Hf). apply (fileAt_iff a4 _ g N4). split; [exact Hg | congruence].
Qed.

(** Property X5.  When no path is listed twice in either bundle, the verdict
    of the adjudicator and the verdict of the diff report do not depend on
    which of the two bundles is passed first. *)
Theorem verdicts_symmetric
        (a3 a4 : CodegenOutput.t) (options : option ComparisonOptions.t) (now : string) :
  NoDup (pathsOf a3) -> NoDup (pathsOf a4) ->
  verdictOn a3 a4 options now = verdictOn a4 a3 options now
  /\ DiffBuilder.DiffReport.verdict
       (DiffBuilder.generateDiffReport (DiffBuilder.buildDiff a3 a4 now))
     = DiffBuilder.DiffReport.verdict
         (DiffBuilder.generateDiffReport (DiffBuilder.buildDiff a4 a3 now)).
Proof.
  intros N3 N4. split.
  - unfold verdictOn.
    destruct (adjudicate_decided a3 a4 options now) as [d1 [C1 [A1 [X1 [P1 [M1 _]]]]]].
    destruct (adjudicate_decided a4 a3 options now) as [d2 [C2 [A2 [X2 [P2 [M2 _]]]]]].
    rewrite A1, A2. cbn [mapOutcome]. f_equal.
    assert (Hs : contentDiffers a3 a4 options <-> contentDiffers a4 a3 options)
      by (split; apply contentDiffers_sym; assumption).
    pose proof (samePaths_sym a3 a4) as Hp.
    destruct (AdjudicationVerdict.verdict (Adjudicator.verdictOf d1 now)) eqn:E1;
      destruct (AdjudicationVerdict.verdict (Adjudicator.verdictOf d2 now)) eqn:E2;
      try reflexivity; exfalso;
      repeat match goal with
             | H : _ = _ <-> _ |- _ => destruct H
             end;
      try (destruct (adjudicate_after_compare _ _ _ A1) as [_ [[[K _]|[[K _]|[K _]]] _]];
           rewrite E1 in K; discriminate K);
      try (destruct (adjudicate_after_compare _ _ _ A2) as [_ [[[K _]|[[K _]|[K _]]] _]];
           rewrite E2 in K; discriminate K);
      intuition (try discriminate; try tauto).
  - destruct (builder_counts_in_terms_of_bundles a3 a4 now) as [C1 M1].
    destruct (builder_counts_in_terms_of_bundles a4 a3 now) as [C2 M2].
    cbv zeta in C1, M1, C2, M2.
    assert (Hc : DiffBuilder.DiffSummary.criticalCount
                   (DiffBuilder.DiffResult.summary (DiffBuilder.buildDiff a3 a4 now)) = 0
                 <-> DiffBuilder.DiffSummary.criticalCount
                       (DiffBuilder.DiffResult.summary (DiffBuilder.buildDiff a4 a3 now)) = 0)
      by (rewrite <- C1, <- C2; apply samePaths_sym).
    assert (Hm : DiffBuilder.DiffSummary.majorCount
                   (DiffBuilder.DiffResult.summary (DiffBuilder.buildDiff a3 a4 now)) = 0
                 <-> DiffBuilder.DiffSummary.majorCount
                       (DiffBuilder.DiffResult.summary (DiffBuilder.buildDiff a4 a3 now)) = 0).
    { rewrite <- M1, <- M2. split; intros [Ha He];
        (split; [apply hashesAgree_sym; assumption | congruence]). }
    unfold DiffBuilder.generateDiffReport. cbn [DiffBuilder.DiffReport.verdict].
    destruct (DiffBuilder.DiffSummary.criticalCount
                (DiffBuilder.DiffResult.summary (DiffBuilder.buildDiff a3 a4 now)));
      destruct (DiffBuilder.DiffSummary.criticalCount
                  (DiffBuilder.DiffResult.summary (DiffBuilder.buildDiff a4 a3 now)));
      destruct (DiffBuilder.DiffSummary.majorCount
                  (DiffBuilder.DiffResult.summary (DiffBuilder.buildDiff a3 a4 now)));
      destruct (DiffBuilder.DiffSummary.majorCount
                  (DiffBuilder.DiffResult.summary (DiffBuilder.buildDiff a4 a3 now)));
      try reflexivity; exfalso; lia.
Qed.

Lemma verdicts_symmetric_witness :
  verdictOn mockA3Output mockA4OutputDifferent None "2024-01-01T00:00:02Z"
  = verdictOn mockA4OutputDifferent mockA3Output None "2024-01-01T00:00:02Z".
Proof.
  assert (N : NoDup ["index.ts"]) by (constructor; [intros []|constructor]).
  exact (proj1 (verdicts_symmetric mockA3Output mockA4OutputDifferent None
                  "2024-01-01T00:00:02Z" N N)).
Defined.

(** A path listed twice breaks the symmetry: the file found for a path is
    the first one listed. *)
Example verdict_depends_on_order_of_bundles :
  verdictOn mockA3Output twiceListed None "2024-01-01T00:00:02Z" = Returned MATCH
  /\ verdictOn twiceListed mockA3Output None "2024-01-01T00:00:02Z"
     = Returned PARTIAL_MATCH.
Proof. split; vm_compute; reflexivity. Qed.

(** ** Strings *)

Lemma length_append (s t : string) :
  String.length (s +++ t) = String.length s + String.length t.
Proof. induction s as [|c s IH]; simpl; [reflexivity | now rewrite IH]. Qed.

Lemma substring0_length (n : nat) (s : string) :
  String.length (String.substring 0 n s) = Nat.min n (String.length s).
Proof.
  revert n. induction s as [|c s IH]; intros [|n]; simpl; try reflexivity.
  now rewrite IH.
Qed.



(** ** The adjudicator: the excerpts of a content diff *)




(** ** The diff builder: content and repeated paths *)

(** Property X7.  The content comparison of the diff builder finds nothing
    exactly when the two contents have the same number of lines and the
    same set of exported names; whatever else differs in the text is not
    reported. *)
Theorem builder_compareContent_silent (c1 c2 p : string) :
  DiffBuilder.compareContent c1 c2 p = []
  <-> length (Js.split Js.nlc c1) = length (Js.split Js.nlc c2)
      /\ (forall e, In e (DiffBuilder.extractExports c1)
                    <-> In e (DiffBuilder.extractExports c2)).
Proof.
  unfold DiffBuilder.compareContent. cbv zeta. split.
  - intros H. apply app_eq_nil in H. destruct H as [Hl H].
    apply app_eq_nil in H. destruct H as [H3 H4].
    split.
    + destruct (Nat.eqb_spec (length (Js.split Js.nlc c1)) (length (Js.split Js.nlc c2)))
        as [E|E]; [exact E | discriminate Hl].
    + rewrite flat_map_nil in H3, H4. intros e. split; intros He.
      * specialize (H3 e He). destruct (Js.mem e _) eqn:Em; [|discriminate H3].
        now apply mem_In.
      * specialize (H4 e He). destruct (Js.mem e _) eqn:Em; [|discriminate H4].
        now apply mem_In.
  - intros [Hl He]. rewrite Hl, Nat.eqb_refl. cbn [negb app].
    assert (H3 : flat_map
                   (fun exp =>
                      if negb (Js.mem exp (DiffBuilder.extractExports c2))
                      then [DiffBuilder.DiffMismatch.mk CONTENT_DIFF major p
                              ("Export " +++ Js.dq +++ exp +++ Js.dq
                               +++ " exists in A3 but not in A4") None None]
                      else []) (DiffBuilder.extractExports c1) = []).
    { apply flat_map_nil. intros e Hi.
      replace (Js.mem e _) with true; [reflexivity|].
      symmetry. apply mem_In. now apply He. }
    rewrite H3. cbn [app].
    apply flat_map_nil. intros e Hi.
    replace (Js.mem e _) with true; [reflexivity|].
    symmetry. apply mem_In. now apply He.
Qed.

Lemma filter_none {A} (f : A -> bool) (l : list A) :
  (forall x, In x l -> f x = false) -> filter f l = [].
Proof.
  induction l as [|a l IH]; simpl; intros H; [reflexivity|].
  rewrite (H a (or_introl eq_refl)). apply IH. intros x Hx. apply H. now right.
Qed.

Lemma filter_all {A} (f : A -> bool) (l : list A) :
  (forall x, In x l -> f x = true) -> filter f l = l.
Proof.
  induction l as [|a l IH]; simpl; intros H; [reflexivity|].
  rewrite (H a (or_introl eq_refl)). f_equal. apply IH. intros x Hx. apply H. now right.
Qed.

Lemma one_per_path (t : DiffType) (s : DiffSeverity) (d : string) (a b : option string)
      (c : string -> bool) (l : list string) :
  let part := flat_map (fun path => if c path
                                    then [DiffBuilder.DiffMismatch.mk t s path d a b]
                                    else []) l in
  map DiffBuilder.DiffMismatch.path part = filter c l
  /\ forall m, In m part -> DiffBuilder.DiffMismatch.type m = t.
Proof.
  cbv zeta. induction l as [|p l [IH1 IH2]]; simpl; [split; [reflexivity | intros m []]|].
  destruct (c p); simpl.
  - split; [now rewrite IH1|]. intros m [<-|Hm]; [reflexivity | now apply IH2].
  - split; assumption.
Qed.

Lemma matching_types (a3 a4 : CodegenOutput.t) (m : DiffBuilder.DiffMismatch.t) :
  In m (flat_map
          (fun a3File =>
             match find (fun f => String.eqb (GeneratedFile.path f)
                                             (GeneratedFile.path a3File))
                        (CodegenOutput.files a4) with
             | None => []
             | Some a4File =>
                 if negb (String.eqb (GeneratedFile.hash a3File)
                                     (GeneratedFile.hash a4File)) then
                   DiffBuilder.DiffMismatch.mk HASH_MISMATCH major
                     (GeneratedFile.path a3File) "File hashes differ"
                     (Some (GeneratedFile.hash a3File))
                     (Some (GeneratedFile.hash a4File))
                   :: DiffBuilder.compareContent (GeneratedFile.content a3File)
                        (GeneratedFile.content a4File) (GeneratedFile.path a3File)
                 else []
             end) (CodegenOutput.files a3)
        ++ DiffBuilder.compareMetadata (CodegenOutput.metadata a3)
                                       (CodegenOutput.metadata a4)) ->
  DiffBuilder.DiffMismatch.type m = HASH_MISMATCH
  \/ DiffBuilder.DiffMismatch.type m = CONTENT_DIFF.
Proof.
  rewrite in_app_iff, in_flat_map. intros [[f [_ H]]|H].
  - destruct (find _ _) as [g|]; [|contradiction].
    destruct (negb _); [|contradiction].
    destruct H as [<-|H]; [now left|].
    apply builder_compareContent_kind in H. tauto.
  - apply compareMetadata_kind in H. tauto.
Qed.

(** Property X8.  A path that one bundle lists, however many times, and the
    other lacks is reported once: the MISSING_FILE mismatches carry the
    distinct paths of the first bundle that the second lacks, in the order
    of their first listing, and the EXTRA_FILE mismatches those of the
    second that the first lacks. *)
Theorem one_sided_path_reported_once (a3 a4 : CodegenOutput.t) (now : string) :
  let mismatches := DiffBuilder.DiffResult.mismatches (DiffBuilder.buildDiff a3 a4 now) in
  let missing := map DiffBuilder.DiffMismatch.path
                     (filter (hasType MISSING_FILE) mismatches) in
  let extra := map DiffBuilder.DiffMismatch.path
                   (filter (hasType EXTRA_FILE) mismatches) in
  missing = filter (fun p => negb (Js.mem p (Js.setOf (pathsOf a4)))) (Js.setOf (pathsOf a3))
  /\ extra = filter (fun p => negb (Js.mem p (Js.setOf (pathsOf a3)))) (Js.setOf (pathsOf a4))
  /\ NoDup missing /\ NoDup extra
  /\ (forall p, In p missing <-> In p (pathsOf a3) /\ ~ In p (pathsOf a4))
  /\ (forall p, In p extra <-> In p (pathsOf a4) /\ ~ In p (pathsOf a3)).
Proof.
  cbv zeta.
  assert (H : map DiffBuilder.DiffMismatch.path
                  (filter (hasType MISSING_FILE)
                     (DiffBuilder.DiffResult.mismatches (DiffBuilder.buildDiff a3 a4 now)))
              = filter (fun p => negb (Js.mem p (Js.setOf (pathsOf a4)))) (Js.setOf (pathsOf a3))
              /\ map DiffBuilder.DiffMismatch.path
                   (filter (hasType EXTRA_FILE)
                      (DiffBuilder.DiffResult.mismatches (DiffBuilder.buildDiff a3 a4 now)))
                 = filter (fun p => negb (Js.mem p (Js.setOf (pathsOf a3))))
                          (Js.setOf (pathsOf a4))).
  { unfold DiffBuilder.buildDiff, pathsOf. cbv zeta.
    cbn [DiffBuilder.DiffResult.mismatches].
    match goal with
    | |- context [flat_map ?f (Js.setOf (map GeneratedFile.path (CodegenOutput.files a3)))
                  ++ flat_map ?g _ ++ ?rest] =>
        destruct (one_per_path MISSING_FILE critical "File exists in A3 but missing in A4"
                    (Some "present") (Some "missing")
                    (fun p => negb (Js.mem p (Js.setOf (map GeneratedFile.path
                                                          (CodegenOutput.files a4)))))
                    (Js.setOf (map GeneratedFile.path (CodegenOutput.files a3))))
          as [M1 M2];
        destruct (one_per_path EXTRA_FILE critical "File exists in A4 but missing in A3"
                    (Some "missing") (Some "present")
                    (fun p => negb (Js.mem p (Js.setOf (map GeneratedFile.path
                                                          (CodegenOutput.files a3)))))
                    (Js.setOf (map GeneratedFile.path (CodegenOutput.files a4))))
          as [E1 E2];
        cbv zeta in M1, M2, E1, E2;
        pose proof (matching_types a3 a4) as R
    end.
    rewrite !filter_app.
    split.
    - rewrite (filter_all (hasType MISSING_FILE));
        [|intros m Hm; unfold hasType; now rewrite (M2 m Hm)].
      rewrite (filter_none (hasType MISSING_FILE) (flat_map _ (Js.setOf (map _ (CodegenOutput.files a4)))));
        [|intros m Hm; unfold hasType; now rewrite (E2 m Hm)].
      rewrite <- filter_app.
      rewrite (filter_none (hasType MISSING_FILE));
        [|intros m Hm; unfold hasType; destruct (R m Hm) as [-> | ->]; reflexivity].
      cbn [app]. rewrite app_nil_r. exact M1.
    - rewrite (filter_none (hasType EXTRA_FILE));
        [|intros m Hm; unfold hasType; now rewrite (M2 m Hm)].
      rewrite (filter_all (hasType EXTRA_FILE));
        [|intros m Hm; unfold hasType; now rewrite (E2 m Hm)].
      rewrite <- filter_app.
      rewrite (filter_none (hasType EXTRA_FILE));
        [|intros m Hm; unfold hasType; destruct (R m Hm) as [-> | ->]; reflexivity].
      cbn [app]. rewrite app_nil_r. exact E1. }
  destruct H as [H1 H2]. rewrite H1, H2.
  split; [reflexivity|]. split; [reflexivity|].
  split; [apply NoDup_filter, setOf_NoDup|]. split; [apply NoDup_filter, setOf_NoDup|].
  split; intros p; rewrite filter_In, negb_true_iff, mem_not_In, !setOf_In; reflexivity.
Qed.

(** ** Bundles with the same files *)

Lemma nil_of_no_member {A} (l : list A) : (forall x, ~ In x l) -> l = [].
Proof. destruct l as [|a l]; [reflexivity|]. intros H. exfalso. apply (H a). now left. Qed.

Lemma same_path_same_file (o : CodegenOutput.t) (f g : GeneratedFile.t) :
  NoDup (pathsOf o) -> In f (CodegenOutput.files o) -> In g (CodegenOutput.files o) ->
  GeneratedFile.path f = GeneratedFile.path g -> f = g.
Proof.
  unfold pathsOf. induction (CodegenOutput.files o) as [|x l IH]; simpl; [intros _ []|].
  intros Hnd Hf Hg E. inversion Hnd as [|y ys Hx Hl]; subst.
  destruct Hf as [<-|Hf], Hg as [<-|Hg]; try reflexivity.
  - exfalso. apply Hx. rewrite E. now apply in_map.
  - exfalso. apply Hx. rewrite <- E. now apply in_map.
  - now apply IH.
Qed.

Lemma same_files_found (a3 a4 : CodegenOutput.t) (f g : GeneratedFile.t) :
  CodegenOutput.files a3 = CodegenOutput.files a4 -> NoDup (pathsOf a3) ->
  In f (CodegenOutput.files a3) -> fileAt a4 (GeneratedFile.path f) = Some g -> g = f.
Proof.
  intros Hfiles Hnd Hf Hg.
  assert (Hnd4 : NoDup (pathsOf a4)) by (unfold pathsOf in *; now rewrite <- Hfiles).
  apply (fileAt_iff a4 _ g Hnd4) in Hg. destruct Hg as [Hg Hp].
  rewrite <- Hfiles in Hg. now apply (same_path_same_file a3 g f Hnd Hg Hf).
Qed.

Lemma same_files_samePaths (a3 a4 : CodegenOutput.t) :
  CodegenOutput.files a3 = CodegenOutput.files a4 -> samePaths a3 a4.
Proof. intros H p. unfold pathsOf. now rewrite H. Qed.

Lemma same_files_no_mismatch (a3 a4 : CodegenOutput.t) (now : string) :
  CodegenOutput.files a3 = CodegenOutput.files a4 -> NoDup (pathsOf a3) ->
  sameProvenance (CodegenOutput.metadata a3) (CodegenOutput.metadata a4) ->
  DiffBuilder.DiffResult.mismatches (DiffBuilder.buildDiff a3 a4 now) = [].
Proof.
  intros Hfiles Hnd Hmeta. apply nil_of_no_member. intros m Hm.
  apply buildDiff_origin in Hm.
  pose proof (same_files_samePaths a3 a4 Hfiles) as Hs.
  destruct Hm as [[_ [H3 H4]]|[[_ [H4 H3]]|[[f [g [Hf [Hg [Hh _]]]]]|H]]].
  - apply H4. now apply Hs.
  - apply H3. now apply Hs.
  - apply Hh. now rewrite (same_files_found a3 a4 f g Hfiles Hnd Hf Hg).
  - rewrite (compareMetadata_same _ _ Hmeta) in H. exact H.
Qed.

Lemma same_files_adjudicated (a3 a4 : CodegenOutput.t)
      (options : option ComparisonOptions.t) (now : string) :
  CodegenOutput.files a3 = CodegenOutput.files a4 -> NoDup (pathsOf a3) ->
  Adjudicator.adjudicate (bothPresent a3 a4 options) now
  = Returned (Adjudicator.verdictOf [] now).
Proof.
  intros Hfiles Hnd.
  destruct (adjudicate_decided a3 a4 options now) as [diffs [_ [Ha [_ [_ [Hm Hn]]]]]].
  rewrite Ha. f_equal. f_equal. apply Hn, Hm.
  split; [now apply same_files_samePaths|].
  intros [f [g [Hf [Hg [Hh _]]]]]. apply Hh.
  now rewrite (same_files_found a3 a4 f g Hfiles Hnd Hf Hg).
Qed.

(** Property X9.  Two bundles with the same list of files, in which no path
    occurs twice, and with metadata of the same version, generator and
    manifest hash: the diff builder finds no mismatch and reports MATCH,
    and the adjudicator returns MATCH at confidence 1.0 without diffs.
    Time stamps, durations and bundle hashes may differ. *)
Theorem same_files_match
        (a3 a4 : CodegenOutput.t) (options : option ComparisonOptions.t) (now : string) :
  CodegenOutput.files a3 = CodegenOutput.files a4 ->
  NoDup (pathsOf a3) ->
  sameProvenance (CodegenOutput.metadata a3) (CodegenOutput.metadata a4) ->
  let r := DiffBuilder.buildDiff a3 a4 now in
  DiffBuilder.DiffResult.mismatches r = []
  /\ DiffBuilder.DiffResult.totalDiffs r = 0
  /\ DiffBuilder.DiffSummary.filesMatch (DiffBuilder.DiffResult.summary r) = true
  /\ DiffBuilder.DiffReport.verdict (DiffBuilder.generateDiffReport r) = "MATCH"
  /\ exists v,
      Adjudicator.adjudicate (bothPresent a3 a4 options) now = Returned v
      /\ AdjudicationVerdict.verdict v = MATCH
      /\ AdjudicationVerdict.confidence v = 1.0%float
      /\ AdjudicationVerdict.semanticallyEquivalent v = true
      /\ AdjudicationVerdict.diffs v = [].
Proof.
  intros Hfiles Hnd Hmeta. cbv zeta.
  pose proof (same_files_no_mismatch a3 a4 now Hfiles Hnd Hmeta) as Hm.
  assert (Ht : DiffBuilder.DiffResult.totalDiffs (DiffBuilder.buildDiff a3 a4 now) = 0).
  { change (DiffBuilder.DiffResult.totalDiffs (DiffBuilder.buildDiff a3 a4 now))
      with (length (DiffBuilder.DiffResult.mismatches (DiffBuilder.buildDiff a3 a4 now))).
    now rewrite Hm. }
  split; [exact Hm|]. split; [exact Ht|]. split; [|split].
  - apply filesMatch_samePaths. now apply same_files_samePaths.
  - apply (generateDiffReport_cases (DiffBuilder.buildDiff a3 a4 now)).
    change (DiffBuilder.DiffSummary.criticalCount
              (DiffBuilder.DiffResult.summary (DiffBuilder.buildDiff a3 a4 now)))
      with (length (filter (DiffBuilder.hasSeverity critical)
                      (DiffBuilder.DiffResult.mismatches (DiffBuilder.buildDiff a3 a4 now)))).
    change (DiffBuilder.DiffSummary.majorCount
              (DiffBuilder.DiffResult.summary (DiffBuilder.buildDiff a3 a4 now)))
      with (length (filter (DiffBuilder.hasSeverity major)
                      (DiffBuilder.DiffResult.mismatches (DiffBuilder.buildDiff a3 a4 now)))).
    rewrite Hm. split; reflexivity.
  - exists (Adjudicator.verdictOf [] now).
    split; [now apply same_files_adjudicated|]. repeat split.
Qed.

Lemma same_files_match_witness :
  DiffBuilder.DiffResult.mismatches
    (DiffBuilder.buildDiff mockA3Output mockA3Output "2024-01-01T00:00:02Z") = []
  /\ verdictOn mockA3Output mockA3Output None "2024-01-01T00:00:02Z" = Returned MATCH.
Proof.
  assert (N : NoDup (pathsOf mockA3Output)) by (constructor; [intros []|constructor]).
  assert (P : sameProvenance (CodegenOutput.metadata mockA3Output)
                             (CodegenOutput.metadata mockA3Output)) by (repeat split).
  destruct (same_files_match mockA3Output mockA3Output None "2024-01-01T00:00:02Z"
              eq_refl N P) as [Hm [_ [_ [_ [v [Hv [Hx _]]]]]]].
  split; [exact Hm|]. unfold verdictOn. rewrite Hv. cbn [mapOutcome]. now rewrite Hx.
Defined.

(** A bundle that lists a path twice does not match itself: the second
    file is compared with the first. *)
Example twice_listed_differs_from_itself :
  DiffBuilder.DiffReport.verdict
    (DiffBuilder.generateDiffReport
       (DiffBuilder.buildDiff twiceListed twiceListed "2024-01-01T00:00:02Z"))
  = "PARTIAL_MATCH"
  /\ verdictOn twiceListed twiceListed None "2024-01-01T00:00:02Z" = Returned PARTIAL_MATCH.
Proof. split; vm_compute; reflexivity. Qed.

(** ** Searching a text for a pattern that starts with a given character *)

Lemma index_char (c : ascii) (s : string) :
  String.index 0 (String c "") s = None <-> ~ In c (list_ascii_of_string s).
Proof.
  induction s as [|b s IH].
  - simpl. split; [intros _ [] | reflexivity].
  - cbn [String.index list_ascii_of_string In].
    destruct (String.prefix (String c "") (String b s)) eqn:Ep.
    + apply String.prefix_correct in Ep. simpl in Ep. injection Ep as -> _.
      split; [discriminate | intros H; exfalso; apply H; now left].
    + assert (Hne : b <> c).
      { intros ->. assert (E : String.prefix (String c "") (String c s) = true)
          by (apply String.prefix_correct; simpl; destruct s; reflexivity).
        rewrite E in Ep. discriminate Ep. }
      destruct (String.index 0 (String c "") s) as [n|].
      * split; [discriminate|]. intros H. exfalso. apply H. right.
        destruct (in_dec ascii_dec c (list_ascii_of_string s)) as [Hi|Hi]; [exact Hi|].
        apply IH in Hi. discriminate Hi.
      * split; [|reflexivity]. intros _ [E|Hi]; [contradiction|].
        revert Hi. now apply IH.
Qed.

Lemma includes_char (c : ascii) (s : string) :
  Js.includes s (String c "") = false <-> ~ In c (list_ascii_of_string s).
Proof.
  unfold Js.includes, Js.indexOf. rewrite <- index_char.
  destruct (String.index 0 (String c "") s); split; congruence.
Qed.

Section FirstCharacter.
Import Regex.
Variable r : regex.
Variable multiline : bool.
Variable c : ascii.

(** The pattern matches nowhere but at an occurrence of [c]. *)
Hypothesis starts :
  forall (p : pos) (cs : captures) (k : pos -> captures -> option result),
    (forall s', rest p <> String c s') -> run r multiline p cs k = None.

Lemma searchFrom_absent (fuel i : nat) (b : option ascii) (s : string) :
  ~ In c (list_ascii_of_string s) -> searchFrom r multiline i (mkPos b s) fuel = None.
Proof.
  revert i b s. induction fuel as [|fuel IH]; intros i b s Hs; simpl;
    unfold matchAt; rewrite starts.
  - reflexivity.
  - cbn [rest]. intros s' ->. apply Hs. now left.
  - destruct s as [|d s]; [reflexivity|]. apply IH.
    intros Hi. apply Hs. now right.
  - cbn [rest]. intros s' ->. apply Hs. now left.
Qed.

Lemma replaceAll_absent (by_ s : string) :
  ~ In c (list_ascii_of_string s) -> replaceAll r multiline by_ s = s.
Proof.
  intros Hs. unfold replaceAll, start. cbn [replaceFrom rest].
  now rewrite searchFrom_absent.
Qed.

Lemma matchAll_absent (s : string) :
  ~ In c (list_ascii_of_string s) -> matchAll r multiline s = [].
Proof.
  intros Hs. unfold matchAll, start. cbn [matchAllFrom rest].
  now rewrite searchFrom_absent.
Qed.

End FirstCharacter.

Lemma beginsWith_run {R : Type} (c : ascii) (r : Regex.regex) (multiline : bool) :
  beginsWith c r ->
  forall (p : Regex.pos) (cs : Regex.captures) (k : Regex.pos -> Regex.captures -> option R),
    (forall s', Regex.rest p <> String c s') -> Regex.run r multiline p cs k = None.
Proof.
  induction r as [|d|f|r1 IH1 r2 IH2|r1 IH1 r2 IH2|g r1 IH1|n r1 IH1|r1 IH1| |];
    cbn [beginsWith]; intros Hb p cs k Hp; try contradiction.
  - subst d. cbn [Regex.run]. destruct (Regex.rest p) as [|d s'] eqn:E; [reflexivity|].
    destruct (Ascii.eqb_spec c d) as [<-|Hd]; [|reflexivity].
    exfalso. now apply (Hp s').
  - cbn [Regex.run]. now apply IH1.
  - cbn [Regex.run]. now apply IH1.
Qed.

(** ** The adjudicator: comments *)

(** Property X10.  A content without the character slash has no comment to
    remove: [removeComments] returns it unchanged, and so does the
    normalization of a comparison that ignores comments only. *)
Theorem removeComments_without_slash (content : string) (o : ComparisonOptions.t) :
  Js.includes content "/" = false ->
  Adjudicator.removeComments content = content
  /\ (Adjudicator.truthy (ComparisonOptions.ignoreWhitespace o) = false ->
      normalized (Some o) content = content).
Proof.
  intros H. apply (includes_char "/") in H.
  assert (E : Adjudicator.removeComments content = content).
  { unfold Adjudicator.removeComments. cbv zeta.
    assert (B1 : beginsWith "/" (Regex.Seq [Regex.Lit "//"; Regex.Star true Regex.dot;
                                            Regex.Eol])) by reflexivity.
    assert (B2 : beginsWith "/" (Regex.Seq [Regex.Lit "/*"; Regex.Star false Regex.anyChar;
                                            Regex.Lit "*/"])) by reflexivity.
    rewrite (replaceAll_absent _ true "/" (beginsWith_run "/" _ true B1) "" content H).
    apply (replaceAll_absent _ false "/" (beginsWith_run "/" _ false B2) "" content H). }
  split; [exact E|]. intros Hw. unfold normalized.
  cbn [Adjudicator.optIgnoreWhitespace Adjudicator.optIgnoreComments]. rewrite Hw.
  destruct (Adjudicator.truthy (ComparisonOptions.ignoreComments o)); [exact E | reflexivity].
Qed.

Lemma removeComments_without_slash_witness :
  Adjudicator.removeComments "export const foo = 1;" = "export const foo = 1;".
Proof.
  exact (proj1 (removeComments_without_slash "export const foo = 1;"
                  (ComparisonOptions.mk None (Some true) None None) eq_refl)).
Defined.

(** ** The manifest loader: what loading can end in *)

Lemma validate_shape (version name critical low nominal optimal w3 w4 w5 wv threshold : any)
      (projectRest diamondRest rest : list (string * any)) :
  ManifestLoader.validateManifest
    (VObj (("version", version)
           :: ("project", VObj (("name", name) :: projectRest))
           :: ("thresholds", VObj [("critical", critical); ("low", low);
                                   ("nominal", nominal); ("optimal", optimal)])
           :: ("weights", VObj [("A3_governance", w3); ("A4_architecture", w4);
                                ("A5_implementation", w5); ("validation", wv)])
           :: ("diamond_hands", VObj (("threshold", threshold) :: diamondRest))
           :: rest))
  = Returned
      (ValidationResult.mk
         (length (errorsOf version name critical low nominal optimal threshold) =? 0)
         (errorsOf version name critical low nominal optimal threshold)
         (warningsOf w3 w4 w5 wv)).
Proof. reflexivity. Qed.

Lemma errorsOf_length (version name critical low nominal optimal threshold : any) :
  Value.truthy version = true -> Value.truthy name = true ->
  length (errorsOf version name critical low nominal optimal threshold) <= 4
  /\ forall e, In e (errorsOf version name critical low nominal optimal threshold) ->
               ValidationError.code e = "INVALID_THRESHOLDS"
               \/ ValidationError.code e = "INVALID_THRESHOLD".
Proof.
  intros Hv Hn. unfold errorsOf. rewrite Hv, Hn. cbn [negb app]. split.
  - destruct (Value.ge critical low), (Value.ge low nominal), (Value.ge nominal optimal),
             (Value.lt threshold (VNum 0) || Value.gt threshold (VNum 1)); simpl; lia.
  - intros e. rewrite !in_app_iff.
    destruct (Value.ge critical low), (Value.ge low nominal), (Value.ge nominal optimal),
             (Value.lt threshold (VNum 0) || Value.gt threshold (VNum 1)); simpl;
      intuition (subst; simpl; tauto).
Qed.

Lemma warningsOf_length (w3 w4 w5 wv : any) : length (warningsOf w3 w4 w5 wv) <= 1.
Proof. unfold warningsOf. cbv zeta. destruct (Value.gt _ _); simpl; lia. Qed.

Lemma validate_normalized (raw : any) :
  exists v,
    ManifestLoader.validateManifest (ManifestLoader.normalizeManifest raw) = Returned v
    /\ ValidationResult.valid v = (length (ValidationResult.errors v) =? 0)
    /\ length (ValidationResult.errors v) <= 4
    /\ length (ValidationResult.warnings v) <= 1
    /\ forall e, In e (ValidationResult.errors v) ->
                 ValidationError.code e = "INVALID_THRESHOLDS"
                 \/ ValidationError.code e = "INVALID_THRESHOLD".
Proof.
  destruct (normalizeManifest_shape raw)
    as (ver & name & de & re & c & l & n & o & a3 & a4 & a5 & va & th & sc & ap & apprs
        & ts & me & ev & ci & no & ro & -> & Hver & Hname).
  rewrite validate_shape. eexists. split; [reflexivity|].
  cbn [ValidationResult.valid ValidationResult.errors ValidationResult.warnings].
  split; [reflexivity|].
  destruct (errorsOf_length ver name c l n o th Hver Hname) as [H1 H2].
  split; [exact H1|]. split; [apply warningsOf_length | exact H2].
Qed.

Lemma validate_parsed (content : string) (m : any) :
  ManifestLoader.parseYaml content = Returned m ->
  exists v,
    ManifestLoader.validateManifest m = Returned v
    /\ ValidationResult.valid v = (length (ValidationResult.errors v) =? 0)
    /\ length (ValidationResult.errors v) <= 4
    /\ length (ValidationResult.warnings v) <= 1
    /\ forall e, In e (ValidationResult.errors v) ->
                 ValidationError.code e = "INVALID_THRESHOLDS"
                 \/ ValidationError.code e = "INVALID_THRESHOLD".
Proof.
  intros H. destruct (parseYaml_normalized content m H) as [raw ->].
  apply validate_normalized.
Qed.


(** Property X12.  The result of [loadManifest] is a success with a manifest
    and no error message, or a failure with an error message and no
    manifest; a success carries a validation result that is valid and
    without errors. *)
Theorem loadManifest_result_shape (fs : Fs.t) (manifestPath : string) :
  let r := ManifestLoader.loadManifest fs manifestPath in
  (ManifestLoadResult.success r = true
   /\ ManifestLoadResult.error r = None
   /\ exists m v, ManifestLoadResult.manifest r = Some m
                  /\ ManifestLoadResult.validationResult r = Some v
                  /\ ValidationResult.valid v = true
                  /\ ValidationResult.errors v = []
                  /\ exists content,
                      Fs.entryAt fs (Fs.resolve fs manifestPath) = Some (Fs.File content)
                      /\ ManifestLoader.parseYaml content = Returned m)
  \/ (ManifestLoadResult.success r = false
      /\ ManifestLoadResult.manifest r = None
      /\ exists message, ManifestLoadResult.error r = Some message).
Proof.
  cbv zeta. unfold ManifestLoader.loadManifest, Fs.existsSync, Fs.readFileSync.
  destruct (Fs.entryAt fs (Fs.resolve fs manifestPath)) as [[content|]|];
    cbn [negb bind]; try (right; split; [reflexivity|]; split; [reflexivity|]; eexists; reflexivity).
  destruct (ManifestLoader.parseYaml content) as [m|e] eqn:Hp; cbn [bind];
    [|right; split; [reflexivity|]; split; [reflexivity|]; eexists; reflexivity].
  destruct (validate_parsed content m Hp) as [v [Hv [Hvalid _]]].
  rewrite Hv. cbn [bind].
  destruct (ValidationResult.valid v) eqn:E; cbn [negb].
  - left. split; [reflexivity|]. split; [reflexivity|].
    exists m, v. split; [reflexivity|]. split; [reflexivity|]. split; [exact E|].
    split.
    + symmetry in Hvalid. apply Nat.eqb_eq in Hvalid. now apply length_zero_iff_nil.
    + exists content. split; [reflexivity | exact Hp].
  - right. split; [reflexivity|]. split; [reflexivity|]. eexists. reflexivity.
Qed.

(** ** The manifest loader: validation of a manifest of the declared type *)

Lemma notBelow_nan (a b : float) :
  Num.isNaN a = true \/ Num.isNaN b = true -> notBelow a b = false.
Proof.
  unfold notBelow, Value.ge, Value.lessThan.
  cbn [Value.toPrimitive Value.toNumber].
  intros [H|H]; rewrite H; [reflexivity | now rewrite orb_true_r].
Qed.

Lemma outsideUnit_nan (x : float) : Num.isNaN x = true -> outsideUnit x = false.
Proof.
  unfold outsideUnit, Value.lt, Value.gt, Value.lessThan.
  cbn [Value.toPrimitive Value.toNumber].
  intros H. rewrite H. now rewrite orb_true_r.
Qed.

Lemma no_errors_iff {A} (b1 b2 b3 b4 b5 b6 : bool) (e1 e2 e3 e4 e5 e6 : A) :
  (length ((if b1 then [e1] else []) ++ (if b2 then [e2] else [])
           ++ (if b3 then [e3] else []) ++ (if b4 then [e4] else [])
           ++ (if b5 then [e5] else []) ++ (if b6 then [e6] else [])) =? 0) = true
  <-> b1 = false /\ b2 = false /\ b3 = false /\ b4 = false /\ b5 = false /\ b6 = false.
Proof.
  destruct b1, b2, b3, b4, b5, b6; simpl; split; intros H;
    try discriminate H; try (repeat split; reflexivity);
    repeat match type of H with
           | _ /\ _ => destruct H as [? H]
           end; discriminate.
Qed.

(** Property X13.  On a manifest of the declared type [validateManifest] never
    throws, and the result is valid exactly when the version and the
    project name are not empty, no threshold is at or above the next one,
    and the approval threshold is not outside [0, 1].  The weights only
    ever produce a warning.  A comparison with NaN is false, so thresholds
    that are NaN pass. *)
Theorem validateManifest_declared_type (m : Schema.Manifest.t) :
  let t := Schema.Manifest.thresholds m in
  (exists v,
      ManifestLoader.validateManifest (Schema.Manifest.toValue m) = Returned v
      /\ length (ValidationResult.warnings v) <= 1
      /\ (ValidationResult.valid v = true
          <-> Schema.Manifest.version m <> ""
              /\ Schema.ProjectConfig.name (Schema.Manifest.project m) <> ""
              /\ notBelow (Schema.ThresholdConfig.critical t)
                          (Schema.ThresholdConfig.low t) = false
              /\ notBelow (Schema.ThresholdConfig.low t)
                          (Schema.ThresholdConfig.nominal t) = false
              /\ notBelow (Schema.ThresholdConfig.nominal t)
                          (Schema.ThresholdConfig.optimal t) = false
              /\ outsideUnit (Schema.DiamondHandsConfig.threshold
                                (Schema.Manifest.diamond_hands m)) = false))
  /\ (forall a b, Num.isNaN a = true \/ Num.isNaN b = true -> notBelow a b = false)
  /\ (forall x, Num.isNaN x = true -> outsideUnit x = false).
Proof.
  cbv zeta. split; [|split; [exact notBelow_nan | exact outsideUnit_nan]].
  destruct m as [version [name description repository] [critical low nominal optimal]
                   [w3 w4 w5 wv] [threshold score approval approvers] ts metrics ev ci
                   notifications roles].
  unfold Schema.Manifest.toValue, Schema.ProjectConfig.toValue,
    Schema.ThresholdConfig.toValue, Schema.WeightConfig.toValue,
    Schema.DiamondHandsConfig.toValue.
  cbn [Schema.Manifest.version Schema.Manifest.project Schema.Manifest.thresholds
       Schema.Manifest.weights Schema.Manifest.diamond_hands Schema.Manifest.thunder_strike
       Schema.Manifest.metrics Schema.Manifest.evidence Schema.Manifest.ci
       Schema.Manifest.notifications Schema.Manifest.roles
       Schema.ProjectConfig.name Schema.ProjectConfig.description
       Schema.ProjectConfig.repository
       Schema.ThresholdConfig.critical Schema.ThresholdConfig.low
       Schema.ThresholdConfig.nominal Schema.ThresholdConfig.optimal
       Schema.WeightConfig.A3_governance Schema.WeightConfig.A4_architecture
       Schema.WeightConfig.A5_implementation Schema.WeightConfig.validation
       Schema.DiamondHandsConfig.threshold Schema.DiamondHandsConfig.required_validation_score
       Schema.DiamondHandsConfig.approval_required Schema.DiamondHandsConfig.approvers].
  destruct notifications, roles; cbn [Schema.optional app];
    repeat plain_literal; rewrite validate_shape;
    (eexists; split; [reflexivity|]);
    cbn [ValidationResult.valid ValidationResult.errors ValidationResult.warnings];
    (split; [apply warningsOf_length|]);
    unfold errorsOf; cbn [Value.truthy];
    fold (notBelow critical low); fold (notBelow low nominal); fold (notBelow nominal optimal);
    fold (outsideUnit threshold);
    rewrite no_errors_iff, !negb_involutive, !String.eqb_neq; reflexivity.
Qed.

(** ** The manifest loader: documents without content *)

Lemma step_skipped (st : ManifestLoader.state) (line : string) :
  isSkipped line = true -> ManifestLoader.step st line = Returned st.
Proof. unfold isSkipped, ManifestLoader.step. cbv zeta. now intros ->. Qed.

Lemma run_skipped (st : ManifestLoader.state) (lines : list string) :
  forallb isSkipped lines = true -> ManifestLoader.run st lines = Returned st.
Proof.
  induction lines as [|line lines IH]; simpl; [reflexivity|].
  intros H. apply andb_true_iff in H. destruct H as [Hl Hr].
  rewrite (step_skipped st line Hl). cbn [bind]. now apply IH.
Qed.

Lemma validate_defaults :
  ManifestLoader.validateManifest manifestOfDefaults
  = Returned (ValidationResult.mk true [] []).
Proof. vm_compute. reflexivity. Qed.

(** Property X14.  A document in which every line is a comment or blank
    parses to the manifest of the defaults (version 2.0.0, thresholds 0.3,
    0.5, 0.7 and 0.9, and so on), and loading it succeeds without errors
    or warnings: an empty manifest file is not rejected. *)
Theorem document_without_content_loads_defaults
        (fs : Fs.t) (manifestPath content : string) :
  Fs.entryAt fs (Fs.resolve fs manifestPath) = Some (Fs.File content) ->
  forallb isSkipped (Js.split Js.nlc content) = true ->
  ManifestLoader.parseYaml content = Returned manifestOfDefaults
  /\ ManifestLoader.loadManifest fs manifestPath
     = ManifestLoadResult.mk true (Some manifestOfDefaults) None
         (Some (ValidationResult.mk true [] []))
  /\ Value.optGet manifestOfDefaults "version" = VStr "2.0.0"
  /\ map (field manifestOfDefaults "thresholds") ["critical"; "low"; "nominal"; "optimal"]
     = [VNum 0.3; VNum 0.5; VNum 0.7; VNum 0.9].
Proof.
  intros Hfile Hlines.
  assert (Hp : ManifestLoader.parseYaml content = Returned manifestOfDefaults).
  { unfold ManifestLoader.parseYaml. cbv zeta. rewrite (run_skipped _ _ Hlines).
    reflexivity. }
  split; [exact Hp|]. split.
  - unfold ManifestLoader.loadManifest, Fs.existsSync, Fs.readFileSync.
    rewrite Hfile. cbn [negb bind]. rewrite Hp. cbn [bind].
    rewrite validate_defaults. reflexivity.
  - split; vm_compute; reflexivity.
Qed.

Lemma document_without_content_loads_defaults_witness :
  ManifestLoader.loadManifest (oneFile "manifest.yaml" commentsOnly) "manifest.yaml"
  = ManifestLoadResult.mk true (Some manifestOfDefaults) None
      (Some (ValidationResult.mk true [] [])).
Proof.
  exact (proj1 (proj2 (document_without_content_loads_defaults
                         (oneFile "manifest.yaml" commentsOnly) "manifest.yaml"
                         commentsOnly eq_refl eq_refl))).
Defined.

(** ** Hashes *)

Lemma concat_length_const (n : nat) (l : list string) :
  (forall s, In s l -> String.length s = n) ->
  String.length (String.concat "" l) = n * length l.
Proof.
  induction l as [|s l IH]; intros H; [simpl; lia|].
  assert (Hs : String.length s = n) by (apply H; now left).
  assert (Hl : String.length (String.concat "" l) = n * length l)
    by (apply IH; intros s' Hs'; apply H; now right).
  destruct l as [|s' l'].
  - simpl. simpl in Hl. lia.
  - change (String.concat "" (s :: s' :: l')) with (s +++ "" +++ String.concat "" (s' :: l')).
    rewrite !length_append, Hl, Hs. cbn [String.length length]. lia.
Qed.

Lemma chars_append (s t : string) :
  list_ascii_of_string (s +++ t) = list_ascii_of_string s ++ list_ascii_of_string t.
Proof. induction s as [|c s IH]; simpl; [reflexivity | now rewrite IH]. Qed.

Lemma concat_chars (f : ascii -> bool) (l : list string) :
  (forall s, In s l -> forallb f (list_ascii_of_string s) = true) ->
  forallb f (list_ascii_of_string (String.concat "" l)) = true.
Proof.
  induction l as [|s l IH]; intros H; [reflexivity|].
  assert (Hs : forallb f (list_ascii_of_string s) = true) by (apply H; now left).
  assert (Hl : forallb f (list_ascii_of_string (String.concat "" l)) = true)
    by (apply IH; intros s' Hs'; apply H; now right).
  destruct l as [|s' l'].
  - exact Hs.
  - change (String.concat "" (s :: s' :: l')) with (s +++ "" +++ String.concat "" (s' :: l')).
    rewrite !chars_append, !forallb_app, Hs, Hl. reflexivity.
Qed.

Lemma substring0_chars (f : ascii -> bool) (n : nat) (s : string) :
  forallb f (list_ascii_of_string s) = true ->
  forallb f (list_ascii_of_string (String.substring 0 n s)) = true.
Proof.
  revert n. induction s as [|c s IH]; intros [|n]; simpl; try reflexivity.
  intros H. apply andb_true_iff in H. destruct H as [-> H]. now apply IH.
Qed.

Lemma hexDigit_hex (n : nat) : isHexDigit (Json.hexDigit n) = true.
Proof.
  do 16 (destruct n as [|n]; [reflexivity|]). reflexivity.
Qed.

Lemma digest_length (msg : list N) : length (Sha256.digest msg) = 32.
Proof.
  unfold Sha256.digest. cbv zeta.
  set (s := fold_left Sha256.compress _ _). clearbody s.
  reflexivity.
Qed.

Lemma hex_shape (text : string) :
  String.length (Sha256.hex text) = 64
  /\ forallb isHexDigit (list_ascii_of_string (Sha256.hex text)) = true.
Proof.
  unfold Sha256.hex. split.
  - rewrite (concat_length_const 2).
    + now rewrite length_map, digest_length.
    + intros s Hs. apply in_map_iff in Hs. destruct Hs as [x [<- _]]. reflexivity.
  - apply concat_chars. intros s Hs. apply in_map_iff in Hs. destruct Hs as [x [<- _]].
    unfold Sha256.hexOctet. cbn [list_ascii_of_string forallb].
    now rewrite !hexDigit_hex.
Qed.

Lemma shortHash (text : string) : isShortHash (Js.slice0 16 (Sha256.hex text)).
Proof.
  destruct (hex_shape text) as [Hl Hc]. unfold isShortHash, Js.slice0.
  rewrite Hl. split.
  - rewrite substring0_length, Hl. reflexivity.
  - now apply substring0_chars.
Qed.

Lemma serialize_defined (K : option (list string)) (v : any) :
  Json.serialize K v = None <-> v = VUndefined.
Proof.
  destruct v as [| |[|]| | | |]; simpl; split; intros H; try discriminate H; reflexivity.
Qed.

(** Property X15.  [hashContent] returns sixteen lower-case hexadecimal digits
    for every text.  [hashManifest] returns such a hash for every value but
    [undefined] and [null], on which it throws the TypeError of
    [Object.keys]; it never returns anything else. *)
Theorem hashes_are_sixteen_hex_digits :
  (forall content, isShortHash (ManifestLoader.hashContent content))
  /\ (forall manifest,
         manifest <> VUndefined -> manifest <> VNull ->
         exists h, ManifestLoader.hashManifest manifest = Returned h /\ isShortHash h)
  /\ (forall manifest,
         manifest = VUndefined \/ manifest = VNull ->
         ManifestLoader.hashManifest manifest
         = Thrown (TypeError "Cannot convert undefined or null to object")).
Proof.
  split; [|split].
  - intros content. apply shortHash.
  - intros manifest Hu Hn. unfold ManifestLoader.hashManifest, ManifestLoader.manifestText.
    destruct (Json.stringifyWith (Js.sort (Value.keys manifest)) manifest) as [text|] eqn:E.
    + exists (Js.slice0 16 (Sha256.hex text)).
      split; [destruct manifest; try contradiction; reflexivity | apply shortHash].
    + apply serialize_defined in E. contradiction.
  - intros manifest [-> | ->]; reflexivity.
Qed.

(** ** The manifest loader: quoted values *)

Lemma substring_skip (s t : string) (m : nat) :
  String.substring (String.length s) m (s +++ t) = String.substring 0 m t.
Proof. induction s as [|c s IH]; simpl; [reflexivity | exact IH]. Qed.

Lemma substring0_append (s t : string) :
  String.substring 0 (String.length s) (s +++ t) = s.
Proof.
  induction s as [|c s IH]; simpl; [destruct t; reflexivity | now rewrite IH].
Qed.

Lemma prefix_char (c d : ascii) (s : string) :
  String.prefix (String c "") (String d s) = Ascii.eqb c d.
Proof.
  destruct (Ascii.eqb_spec c d) as [->|Hne].
  - apply String.prefix_correct. simpl. destruct s; reflexivity.
  - destruct (String.prefix (String c "") (String d s)) eqn:E; [|reflexivity].
    apply String.prefix_correct in E. simpl in E. injection E as E _. congruence.
Qed.

(** Property X16.  A value written between two double quotes or two single
    quotes, with no number sign in it, is the text between the quotes, as a
    string: a quoted number or a quoted [true] is not converted. *)
Theorem parseValue_quoted (q : ascii) (s : string) :
  q = Js.dqc \/ q = Js.sqc ->
  Js.includes s "#" = false ->
  ManifestLoader.parseValue (String q (s +++ String q "")) = VStr s.
Proof.
  intros Hq Hs. apply (includes_char "#") in Hs.
  assert (Hq' : q <> "#"%char) by (destruct Hq as [-> | ->]; discriminate).
  assert (Hi : Js.indexOf (String q (s +++ String q "")) "#" = None).
  { unfold Js.indexOf. apply index_char.
    cbn [list_ascii_of_string]. rewrite chars_append. cbn [list_ascii_of_string].
    intros [E|Hin]; [congruence|]. apply in_app_iff in Hin.
    destruct Hin as [Hin|[E|[]]]; [contradiction | congruence]. }
  assert (He : Js.endsWith (String q (s +++ String q "")) (String q "") = true).
  { unfold Js.endsWith. cbn [String.length]. rewrite length_append. cbn [String.length].
    replace (S (String.length s + 1) - 1) with (S (String.length s)) by lia.
    cbn [String.substring Nat.leb andb]. rewrite substring_skip.
    cbn [String.substring]. apply String.eqb_refl. }
  assert (Hsl : Js.slice1m1 (String q (s +++ String q "")) = s).
  { unfold Js.slice1m1. cbn [String.length]. rewrite length_append. cbn [String.length].
    replace (S (String.length s + 1) - 2) with (String.length s) by lia.
    cbn [String.substring]. apply substring0_append. }
  unfold ManifestLoader.parseValue. cbv zeta. rewrite Hi, Hsl.
  unfold Js.startsWith. clear Hi Hsl Hq'.
  destruct Hq as [-> | ->]; cbv delta [Js.dq Js.dqc Js.sqc] in *;
    rewrite !prefix_char, He; reflexivity.
Qed.

Lemma parseValue_quoted_witness :
  ManifestLoader.parseValue "'0.5'" = VStr "0.5".
Proof.
  exact (parseValue_quoted Js.sqc "0.5" (or_intror eq_refl) eq_refl).
Defined.

(** ** The manifest loader: the shape of a parsed manifest *)

Lemma arrayOr_array (x d : any) :
  Value.isArray d = true -> Value.isArray (ManifestLoader.arrayOr x d) = true.
Proof. intros H. unfold ManifestLoader.arrayOr. destruct (Value.isArray x) eqn:E; assumption. Qed.

Lemma normalizeManifest_full (raw : any) :
  exists version name description repository critical low nominal optimal
         w3 w4 w5 wv threshold score approval approvers levels advancement metrics
         directory formats retention artifacts trigger schedule jobs notifications roles,
    ManifestLoader.normalizeManifest raw
    = VObj [("version", version);
            ("project", VObj [("name", name); ("description", description);
                              ("repository", repository)]);
            ("thresholds", VObj [("critical", critical); ("low", low);
                                 ("nominal", nominal); ("optimal", optimal)]);
            ("weights", VObj [("A3_governance", w3); ("A4_architecture", w4);
                              ("A5_implementation", w5); ("validation", wv)]);
            ("diamond_hands", VObj [("threshold", threshold);
                                    ("required_validation_score", score);
                                    ("approval_required", approval);
                                    ("approvers", approvers)]);
            ("thunder_strike", VObj [("validation_levels", levels);
                                     ("required_for_advancement", advancement)]);
            ("metrics", metrics);
            ("evidence", VObj [("output_directory", directory); ("formats", formats);
                               ("retention_days", retention);
                               ("required_artifacts", artifacts)]);
            ("ci", VObj [("trigger_on", trigger); ("schedule", schedule); ("jobs", jobs)]);
            ("notifications", notifications);
            ("roles", roles)]
    /\ forallb Value.truthy
         [version; name; critical; low; nominal; optimal; w3; w4; w5; wv; threshold; score;
          directory; retention; schedule; jobs] = true
    /\ forallb Value.isArray [approvers; levels; advancement; formats; artifacts; trigger]
       = true
    /\ metrics = ManifestLoader.normalizeMetrics
                   (Value.or (Value.optGet raw "metrics") (VObj [])).
Proof.
  unfold ManifestLoader.normalizeManifest.
  repeat plain_literal.
  do 28 eexists. split; [reflexivity|]. split; [|split; [|reflexivity]].
  - cbn [forallb]. rewrite !or_truthy by reflexivity. reflexivity.
  - cbn [forallb]. rewrite !arrayOr_array by reflexivity. reflexivity.
Qed.

(** Property X17.  Whatever the document, a manifest that [parseYaml] returns
    has the eleven top-level properties and the properties of each section
    in declaration order, keys of the document that the schema does not
    know are dropped, every field with a default is truthy (so never zero,
    NaN or the empty string) and every list field is an array. *)
Theorem parsed_manifest_is_filled_in (content : string) (m : any) :
  ManifestLoader.parseYaml content = Returned m ->
  Value.keys m = topLevelKeys
  /\ map (fun s => Value.keys (Value.optGet m (fst s))) sectionKeys = map snd sectionKeys
  /\ Value.truthy (Value.optGet m "version") = true
  /\ forallb (fun f => Value.truthy (field m (fst f) (snd f))) filledFields = true
  /\ forallb (fun f => Value.isArray (field m (fst f) (snd f))) listFields = true.
Proof.
  intros H. destruct (parseYaml_normalized content m H) as [raw ->].
  destruct (normalizeManifest_full raw)
    as (ver & name & de & re & c & l & n & o & w3 & w4 & w5 & wv & th & sc & ap & apprs
        & lv & adv & me & dir & fo & ret & art & tr & sch & jobs & no & ro
        & -> & Ht & Ha & _).
  cbn [forallb] in Ht, Ha.
  repeat match type of Ht with
         | _ && _ = true => apply andb_true_iff in Ht; destruct Ht as [? Ht]
         end.
  repeat match type of Ha with
         | _ && _ = true => apply andb_true_iff in Ha; destruct Ha as [? Ha]
         end.
  split; [reflexivity|]. split; [reflexivity|]. split; [assumption|].
  unfold field, filledFields, listFields.
  cbn [forallb fst snd Value.optGet Value.lookup String.eqb Ascii.eqb Bool.eqb].
  split; repeat match goal with
                | H : ?x = true |- context [?x] => rewrite H
                end; reflexivity.
Qed.

Lemma parsed_manifest_is_filled_in_witness :
  exists m,
    ManifestLoader.parseYaml zeroDocument = Returned m
    /\ field m "thresholds" "critical" = VNum 0.3
    /\ field m "weights" "validation" = VNum 0.2
    /\ Value.keys m = topLevelKeys
    /\ forallb (fun f => Value.truthy (field m (fst f) (snd f))) filledFields = true.
Proof.
  pose (m := match ManifestLoader.parseYaml zeroDocument with
             | Returned x => x
             | Thrown _ => VUndefined
             end).
  assert (Hparse : ManifestLoader.parseYaml zeroDocument = Returned m)
    by (vm_compute; reflexivity).
  destruct (parsed_manifest_is_filled_in zeroDocument m Hparse) as [Hk [_ [_ [Hf _]]]].
  exists m. split; [exact Hparse|].
  split; [vm_compute; reflexivity|]. split; [vm_compute; reflexivity|].
  split; [exact Hk | exact Hf].
Defined.

(** ** The manifest loader: metrics *)

Lemma or_cases (a d : any) :
  Value.truthy (Value.or a d) = true \/ Value.or a d = d.
Proof. unfold Value.or. destruct (Value.truthy a) eqn:E; [left; exact E | right; reflexivity]. Qed.

Lemma metric_literal (value : any) :
  isMetric (Value.literal
              [("description", Value.or (Value.optGet value "description") (VStr ""));
               ("weight", Value.or (Value.optGet value "weight") (VNum 0));
               ("sources", ManifestLoader.arrayOr (Value.optGet value "sources") (VArr []))]).
Proof.
  plain_literal. unfold isMetric.
  split; [reflexivity|]. split; [now apply arrayOr_array|]. split; apply or_cases.
Qed.

Lemma normalizeMetrics_entries (metrics : any) (name : string) (v : any) :
  Value.lookup name (Value.entries (ManifestLoader.normalizeMetrics metrics)) = Some v ->
  isMetric v.
Proof.
  unfold ManifestLoader.normalizeMetrics. cbn [Value.entries].
  assert (H : forall l acc,
             (forall k x, Value.lookup k acc = Some x -> isMetric x) ->
             forall k x,
               Value.lookup k
                 (fold_left
                    (fun normalized kv =>
                       if String.eqb (Value.typeof (snd kv)) "object"
                          && negb match snd kv with VNull => true | _ => false end
                       then Value.define (fst kv)
                              (Value.literal
                                 [("description",
                                   Value.or (Value.optGet (snd kv) "description") (VStr ""));
                                  ("weight",
                                   Value.or (Value.optGet (snd kv) "weight") (VNum 0));
                                  ("sources",
                                   ManifestLoader.arrayOr (Value.optGet (snd kv) "sources")
                                                          (VArr []))])
                              normalized
                       else normalized) l acc) = Some x ->
               isMetric x).
  { induction l as [|kv l IH]; intros acc Hacc k x; cbn [fold_left]; [apply Hacc|].
    apply IH. intros k' x'.
    destruct (String.eqb (Value.typeof (snd kv)) "object"
              && negb match snd kv with VNull => true | _ => false end); [|apply Hacc].
    rewrite lookup_define. destruct (String.eqb k' (fst kv)); [|apply Hacc].
    intros E. injection E as <-. apply metric_literal. }
  apply (H (Value.entries metrics) []). intros k x E. discriminate E.
Qed.

(** Property X18.  In a manifest that [parseYaml] returns, every metric is an
    object with exactly the properties description, weight and sources,
    the sources being an array; a metric the document gives as a scalar is
    dropped. *)
Theorem parsed_metrics_are_normalized (content : string) (m : any) :
  ManifestLoader.parseYaml content = Returned m ->
  Value.typeof (Value.optGet m "metrics") = "object"
  /\ forall name v,
      Value.lookup name (Value.entries (Value.optGet m "metrics")) = Some v -> isMetric v.
Proof.
  intros H. destruct (parseYaml_normalized content m H) as [raw ->].
  destruct (normalizeManifest_full raw)
    as (ver & nm & de & re & c & l & n & o & w3 & w4 & w5 & wv & th & sc & ap & apprs
        & lv & adv & me & dir & fo & ret & art & tr & sch & jobs & no & ro
        & -> & _ & _ & ->).
  match goal with
  | |- context [Value.optGet ?obj "metrics"] =>
      change (Value.optGet obj "metrics")
        with (ManifestLoader.normalizeMetrics
                (Value.or (Value.optGet raw "metrics") (VObj [])))
  end.
  split; [reflexivity|]. intros name v. apply normalizeMetrics_entries.
Qed.

Lemma parsed_metrics_are_normalized_witness :
  exists m,
    ManifestLoader.parseYaml metricsDocument = Returned m
    /\ Value.keys (Value.optGet m "metrics") = ["coherence"]
    /\ forall name v,
        Value.lookup name (Value.entries (Value.optGet m "metrics")) = Some v -> isMetric v.
Proof.
  pose (m := match ManifestLoader.parseYaml metricsDocument with
             | Returned x => x
             | Thrown _ => VUndefined
             end).
  assert (Hparse : ManifestLoader.parseYaml metricsDocument = Returned m)
    by (vm_compute; reflexivity).
  exists m. split; [exact Hparse|]. split; [vm_compute; reflexivity|].
  exact (proj2 (parsed_metrics_are_normalized metricsDocument m Hparse)).
Defined.

(** ** The manifest loader: inline comments *)

Lemma index_first (c : ascii) (v t : string) :
  ~ In c (list_ascii_of_string v) ->
  String.index 0 (String c "") (v +++ String c t) = Some (String.length v).
Proof.
  induction v as [|b v IH]; intros H.
  - cbn [String.append String.index String.length]. rewrite prefix_char.
    now rewrite Ascii.eqb_refl.
  - cbn [String.append String.index String.length]. rewrite prefix_char.
    destruct (Ascii.eqb_spec c b) as [->|Hne]; [exfalso; apply H; now left|].
    rewrite IH; [reflexivity|]. intros Hin. apply H. now right.
Qed.

Lemma trimStart_chars (c : ascii) (s : string) :
  In c (list_ascii_of_string (Js.trimStart s)) -> In c (list_ascii_of_string s).
Proof.
  induction s as [|b s IH]; cbn [Js.trimStart]; [tauto|].
  destruct (Js.isSpace b); [intros H; right; now apply IH | tauto].
Qed.

Lemma trimEnd_chars (c : ascii) (s : string) :
  In c (list_ascii_of_string (Js.trimEnd s)) -> In c (list_ascii_of_string s).
Proof.
  induction s as [|b s IH]; cbn [Js.trimEnd]; [tauto|].
  destruct (String.eqb (Js.trimEnd s) "" && Js.isSpace b); [intros []|].
  intros [E|H]; [now left | right; now apply IH].
Qed.

Lemma trim_chars (c : ascii) (s : string) :
  In c (list_ascii_of_string (Js.trim s)) -> In c (list_ascii_of_string s).
Proof. intros H. now apply trimStart_chars, trimEnd_chars. Qed.

(** Property X19.  A number sign after the first character of a value
    starts a comment: the value is what precedes the sign, trimmed, and the
    rest is dropped, inside quotes as well. *)
Theorem parseValue_inline_comment (v comment : string) :
  v <> "" ->
  Js.includes v "#" = false ->
  ManifestLoader.parseValue (v +++ "#" +++ comment) = ManifestLoader.parseValue (Js.trim v).
Proof.
  intros Hne Hv. apply (includes_char "#") in Hv.
  assert (Ht : Js.indexOf (Js.trim v) "#" = None).
  { unfold Js.indexOf. apply index_char. intros H. apply Hv. now apply trim_chars. }
  assert (Hi : Js.indexOf (v +++ "#" +++ comment) "#" = Some (String.length v)).
  { unfold Js.indexOf. change ("#" +++ comment) with (String "#" comment).
    now apply index_first. }
  unfold ManifestLoader.parseValue at 1 2. cbv zeta. rewrite Hi, Ht.
  destruct v as [|b v]; [contradiction|]. cbn [String.length].
  unfold Js.substring. rewrite Nat.sub_0_r.
  change (S (String.length v)) with (String.length (String b v)).
  now rewrite substring0_append.
Qed.

Lemma parseValue_inline_comment_witness :
  ManifestLoader.parseValue "0.7  # the usual bar" = VNum 0.7
  /\ ManifestLoader.parseValue "'a#b'" = VStr "'a".
Proof.
  split.
  - change (ManifestLoader.parseValue ("0.7  " +++ "#" +++ " the usual bar") = VNum 0.7).
    rewrite (parseValue_inline_comment "0.7  " " the usual bar"); [|discriminate|reflexivity].
    vm_compute. reflexivity.
  - change (ManifestLoader.parseValue ("'a" +++ "#" +++ "b'") = VStr "'a").
    rewrite (parseValue_inline_comment "'a" "b'"); [|discriminate|reflexivity].
    vm_compute. reflexivity.
Defined.

(** ** The manifest loader: when parsing returns *)














(** A key given first as a section and then as a scalar: the nested line
    that follows is assigned into the scalar, which throws in the strict
    mode of a module, and the load fails. *)
Example repeated_key_fails_to_load :
  topLevelKeysOf (Js.split Js.nlc repeatedKeyDocument) = ["x"; "x"]
  /\ ManifestLoader.parseYaml repeatedKeyDocument
     = Thrown (TypeError "Cannot create property 'b' on number '5'")
  /\ ManifestLoader.loadManifest (oneFile "manifest.yaml" repeatedKeyDocument)
                                 "manifest.yaml"
     = ManifestLoadResult.mk false None
         (Some "Failed to load manifest: Cannot create property 'b' on number '5'") None.
Proof. repeat split; vm_compute; reflexivity. Qed.

(** ** Generator B: the bundle it returns *)

Lemma generate_inversion (fs : Fs.t) (clock : Clock.t) (config : A4Types.CodegenConfig.t)
      (o : A4Types.CodegenOutput.t) :
  A4Codegen.generate fs clock config = Returned o ->
  exists content manifest text hash,
    Fs.entryAt fs (Fs.resolve fs (A4Types.CodegenConfig.manifestPath config))
    = Some (Fs.File content)
    /\ A4Codegen.parseManifestRegex fs (A4Types.CodegenConfig.manifestPath config)
       = Returned manifest
    /\ Json.text manifest = Returned text
    /\ o = A4Types.CodegenOutput.mk
             [A4Codegen.buildTypesFile manifest; A4Codegen.buildConstantsFile manifest;
              A4Codegen.buildValidatorsFile manifest; A4Codegen.buildConfigFile manifest;
              A4Codegen.buildIndexFile
                [A4Codegen.buildTypesFile manifest; A4Codegen.buildConstantsFile manifest;
                 A4Codegen.buildValidatorsFile manifest; A4Codegen.buildConfigFile manifest]]
             (A4Types.GenerationMetadata.mk (Clock.timestamp clock) A4Codegen.VERSION
                (A4Codegen.generateHash text)
                (PrimFloat.sub (Clock.endTime clock) (Clock.startTime clock))
                (Some A4Codegen.GENERATOR) (Some 5))
             hash
    /\ A4Codegen.generateOutputHash o = Returned hash.
Proof.
  unfold A4Codegen.generate. cbv zeta.
  destruct (A4Codegen.parseManifestRegex fs (A4Types.CodegenConfig.manifestPath config))
    as [manifest|e] eqn:Hm; cbn [bind]; [|discriminate].
  destruct (Json.text manifest) as [text|e] eqn:Ht; cbn [bind]; [|discriminate].
  match goal with
  | |- (hash <- A4Codegen.generateOutputHash ?out ;; _) = _ -> _ =>
      destruct (A4Codegen.generateOutputHash out) as [hash|e] eqn:Hh; cbn [bind];
        [|discriminate]
  end.
  intros E. injection E as <-.
  assert (Hf : exists content,
             Fs.entryAt fs (Fs.resolve fs (A4Types.CodegenConfig.manifestPath config))
             = Some (Fs.File content)).
  { unfold A4Codegen.parseManifestRegex, Fs.readFileSync in Hm.
    destruct (Fs.entryAt fs _) as [[content|]|]; cbn [bind] in Hm; try discriminate Hm.
    now exists content. }
  destruct Hf as [content Hf].
  exists content, manifest, text, hash.
  split; [exact Hf|]. split; [reflexivity|]. split; [exact Ht|]. split; [reflexivity|].
  rewrite <- Hh. apply generateOutputHash_reads. reflexivity.
Qed.

(** Property X21.  A bundle that generator B returns has the five files
    types.ts, constants.ts, validators.ts, config.ts and index.ts in that
    order; the hash of each file is the hash of its content; the metadata
    carry the version 1.0.0, the generator a4-dual-ast, the file count 5,
    the timestamp of the clock and the time elapsed between its two
    readings; and every hash of the bundle is sixteen hexadecimal
    digits. *)
Theorem generate_bundle_shape
        (fs : Fs.t) (clock : Clock.t) (config : A4Types.CodegenConfig.t)
        (o : A4Types.CodegenOutput.t) :
  A4Codegen.generate fs clock config = Returned o ->
  let meta := A4Types.CodegenOutput.metadata o in
  map A4Types.GeneratedFile.path (A4Types.CodegenOutput.files o) = generatedPaths
  /\ (forall f, In f (A4Types.CodegenOutput.files o) ->
                A4Types.GeneratedFile.hash f
                = A4Codegen.generateHash (A4Types.GeneratedFile.content f)
                /\ isShortHash (A4Types.GeneratedFile.hash f))
  /\ A4Types.GenerationMetadata.version meta = "1.0.0"
  /\ A4Types.GenerationMetadata.generator meta = Some "a4-dual-ast"
  /\ A4Types.GenerationMetadata.fileCount meta = Some 5
  /\ A4Types.GenerationMetadata.timestamp meta = Clock.timestamp clock
  /\ A4Types.GenerationMetadata.durationMs meta
     = PrimFloat.sub (Clock.endTime clock) (Clock.startTime clock)
  /\ isShortHash (A4Types.GenerationMetadata.manifestHash meta)
  /\ isShortHash (A4Types.CodegenOutput.hash o).
Proof.
  intros H. cbv zeta.
  destruct (generate_inversion fs clock config o H)
    as (content & manifest & text & hash & _ & _ & _ & -> & Hh).
  cbn [A4Types.CodegenOutput.files A4Types.CodegenOutput.metadata A4Types.CodegenOutput.hash
       A4Types.GenerationMetadata.version A4Types.GenerationMetadata.generator
       A4Types.GenerationMetadata.fileCount A4Types.GenerationMetadata.timestamp
       A4Types.GenerationMetadata.durationMs A4Types.GenerationMetadata.manifestHash].
  split; [reflexivity|]. split.
  - intros f [<-|[<-|[<-|[<-|[<-|[]]]]]]; (split; [reflexivity | apply shortHash]).
  - repeat (split; [reflexivity|]). split; [apply shortHash|].
    unfold A4Codegen.generateOutputHash in Hh.
    destruct (Json.text _) as [t|e]; cbn [bind] in Hh; [|discriminate Hh].
    injection Hh as <-. apply shortHash.
Qed.

Lemma smallRun_returns (clock : Clock.t) :
  A4Codegen.generate (oneFile "manifest.yaml" smallManifest) clock smallConfig
  = Returned (smallRun clock).
Proof. vm_compute. reflexivity. Qed.

Lemma generate_bundle_shape_witness :
  map A4Types.GeneratedFile.path
      (A4Types.CodegenOutput.files
         (smallRun (clockAt 1704067200000 "2024-01-01T00:00:00.000Z")))
  = generatedPaths
  /\ isShortHash (A4Types.CodegenOutput.hash
                    (smallRun (clockAt 1704067200000 "2024-01-01T00:00:00.000Z"))).
Proof.
  destruct (generate_bundle_shape _ _ _ _
              (smallRun_returns (clockAt 1704067200000 "2024-01-01T00:00:00.000Z")))
    as [Hp [_ [_ [_ [_ [_ [_ [_ Hh]]]]]]]].
  split; [exact Hp | exact Hh].
Defined.

(** ** Generator B: what a run needs and what it ignores *)

(** Property X22.  A run of generator B returns a bundle exactly when the
    resolved manifest path holds a file; on a missing path it throws the
    ENOENT error of the read and on a directory the EISDIR error.  The
    output directory and the options of the configuration are never read:
    any two configurations with the same manifest path give the same
    run. *)
Theorem generate_needs_only_the_manifest
        (fs : Fs.t) (clock : Clock.t) (config : A4Types.CodegenConfig.t) :
  let resolved := Fs.resolve fs (A4Types.CodegenConfig.manifestPath config) in
  match Fs.entryAt fs resolved with
  | Some (Fs.File _) => exists o, A4Codegen.generate fs clock config = Returned o
  | Some Fs.Directory =>
      A4Codegen.generate fs clock config
      = Thrown (Error "EISDIR: illegal operation on a directory, read")
  | None =>
      A4Codegen.generate fs clock config
      = Thrown (Error ("ENOENT: no such file or directory, open '" +++ resolved +++ "'"))
  end
  /\ forall outputDir options,
      A4Codegen.generate fs clock
        (A4Types.CodegenConfig.mk (A4Types.CodegenConfig.manifestPath config)
                                  outputDir options)
      = A4Codegen.generate fs clock config.
Proof.
  cbv zeta. split; [|reflexivity].
  destruct (Fs.entryAt fs (Fs.resolve fs (A4Types.CodegenConfig.manifestPath config)))
    as [[content|]|] eqn:E.
  - now apply (generate_returns fs config clock content).
  - unfold A4Codegen.generate, A4Codegen.parseManifestRegex, Fs.readFileSync.
    rewrite E. reflexivity.
  - unfold A4Codegen.generate, A4Codegen.parseManifestRegex, Fs.readFileSync.
    rewrite E. reflexivity.
Qed.

(** ** Generator B under the adjudicator *)

Lemma asBundle_paths (o : A4Types.CodegenOutput.t) :
  pathsOf (asBundle o) = map A4Types.GeneratedFile.path (A4Types.CodegenOutput.files o).
Proof. unfold pathsOf, asBundle. cbn [CodegenOutput.files]. now rewrite map_map. Qed.

(** Property X23.  Two runs of generator B on the same file system and
    configuration, at different times: the diff builder finds no mismatch
    between the two bundles, with equal bundle hashes, and reports MATCH,
    and the adjudicator returns MATCH at confidence 1.0. *)
Theorem two_runs_match
        (fs : Fs.t) (config : A4Types.CodegenConfig.t) (clock1 clock2 : Clock.t)
        (o1 o2 : A4Types.CodegenOutput.t)
        (options : option ComparisonOptions.t) (now : string) :
  A4Codegen.generate fs clock1 config = Returned o1 ->
  A4Codegen.generate fs clock2 config = Returned o2 ->
  let r := DiffBuilder.buildDiff (asBundle o1) (asBundle o2) now in
  DiffBuilder.DiffResult.mismatches r = []
  /\ DiffBuilder.DiffSummary.hashMatch (DiffBuilder.DiffResult.summary r) = true
  /\ DiffBuilder.DiffSummary.filesMatch (DiffBuilder.DiffResult.summary r) = true
  /\ DiffBuilder.DiffReport.verdict (DiffBuilder.generateDiffReport r) = "MATCH"
  /\ Adjudicator.adjudicate (bothPresent (asBundle o1) (asBundle o2) options) now
     = Returned (AdjudicationVerdict.mk MATCH 1.0 true []
                   "A3 and A4 outputs are identical." now).
Proof.
  intros H1 H2. cbv zeta.
  pose proof (generate_by_clock fs config clock1 clock2) as H.
  rewrite H1, H2 in H. destruct H as [Hfiles [Hmh Hhash]].
  destruct (generate_inversion fs clock1 config o1 H1)
    as (c1 & m1 & t1 & h1 & _ & _ & _ & E1 & _).
  destruct (generate_inversion fs clock2 config o2 H2)
    as (c2 & m2 & t2 & h2 & _ & _ & _ & E2 & _).
  assert (Hf : CodegenOutput.files (asBundle o1) = CodegenOutput.files (asBundle o2))
    by (unfold asBundle; cbn [CodegenOutput.files]; now rewrite Hfiles).
  assert (Hnd : NoDup (pathsOf (asBundle o1))).
  { rewrite asBundle_paths, E1. cbn [A4Types.CodegenOutput.files].
    change (NoDup generatedPaths). unfold generatedPaths.
    repeat (constructor; [simpl; intuition discriminate|]). constructor. }
  assert (Hp : sameProvenance (CodegenOutput.metadata (asBundle o1))
                              (CodegenOutput.metadata (asBundle o2))).
  { unfold sameProvenance, asBundle.
    cbn [CodegenOutput.metadata GenerationMetadata.version GenerationMetadata.generator
         GenerationMetadata.manifestHash].
    rewrite Hmh. rewrite E1, E2. repeat split. }
  split; [now apply same_files_no_mismatch|]. split; [|split; [|split]].
  - unfold DiffBuilder.buildDiff, asBundle. cbv zeta.
    cbn [DiffBuilder.DiffResult.summary DiffBuilder.DiffSummary.hashMatch CodegenOutput.hash].
    rewrite Hhash. apply String.eqb_refl.
  - apply filesMatch_samePaths. now apply same_files_samePaths.
  - apply (generateDiffReport_cases
             (DiffBuilder.buildDiff (asBundle o1) (asBundle o2) now)).
    change (DiffBuilder.DiffSummary.criticalCount
              (DiffBuilder.DiffResult.summary
                 (DiffBuilder.buildDiff (asBundle o1) (asBundle o2) now)))
      with (length (filter (DiffBuilder.hasSeverity critical)
                      (DiffBuilder.DiffResult.mismatches
                         (DiffBuilder.buildDiff (asBundle o1) (asBundle o2) now)))).
    change (DiffBuilder.DiffSummary.majorCount
              (DiffBuilder.DiffResult.summary
                 (DiffBuilder.buildDiff (asBundle o1) (asBundle o2) now)))
      with (length (filter (DiffBuilder.hasSeverity major)
                      (DiffBuilder.DiffResult.mismatches
                         (DiffBuilder.buildDiff (asBundle o1) (asBundle o2) now)))).
    rewrite (same_files_no_mismatch _ _ now Hf Hnd Hp). split; reflexivity.
  - now apply same_files_adjudicated.
Qed.

Lemma two_runs_match_witness :
  DiffBuilder.DiffResult.mismatches
    (DiffBuilder.buildDiff
       (asBundle (smallRun (clockAt 1704067200000 "2024-01-01T00:00:00.000Z")))
       (asBundle (smallRun (clockAt 1704067201000 "2024-01-01T00:00:01.000Z")))
       "2024-01-01T00:00:02Z") = [].
Proof.
  exact (proj1 (two_runs_match _ _ _ _ _ _ None "2024-01-01T00:00:02Z"
                  (smallRun_returns (clockAt 1704067200000 "2024-01-01T00:00:00.000Z"))
                  (smallRun_returns (clockAt 1704067201000 "2024-01-01T00:00:01.000Z")))).
Defined.

(** ** Generator B: the manifest it extracts *)

Lemma define_keys {A} (k j : string) (v : A) (props : list (string * A)) :
  In j (map fst (Value.define k v props)) -> j = k \/ In j (map fst props).
Proof.
  unfold Value.define. destruct (Value.lookup k props) as [old|].
  - induction props as [|[k' v'] props IH]; simpl; [tauto|].
    destruct (String.eqb_spec k k') as [->|Hne]; simpl; [tauto|].
    intros [E|H]; [tauto|]. destruct (IH H); tauto.
  - induction props as [|[k' v'] props IH]; simpl; [intros [E|[]]; now left|].
    destruct (Value.isArrayIndex k && _); simpl; [intuition congruence|].
    intros [E|H]; [tauto|]. destruct (IH H); tauto.
Qed.

Lemma literal_keys (l : list (string * any)) (j : string) :
  In j (Value.keys (Value.literal l)) -> In j (map fst l).
Proof.
  unfold Value.literal. cbn [Value.keys].
  assert (H : forall acc, In j (map fst (fold_left (fun acc kv => Value.define (fst kv) (snd kv) acc) l acc)) ->
                          In j (map fst acc) \/ In j (map fst l)).
  { induction l as [|[k v] l IH]; intros acc; cbn [fold_left]; [tauto|].
    intros Hj. destruct (IH _ Hj) as [Hacc|Hl]; [|right; now right].
    cbn [fst snd] in Hacc. destruct (define_keys _ _ _ _ Hacc) as [->|Hacc'];
      [right; now left | now left]. }
  intros Hj. destruct (H [] Hj) as [[]|Hl]. exact Hl.
Qed.

Lemma extractMetrics_keys (content name : string) :
  In name (Value.keys (A4Codegen.extractMetrics content)) -> In name knownMetrics.
Proof.
  unfold A4Codegen.extractMetrics.
  destruct (Regex.exec _ false content) as [section|]; [|intros []].
  cbv zeta. intros H. apply literal_keys in H.
  rewrite flat_map_concat_map, concat_map, map_map in H.
  apply in_concat in H. destruct H as [keys [Hk Hn]].
  apply in_map_iff in Hk. destruct Hk as [known [<- Hknown]].
  destruct (Regex.exec _ false _); [|destruct Hn].
  destruct Hn as [<-|[]]. exact Hknown.
Qed.

(** Property X24.  The manifest generator B extracts from a file has the nine
    top-level properties version, project, thresholds, weights,
    diamond_hands, thunder_strike, metrics, evidence and ci, and its
    metrics are among coherence, alignment, velocity, stability and
    evidence_score: a metric of any other name in the file is left out of
    the generated code. *)
Theorem generatorB_reads_known_metrics_only
        (fs : Fs.t) (manifestPath : string) (manifest : any) :
  A4Codegen.parseManifestRegex fs manifestPath = Returned manifest ->
  Value.keys manifest = extractedKeys
  /\ forall name, In name (Value.keys (Value.optGet manifest "metrics")) ->
                  In name knownMetrics.
Proof.
  unfold A4Codegen.parseManifestRegex.
  destruct (Fs.readFileSync fs (Fs.resolve fs manifestPath)) as [content|e];
    cbn [bind]; [|discriminate].
  intros H. injection H as <-.
  plain_literal. split; [reflexivity|].
  intros name. cbn [Value.optGet Value.lookup String.eqb Ascii.eqb Bool.eqb andb].
  apply extractMetrics_keys.
Qed.

Lemma generatorB_reads_known_metrics_only_witness :
  exists manifest,
    A4Codegen.parseManifestRegex (oneFile "manifest.yaml" otherMetricDocument) "manifest.yaml"
    = Returned manifest
    /\ Value.keys manifest = extractedKeys
    /\ ~ In "latency" (Value.keys (Value.optGet manifest "metrics")).
Proof.
  pose (m := match A4Codegen.parseManifestRegex
                     (oneFile "manifest.yaml" otherMetricDocument) "manifest.yaml" with
             | Returned x => x
             | Thrown _ => VUndefined
             end).
  assert (H : A4Codegen.parseManifestRegex (oneFile "manifest.yaml" otherMetricDocument)
                                           "manifest.yaml" = Returned m)
    by (vm_compute; reflexivity).
  destruct (generatorB_reads_known_metrics_only _ _ m H) as [Hkeys Hk].
  exists m. split; [exact H|]. split; [exact Hkeys|].
  intros Hin. apply Hk in Hin. simpl in Hin. intuition discriminate.
Defined.
